(** * prismarine-physics: the per-tick player physics of [src/index.js]

    A shallow embedding of the simulator: the feature list, the construction
    of the physics closure, collision resolution ([getSurroundingBBs],
    [moveEntity]), the movement regimes ([applyHeading],
    [moveEntityWithHeading]), the liquid engine and [simulatePlayer].

    JavaScript numbers are IEEE-754 binary64 values: they are Rocq's primitive
    floats, so every arithmetic step rounds as the source does.  Integer
    counters ([jumpTicks], [fireworkRocketDuration]), block ids and block
    metadata are integers ([Z]); a counter of the source is a number, which
    counts by one exactly below 2^53, and the model of a counter is that of
    the source in that range.  An object that the source updates in place
    (the entity, its [pos] and [vel], a box) is passed along and returned.
    The attribute object of the entity is the exception: the model reads it
    and computes the speed from it, and the [attributes] of an entity stay
    those it came with (see [attributeSpeed]).
    A computation of the source that can raise, or whose loop need not end,
    is a value of type [Res].

    [PlayerState] copies the fields of the host bot into an entity and
    back; the packages it loads ([minecraft-data], [prismarine-nbt]) are
    taken as given. *)

From Stdlib Require Import ZArith List String Ascii Bool Lia.
From Stdlib Require Import Floats.
Import ListNotations.

#[local] Set Warnings "-inexact-float,-notation-for-abbreviation".
#[local] Open Scope Z_scope.
#[local] Open Scope string_scope.
#[local] Open Scope list_scope.

(** ** Results of JavaScript computations *)

Inductive JsError : Type :=
| TypeError
| Error (message : string).

Inductive Res (A : Type) : Type :=
| Ok (a : A)
| Throw (e : JsError)
| OutOfFuel.

Arguments Ok {A} a.
Arguments Throw {A} e.
Arguments OutOfFuel {A}.

Definition bind {A B : Type} (m : Res A) (k : A -> Res B) : Res B :=
  match m with
  | Ok a => k a
  | Throw e => Throw e
  | OutOfFuel => OutOfFuel
  end.

Notation "'let*' x ':=' m 'in' k" := (bind m (fun x => k))
  (at level 10, x name, m at level 200, k at level 200).
Notation "'let*' ' p ':=' m 'in' k" := (bind m (fun x => match x with p => k end))
  (at level 10, p pattern, m at level 200, k at level 200).

(** ** JavaScript numbers *)

Module Js.

(** The binary64 value of an integer (exact below 2^53). *)
Definition Z2F (z : Z) : float := SF2Prim (binary_normalize prec emax z 0 false).

(** [Math.floor] as an integer; [None] on NaN and the infinities. *)
Definition floorZ (x : float) : option Z :=
  match Prim2SF x with
  | S754_zero _ => Some 0
  | S754_finite s m e => Some (Z.shiftl (if s then Z.neg m else Z.pos m) e)
  | S754_infinity _ => None
  | S754_nan => None
  end.

(** [Math.floor]: NaN, the infinities and the zeros are returned as they are. *)
Definition Math_floor (x : float) : float :=
  if is_zero x then x
  else match floorZ x with
       | Some z => Z2F z
       | None => x
       end.

Definition Math_ceil (x : float) : float := (- Math_floor (- x))%float.

Definition Math_abs (x : float) : float := abs x.

Definition Math_sqrt (x : float) : float := sqrt x.

(** [Math.max] and [Math.min] of two numbers: NaN if either is NaN, and
    [-0] is below [+0]. *)
Definition Math_max (a b : float) : float :=
  if is_nan a || is_nan b then nan
  else if (a <? b)%float then b
  else if (b <? a)%float then a
  else if get_sign a then b else a.

Definition Math_min (a b : float) : float :=
  if is_nan a || is_nan b then nan
  else if (a <? b)%float then a
  else if (b <? a)%float then b
  else if get_sign a then a else b.

(** [Math.fround]: round to binary32 (24 bits of precision), then widen. *)
Definition Math_fround (x : float) : float :=
  match Prim2SF x with
  | S754_finite s m e => SF2Prim (binary_round 24 128 s m e)
  | _ => x
  end.

Definition Math_PI : float := 3.141592653589793%float.

(** A number in a boolean position: [0], [-0] and NaN are falsy. *)
Definition truthy (x : float) : bool := negb (is_nan x || is_zero x).

(** A boolean in an arithmetic position. *)
Definition Number (b : bool) : float := if b then 1%float else 0%float.

(** [a !== b] on numbers. *)
Definition neqb (a b : float) : bool := negb (a =? b)%float.

End Js.

#[local] Open Scope float_scope.

(** ** Three-vectors (the vec3 package, as the simulator uses it) *)

Module Vec3.

Record t : Type := mk { x : float; y : float; z : float }.

(** Modelled from the spec: the vec3 package is not among the sources.  A
    vector is a triple of numbers; [offset] and [floored] build a new
    vector. *)
Definition offset (v : t) (dx dy dz : float) : t :=
  mk (x v + dx) (y v + dy) (z v + dz).

Definition floored (v : t) : t :=
  mk (Js.Math_floor (x v)) (Js.Math_floor (y v)) (Js.Math_floor (z v)).

(** Modelled from the spec: [translate], [add] and [normalize] of the vec3
    package update the vector they are called on; here they return the
    updated value.  [normalize] leaves a vector of norm 0 as it is. *)
Definition translate (v : t) (dx dy dz : float) : t :=
  mk (x v + dx) (y v + dy) (z v + dz).

Definition add (v w : t) : t := mk (x v + x w) (y v + y w) (z v + z w).

Definition norm (v : t) : float :=
  Js.Math_sqrt (x v * x v + y v * y v + z v * z v).

Definition normalize (v : t) : t :=
  let n := norm v in
  if Js.neqb n 0 then mk (x v / n) (y v / n) (z v / n) else v.

(** The cursor of a lattice sweep: integer coordinates held in a vector. *)
Definition ofZ (cx cy cz : Z) : t := mk (Js.Z2F cx) (Js.Z2F cy) (Js.Z2F cz).

End Vec3.

(** ** Axis-aligned boxes *)

Module AABB.

Record t : Type := mk {
  minX : float; minY : float; minZ : float;
  maxX : float; maxY : float; maxZ : float
}.

(** Modelled from the spec: [lib/aabb.js] is not among the sources.  The
    spec's data model gives the operations: [offset] translates, [extend]
    grows toward the signed direction and never shrinks, [contract] shrinks
    symmetrically, [intersects] is the strict overlap test. *)
Definition offset (b : t) (dx dy dz : float) : t :=
  mk (minX b + dx) (minY b + dy) (minZ b + dz)
     (maxX b + dx) (maxY b + dy) (maxZ b + dz).

Definition clone (b : t) : t := b.

Definition extend (b : t) (dx dy dz : float) : t :=
  mk (if dx <? 0 then minX b + dx else minX b)
     (if dy <? 0 then minY b + dy else minY b)
     (if dz <? 0 then minZ b + dz else minZ b)
     (if dx <? 0 then maxX b else maxX b + dx)
     (if dy <? 0 then maxY b else maxY b + dy)
     (if dz <? 0 then maxZ b else maxZ b + dz).

Definition contract (b : t) (ax ay az : float) : t :=
  mk (minX b + ax) (minY b + ay) (minZ b + az)
     (maxX b - ax) (maxY b - ay) (maxZ b - az).

Definition intersects (b other : t) : bool :=
  (minX b <? maxX other) && (minX other <? maxX b) &&
  (minY b <? maxY other) && (minY other <? maxY b) &&
  (minZ b <? maxZ other) && (minZ other <? maxZ b).

(** Modelled from the spec: the sweep helpers [computeOffsetX/Y/Z] of
    [lib/aabb.js].  [computeOffsetY b other delta] is the largest part of
    [delta] (same sign) by which [other] can be swept along Y without
    entering [b]; where the two boxes do not overlap on the other two axes,
    or [other] is not on the side of [b] the sweep comes from, [delta] is
    returned unchanged. *)
Definition computeOffsetX (b other : t) (offsetX : float) : float :=
  if (minY b <? maxY other) && (minY other <? maxY b) &&
     (minZ b <? maxZ other) && (minZ other <? maxZ b)
  then
    if (0 <? offsetX) && (maxX other <=? minX b)
    then Js.Math_min (minX b - maxX other) offsetX
    else if (offsetX <? 0) && (maxX b <=? minX other)
    then Js.Math_max (maxX b - minX other) offsetX
    else offsetX
  else offsetX.

Definition computeOffsetY (b other : t) (offsetY : float) : float :=
  if (minX b <? maxX other) && (minX other <? maxX b) &&
     (minZ b <? maxZ other) && (minZ other <? maxZ b)
  then
    if (0 <? offsetY) && (maxY other <=? minY b)
    then Js.Math_min (minY b - maxY other) offsetY
    else if (offsetY <? 0) && (maxY b <=? minY other)
    then Js.Math_max (maxY b - minY other) offsetY
    else offsetY
  else offsetY.

Definition computeOffsetZ (b other : t) (offsetZ : float) : float :=
  if (minX b <? maxX other) && (minX other <? maxX b) &&
     (minY b <? maxY other) && (minY other <? maxY b)
  then
    if (0 <? offsetZ) && (maxZ other <=? minZ b)
    then Js.Math_min (minZ b - maxZ other) offsetZ
    else if (offsetZ <? 0) && (maxZ b <=? minZ other)
    then Js.Math_max (maxZ b - minZ other) offsetZ
    else offsetZ
  else offsetZ.

End AABB.

(** Modelled from the spec: [math.clamp] of [lib/math.js], which bounds its
    middle argument between the outer two. *)
Definition clamp (lo v hi : float) : float := Js.Math_max lo (Js.Math_min v hi).

(** ** The attribute helper *)

Module attribute.

Record Modifier : Type := mkModifier {
  uuid : string;
  amount : float;
  operation : Z
}.

Record AttributeValue : Type := mkAttributeValue {
  value : float;
  modifiers : list Modifier
}.

(** Modelled from the spec: [lib/attribute.js] is not among the sources.  An
    attribute value is a base and a stack of modifiers keyed by uuid;
    operation 0 adds to the base, 1 adds a multiple of the base, 2 multiplies
    the total. *)
Definition createAttributeValue (base : float) : AttributeValue :=
  mkAttributeValue base [].

Definition addAttributeModifier (a : AttributeValue) (m : Modifier) : AttributeValue :=
  mkAttributeValue (value a) (modifiers a ++ [m]).

Definition checkAttributeModifier (a : AttributeValue) (u : string) : bool :=
  existsb (fun m => String.eqb (uuid m) u) (modifiers a).

Definition deleteAttributeModifier (a : AttributeValue) (u : string) : AttributeValue :=
  mkAttributeValue (value a)
    (filter (fun m => negb (String.eqb (uuid m) u)) (modifiers a)).

Definition getAttributeValue (a : AttributeValue) : float :=
  let ms := modifiers a in
  let x := fold_left (fun x m => if (operation m =? 0)%Z then x + amount m else x)
             ms (value a) in
  let y := fold_left (fun y m => if (operation m =? 1)%Z then y + x * amount m else y)
             ms x in
  fold_left (fun y m => if (operation m =? 2)%Z then y + y * amount m else y) ms y.

End attribute.

(** ** Blocks and the world *)

(** A shape is a unit-cube-local box [(x0, y0, z0, x1, y1, z1)]. *)
Definition Shape : Type := (float * float * float * float * float * float)%type.

(** The properties the simulator reads; an absent property reads as
    [false] (or as no facing). *)
Record Properties : Type := mkProperties {
  open : bool;
  facing : option string;
  waterlogged : bool
}.

Record Block : Type := mkBlock {
  position : Vec3.t;
  type : Z;
  metadata : Z;
  shapes : list Shape;
  getProperties : Properties;
  boundingBox : string
}.

(** The world is read through [getBlock] only; a read may return no block. *)
Record World : Type := mkWorld {
  getBlock : Vec3.t -> option Block
}.

(** ** Lattice sweeps

    [for (c = lo; c <= hi; c++)] where [lo] and [hi] are floors: the cursor
    runs over the integers from [lo] through [hi].  A bound that is NaN gives
    no iteration, as in the source.  The model is that of the source where
    the bounds are finite and [c++] is exact (below 2^53); past that the loop
    of the source stops advancing, and the model is not meant for it (an
    infinite bound gives no iteration here). *)
Definition Zrange (lo hi : Z) : list Z :=
  map (fun i => (lo + Z.of_nat i)%Z) (seq 0 (Z.to_nat (hi - lo + 1))).

Definition range (lo hi : option Z) : list Z :=
  match lo, hi with
  | Some a, Some b => Zrange a b
  | _, _ => []
  end.

Definition for_range {A : Type} (lo hi : option Z) (body : Z -> A -> A) (acc : A) : A :=
  fold_left (fun a c => body c a) (range lo hi) acc.

(** ** The entity *)

Module Control.

Record t : Type := mk {
  forward : bool;
  back : bool;
  left : bool;
  right : bool;
  jump : bool;
  sprint : bool;
  sneak : bool
}.

End Control.

(** The player state of one tick.  [attributes] is the optional attribute map
    of the host entity, keyed by attribute name. *)
Record Entity : Type := mkEntity {
  pos : Vec3.t;
  vel : Vec3.t;
  onGround : bool;
  isInWater : bool;
  isInLava : bool;
  isInWeb : bool;
  isCollidedHorizontally : bool;
  isCollidedVertically : bool;
  elytraFlying : bool;
  jumpTicks : Z;
  jumpQueued : bool;
  fireworkRocketDuration : Z;
  attributes : option (string -> option attribute.AttributeValue);
  yaw : float;
  pitch : float;
  control : Control.t;
  jumpBoost : float;
  speed : float;
  slowness : float;
  dolphinsGrace : float;
  slowFalling : float;
  levitation : float;
  depthStrider : float;
  elytraEquipped : bool
}.

(** Field assignments [entity.f = v]. *)
Definition set_pos (v : Vec3.t) (e : Entity) : Entity :=
  mkEntity v (vel e) (onGround e) (isInWater e) (isInLava e) (isInWeb e)
    (isCollidedHorizontally e) (isCollidedVertically e) (elytraFlying e)
    (jumpTicks e) (jumpQueued e) (fireworkRocketDuration e) (attributes e)
    (yaw e) (pitch e) (control e) (jumpBoost e) (speed e) (slowness e)
    (dolphinsGrace e) (slowFalling e) (levitation e) (depthStrider e)
    (elytraEquipped e).

Definition set_vel (v : Vec3.t) (e : Entity) : Entity :=
  mkEntity (pos e) v (onGround e) (isInWater e) (isInLava e) (isInWeb e)
    (isCollidedHorizontally e) (isCollidedVertically e) (elytraFlying e)
    (jumpTicks e) (jumpQueued e) (fireworkRocketDuration e) (attributes e)
    (yaw e) (pitch e) (control e) (jumpBoost e) (speed e) (slowness e)
    (dolphinsGrace e) (slowFalling e) (levitation e) (depthStrider e)
    (elytraEquipped e).

Definition set_onGround (b : bool) (e : Entity) : Entity :=
  mkEntity (pos e) (vel e) b (isInWater e) (isInLava e) (isInWeb e)
    (isCollidedHorizontally e) (isCollidedVertically e) (elytraFlying e)
    (jumpTicks e) (jumpQueued e) (fireworkRocketDuration e) (attributes e)
    (yaw e) (pitch e) (control e) (jumpBoost e) (speed e) (slowness e)
    (dolphinsGrace e) (slowFalling e) (levitation e) (depthStrider e)
    (elytraEquipped e).

Definition set_isInWater (b : bool) (e : Entity) : Entity :=
  mkEntity (pos e) (vel e) (onGround e) b (isInLava e) (isInWeb e)
    (isCollidedHorizontally e) (isCollidedVertically e) (elytraFlying e)
    (jumpTicks e) (jumpQueued e) (fireworkRocketDuration e) (attributes e)
    (yaw e) (pitch e) (control e) (jumpBoost e) (speed e) (slowness e)
    (dolphinsGrace e) (slowFalling e) (levitation e) (depthStrider e)
    (elytraEquipped e).

Definition set_isInLava (b : bool) (e : Entity) : Entity :=
  mkEntity (pos e) (vel e) (onGround e) (isInWater e) b (isInWeb e)
    (isCollidedHorizontally e) (isCollidedVertically e) (elytraFlying e)
    (jumpTicks e) (jumpQueued e) (fireworkRocketDuration e) (attributes e)
    (yaw e) (pitch e) (control e) (jumpBoost e) (speed e) (slowness e)
    (dolphinsGrace e) (slowFalling e) (levitation e) (depthStrider e)
    (elytraEquipped e).

Definition set_isInWeb (b : bool) (e : Entity) : Entity :=
  mkEntity (pos e) (vel e) (onGround e) (isInWater e) (isInLava e) b
    (isCollidedHorizontally e) (isCollidedVertically e) (elytraFlying e)
    (jumpTicks e) (jumpQueued e) (fireworkRocketDuration e) (attributes e)
    (yaw e) (pitch e) (control e) (jumpBoost e) (speed e) (slowness e)
    (dolphinsGrace e) (slowFalling e) (levitation e) (depthStrider e)
    (elytraEquipped e).

Definition set_isCollidedHorizontally (b : bool) (e : Entity) : Entity :=
  mkEntity (pos e) (vel e) (onGround e) (isInWater e) (isInLava e) (isInWeb e)
    b (isCollidedVertically e) (elytraFlying e)
    (jumpTicks e) (jumpQueued e) (fireworkRocketDuration e) (attributes e)
    (yaw e) (pitch e) (control e) (jumpBoost e) (speed e) (slowness e)
    (dolphinsGrace e) (slowFalling e) (levitation e) (depthStrider e)
    (elytraEquipped e).

Definition set_isCollidedVertically (b : bool) (e : Entity) : Entity :=
  mkEntity (pos e) (vel e) (onGround e) (isInWater e) (isInLava e) (isInWeb e)
    (isCollidedHorizontally e) b (elytraFlying e)
    (jumpTicks e) (jumpQueued e) (fireworkRocketDuration e) (attributes e)
    (yaw e) (pitch e) (control e) (jumpBoost e) (speed e) (slowness e)
    (dolphinsGrace e) (slowFalling e) (levitation e) (depthStrider e)
    (elytraEquipped e).

Definition set_elytraFlying (b : bool) (e : Entity) : Entity :=
  mkEntity (pos e) (vel e) (onGround e) (isInWater e) (isInLava e) (isInWeb e)
    (isCollidedHorizontally e) (isCollidedVertically e) b
    (jumpTicks e) (jumpQueued e) (fireworkRocketDuration e) (attributes e)
    (yaw e) (pitch e) (control e) (jumpBoost e) (speed e) (slowness e)
    (dolphinsGrace e) (slowFalling e) (levitation e) (depthStrider e)
    (elytraEquipped e).

Definition set_jumpTicks (n : Z) (e : Entity) : Entity :=
  mkEntity (pos e) (vel e) (onGround e) (isInWater e) (isInLava e) (isInWeb e)
    (isCollidedHorizontally e) (isCollidedVertically e) (elytraFlying e)
    n (jumpQueued e) (fireworkRocketDuration e) (attributes e)
    (yaw e) (pitch e) (control e) (jumpBoost e) (speed e) (slowness e)
    (dolphinsGrace e) (slowFalling e) (levitation e) (depthStrider e)
    (elytraEquipped e).

Definition set_jumpQueued (b : bool) (e : Entity) : Entity :=
  mkEntity (pos e) (vel e) (onGround e) (isInWater e) (isInLava e) (isInWeb e)
    (isCollidedHorizontally e) (isCollidedVertically e) (elytraFlying e)
    (jumpTicks e) b (fireworkRocketDuration e) (attributes e)
    (yaw e) (pitch e) (control e) (jumpBoost e) (speed e) (slowness e)
    (dolphinsGrace e) (slowFalling e) (levitation e) (depthStrider e)
    (elytraEquipped e).

Definition set_fireworkRocketDuration (n : Z) (e : Entity) : Entity :=
  mkEntity (pos e) (vel e) (onGround e) (isInWater e) (isInLava e) (isInWeb e)
    (isCollidedHorizontally e) (isCollidedVertically e) (elytraFlying e)
    (jumpTicks e) (jumpQueued e) n (attributes e)
    (yaw e) (pitch e) (control e) (jumpBoost e) (speed e) (slowness e)
    (dolphinsGrace e) (slowFalling e) (levitation e) (depthStrider e)
    (elytraEquipped e).

(** Component assignments [vel.x = v], [vel.y = v], [vel.z = v]. *)
Definition set_vel_x (v : float) (e : Entity) : Entity :=
  set_vel (Vec3.mk v (Vec3.y (vel e)) (Vec3.z (vel e))) e.

Definition set_vel_y (v : float) (e : Entity) : Entity :=
  set_vel (Vec3.mk (Vec3.x (vel e)) v (Vec3.z (vel e))) e.

Definition set_vel_z (v : float) (e : Entity) : Entity :=
  set_vel (Vec3.mk (Vec3.x (vel e)) (Vec3.y (vel e)) v) e.

(** ** The feature list *)

(** The version object of the game data: [majorVersion], and the comparison
    methods looked up by name ([">"], [">="], ["<"], ["<="], ["=="]), each
    taking a version string.  [method v n] is [None] where [v[n]] is not a
    function, so that calling it raises. *)
Record Version : Type := mkVersion {
  majorVersion : string;
  method : string -> option (string -> bool)
}.

(** An entry of a [versions] list: one condition string, or an array of
    condition strings. *)
Inductive VersionConditions : Type :=
| Single (condition : string)
| Array (conditions : list string).

Record Feature : Type := mkFeature {
  name : string;
  versions : list VersionConditions
}.

(** [s.split(sep)] for a one-character separator. *)
Fixpoint split (sep : ascii) (s : string) : list string :=
  match s with
  | EmptyString => [EmptyString]
  | String c r =>
      if Ascii.eqb c sep then EmptyString :: split sep r
      else match split sep r with
           | h :: t => String c h :: t
           | [] => [String c EmptyString]
           end
  end.

Module FeatureList.

Definition checkVersion (version : Version) (condition : string) : Res bool :=
  match split " " condition with
  | predicateName :: parameter :: _ =>
      match method version predicateName with
      | Some f => Ok (f parameter)
      | None => Throw TypeError
      end
  | [predicateName] => Ok (String.eqb predicateName (majorVersion version))
  | [] => Ok false
  end.

(** The set of enabled feature names, in insertion order. *)
Record t : Type := mk {
  version : Version;
  features : list string
}.

Definition has (s : list string) (n : string) : bool := existsb (String.eqb n) s.

Definition add (n : string) (s : list string) : list string :=
  if has s n then s else s ++ [n].

(** [for (const condition of versionConditions) flag &= checkVersion(...)]:
    every condition is evaluated. *)
Fixpoint allConditions (version : Version) (conditions : list string) (flag : bool)
  : Res bool :=
  match conditions with
  | [] => Ok flag
  | condition :: rest =>
      let* b := checkVersion version condition in
      allConditions version rest (flag && b)
  end.

Definition flagOf (version : Version) (versionConditions : VersionConditions)
  : Res bool :=
  match versionConditions with
  | Array conditions => allConditions version conditions true
  | Single condition => checkVersion version condition
  end.

(** The loop over [versions], left at the first entry whose flag is set. *)
Fixpoint anyVersions (version : Version) (vs : list VersionConditions) : Res bool :=
  match vs with
  | [] => Ok false
  | versionConditions :: rest =>
      let* flag := flagOf version versionConditions in
      if flag then Ok true else anyVersions version rest
  end.

Fixpoint collect (version : Version) (feats : list Feature) (acc : list string)
  : Res (list string) :=
  match feats with
  | [] => Ok acc
  | f :: rest =>
      let* enabled := anyVersions version (versions f) in
      collect version rest (if enabled then add (name f) acc else acc)
  end.

Definition new (feats : list Feature) (version : Version) : Res t :=
  let* s := collect version feats [] in
  Ok (mk version s).

Definition supportFeature (fl : t) (featureName : string) : bool :=
  has (features fl) featureName.

End FeatureList.

(** ** Construction of the physics closure *)

Record BlockInfo : Type := mkBlockInfo { id : Z }.

Record AttributeInfo : Type := mkAttributeInfo { resource : string }.

(** The game-data catalogue of a version. *)
Module McData.

Record t : Type := mk {
  version : Version;
  blocksByName : string -> option BlockInfo;
  attributesByName : string -> option AttributeInfo
}.

End McData.

Record BubbleDrag : Type := mkBubbleDrag {
  down : float;
  maxDown : float;
  up : float;
  maxUp : float
}.

(** The [physics] object.  [slowFalling_] is [physics.slowFalling]: the
    entity has a field of that name too. *)
Record Settings : Type := mkSettings {
  gravity : float;
  airdrag : float;
  yawSpeed : float;
  pitchSpeed : float;
  playerSpeed : float;
  sprintSpeed : float;
  sneakSpeed : float;
  stepHeight : float;
  negligeableVelocity : float;
  soulsandSpeed : float;
  honeyblockSpeed : float;
  honeyblockJumpSpeed : float;
  ladderMaxSpeed : float;
  ladderClimbSpeed : float;
  playerHalfWidth : float;
  playerHeight : float;
  waterInertia : float;
  lavaInertia : float;
  liquidAcceleration : float;
  airborneInertia : float;
  airborneAcceleration : float;
  defaultSlipperiness : float;
  outOfLiquidImpulse : float;
  autojumpCooldown : Z;
  bubbleColumnSurfaceDrag : BubbleDrag;
  bubbleColumnDrag : BubbleDrag;
  slowFalling_ : float;
  movementSpeedAttribute : string;
  sprintingUUID : string;
  waterGravity : float;
  lavaGravity : float
}.

(** The block ids the closure captures. *)
Record Catalogue : Type := mkCatalogue {
  blockSlipperiness : list (Z * float);
  slimeBlockId : Z;
  soulsandId : Z;
  honeyblockId : Z;
  webId : Z;
  waterIds : list Z;
  lavaIds : list Z;
  ladderId : Z;
  trapdoorIds : list Z;
  vineId : Z;
  waterLike : list Z;
  bubblecolumnId : Z
}.

Record Closure : Type := mkClosure {
  physics : Settings;
  catalogue : Catalogue;
  supportedFeatureList : FeatureList.t
}.

(** [blocksByName.n.id] of a mandatory block. *)
Definition idOf (b : option BlockInfo) : Res Z :=
  match b with
  | Some i => Ok (id i)
  | None => Throw TypeError
  end.

(** [blocksByName.n ? blocksByName.n.id : -1]. *)
Definition idOrMinusOne (b : option BlockInfo) : Z :=
  match b with
  | Some i => id i
  | None => (-1)%Z
  end.

(** [if (blocksByName.n) set.add(blocksByName.n.id)]. *)
Definition addIfPresent (b : option BlockInfo) (s : list Z) : list Z :=
  match b with
  | Some i => if existsb (Z.eqb (id i)) s then s else s ++ [id i]
  | None => s
  end.

(** [obj[k] = v] on the slipperiness table: the latest assignment is found
    first. *)
Definition assign (k : Z) (v : float) (tbl : list (Z * float)) : list (Z * float) :=
  (k, v) :: tbl.

Fixpoint lookup (k : Z) (tbl : list (Z * float)) : option float :=
  match tbl with
  | [] => None
  | (k', v) :: rest => if (k =? k')%Z then Some v else lookup k rest
  end.

Definition noLiquidGravity : string :=
  "No liquid gravity settings, have you made sure the liquid gravity features are up to date?".

(** The constants of the [physics] object literal; the liquid gravities are
    assigned after it is built. *)
Definition constants (movementSpeed : string) (wg lg : float) : Settings :=
  mkSettings
    0.08 (Js.Math_fround (1 - 0.02)) 3.0 3.0 0.1 0.3 0.3 0.6 0.003
    0.4 0.4 0.4 0.15 0.2 0.3 1.8 0.8 0.5 0.02 0.91 0.02 0.6 0.3 10%Z
    (mkBubbleDrag 0.03 (-0.9) 0.1 1.8)
    (mkBubbleDrag 0.03 (-0.3) 0.06 0.7)
    0.125 movementSpeed "662a6b8d-da3e-4c1c-8813-96ea6097278d" wg lg.

(** The liquid gravities, gated by the feature list. *)
Definition liquidGravity (fl : FeatureList.t) (gravity : float) : Res (float * float) :=
  if FeatureList.supportFeature fl "independentLiquidGravity" then Ok (0.02, 0.02)
  else if FeatureList.supportFeature fl "proportionalLiquidGravity"
  then Ok (gravity / 16, gravity / 4)
  else Throw (Error noLiquidGravity).

(** The ids read from [blocksByName], in the order of the source. *)
Definition readCatalogue (blocksByName : string -> option BlockInfo) : Res Catalogue :=
  let* slimeBlockId :=
    match blocksByName "slime_block" with
    | Some b => Ok (id b)
    | None => idOf (blocksByName "slime")
    end in
  let blockSlipperiness := assign slimeBlockId 0.8 [] in
  let* ice := idOf (blocksByName "ice") in
  let blockSlipperiness := assign ice 0.98 blockSlipperiness in
  let* packed_ice := idOf (blocksByName "packed_ice") in
  let blockSlipperiness := assign packed_ice 0.98 blockSlipperiness in
  let blockSlipperiness :=
    match blocksByName "frosted_ice" with
    | Some b => assign (id b) 0.98 blockSlipperiness
    | None => blockSlipperiness
    end in
  let blockSlipperiness :=
    match blocksByName "blue_ice" with
    | Some b => assign (id b) 0.989 blockSlipperiness
    | None => blockSlipperiness
    end in
  let* soulsandId := idOf (blocksByName "soul_sand") in
  let honeyblockId := idOrMinusOne (blocksByName "honey_block") in
  let* webId :=
    match blocksByName "cobweb" with
    | Some b => Ok (id b)
    | None => idOf (blocksByName "web")
    end in
  let* water := idOf (blocksByName "water") in
  let waterIds := [water; idOrMinusOne (blocksByName "flowing_water")] in
  let* lava := idOf (blocksByName "lava") in
  let lavaIds := [lava; idOrMinusOne (blocksByName "flowing_lava")] in
  let* ladderId := idOf (blocksByName "ladder") in
  let trapdoorIds :=
    fold_left (fun s n => addIfPresent (blocksByName n) s)
      ["iron_trapdoor"; "acacia_trapdoor"; "birch_trapdoor"; "jungle_trapdoor";
       "oak_trapdoor"; "dark_oak_trapdoor"; "spruce_trapdoor"; "crimson_trapdoor";
       "warped_trapdoor"; "mangrove_trapdoor"; "cherry_trapdoor"]%string [] in
  let* vineId := idOf (blocksByName "vine") in
  let waterLike :=
    fold_left (fun s n => addIfPresent (blocksByName n) s)
      ["seagrass"; "tall_seagrass"; "kelp"; "kelp_plant"]%string [] in
  let bubblecolumnId := idOrMinusOne (blocksByName "bubble_column") in
  let waterLike := addIfPresent (blocksByName "bubble_column") waterLike in
  Ok (mkCatalogue blockSlipperiness slimeBlockId soulsandId honeyblockId webId
        waterIds lavaIds ladderId trapdoorIds vineId waterLike bubblecolumnId).

(** [Physics(mcData, world)] up to the point where the closure is built.
    [feats] is the content of [lib/features.json], which the source imports;
    the world is passed to each operation instead of being captured. *)
Definition Physics (feats : list Feature) (mcData : McData.t) : Res Closure :=
  let* supportedFeatureList := FeatureList.new feats (McData.version mcData) in
  let* cat := readCatalogue (McData.blocksByName mcData) in
  let* movementSpeed :=
    match McData.attributesByName mcData "movementSpeed" with
    | Some a => Ok (resource a)
    | None => Throw TypeError
    end in
  let* '(wg, lg) := liquidGravity supportedFeatureList 0.08 in
  Ok (mkClosure (constants movementSpeed wg lg) cat supportedFeatureList).

(** ** The operations of the closure *)

Definition isEmpty {A : Type} (l : list A) : bool :=
  match l with
  | [] => true
  | _ :: _ => false
  end.

Definition includes (l : list Z) (k : Z) : bool := existsb (Z.eqb k) l.

(** [a !== b] on an optional string property. *)
Definition facing_neqb (a b : option string) : bool :=
  match a, b with
  | Some s, Some s' => negb (String.eqb s s')
  | None, None => false
  | _, _ => true
  end.

(** The result of [getLookingVector]. *)
Record LookingVector : Type := mkLookingVector {
  lv_yaw : float;
  lv_pitch : float;
  sinYaw : float;
  cosYaw : float;
  sinPitch : float;
  cosPitch : float;
  lookX : float;
  lookY : float;
  lookZ : float;
  lookDir : Vec3.t
}.

(** The deltas and the box that collision resolution leaves. *)
Record Resolved : Type := mkResolved {
  r_dx : float;
  r_dy : float;
  r_dz : float;
  r_playerBB : AABB.t
}.

Section Closure.

(** [Math.sin] and [Math.cos] are left to the platform by the language: the
    operations are stated for any pair of them. *)
Variable Math_sin Math_cos : float -> float.

(** The closure built by [Physics]. *)
Variable P : Closure.

Notation phys := (physics P).
Notation cat := (catalogue P).

Definition supportFeature (name : string) : bool :=
  FeatureList.supportFeature (supportedFeatureList P) name.

Definition getPlayerBB (pos : Vec3.t) : AABB.t :=
  let w := playerHalfWidth phys in
  AABB.offset (AABB.mk (- w) 0 (- w) w (playerHeight phys) w)
    (Vec3.x pos) (Vec3.y pos) (Vec3.z pos).

(** [setPositionToBB(bb, pos)] assigns the three components of [pos]. *)
Definition setPositionToBB (bb : AABB.t) : Vec3.t :=
  Vec3.mk (AABB.minX bb + playerHalfWidth phys)
          (AABB.minY bb)
          (AABB.minZ bb + playerHalfWidth phys).

(** The boxes of one block: each shape translated by the block's position. *)
Definition blockBBs (block : Block) : list AABB.t :=
  let blockPos := position block in
  map (fun shape : Shape =>
         let '(x0, y0, z0, x1, y1, z1) := shape in
         AABB.offset (AABB.mk x0 y0 z0 x1 y1 z1)
           (Vec3.x blockPos) (Vec3.y blockPos) (Vec3.z blockPos))
      (shapes block).

Definition getSurroundingBBs (world : World) (queryBB : AABB.t) : list AABB.t :=
  for_range (option_map (fun f => (f - 1)%Z) (Js.floorZ (AABB.minY queryBB)))
            (Js.floorZ (AABB.maxY queryBB))
    (fun cy surroundingBBs =>
  for_range (Js.floorZ (AABB.minZ queryBB)) (Js.floorZ (AABB.maxZ queryBB))
    (fun cz surroundingBBs =>
  for_range (Js.floorZ (AABB.minX queryBB)) (Js.floorZ (AABB.maxX queryBB))
    (fun cx surroundingBBs =>
       match getBlock world (Vec3.ofZ cx cy cz) with
       | Some block => surroundingBBs ++ blockBBs block
       | None => surroundingBBs
       end) surroundingBBs) surroundingBBs) [].

Definition adjustPositionHeight (world : World) (pos : Vec3.t) : Vec3.t :=
  let playerBB := getPlayerBB pos in
  let queryBB := AABB.extend (AABB.clone playerBB) 0 (-1) 0 in
  let surroundingBBs := getSurroundingBBs world queryBB in
  let dy := fold_left (fun dy blockBB => AABB.computeOffsetY blockBB playerBB dy)
              surroundingBBs (-1) in
  Vec3.mk (Vec3.x pos) (Vec3.y pos + dy) (Vec3.z pos).

(** *** moveEntity *)

(** The web slow-down on entry. *)
Definition enterWeb (entity : Entity) (dx dy dz : float)
  : Entity * (float * float * float) :=
  if isInWeb entity
  then (set_isInWeb false (set_vel (Vec3.mk 0 0 0) entity),
        (dx * 0.25, dy * 0.05, dz * 0.25))
  else (entity, (dx, dy, dz)).

Definition step : float := 0.05.

(** The body shared by the three sneak loops: move a delta toward zero by
    [step]. *)
Definition shrink (d : float) : float :=
  if (d <? step) && (- step <=? d) then 0
  else if 0 <? d then d - step
  else d + step.

(** [for (; dx !== 0 && no collider along X; oldVelX = dx) shrink dx]. *)
Fixpoint sneakX (fuel : nat) (world : World) (pos : Vec3.t) (dx oldVelX : float)
  : Res (float * float) :=
  if Js.neqb dx 0 &&
     isEmpty (getSurroundingBBs world (AABB.offset (getPlayerBB pos) dx 0 0))
  then match fuel with
       | O => OutOfFuel
       | S fuel' => let dx := shrink dx in sneakX fuel' world pos dx dx
       end
  else Ok (dx, oldVelX).

Fixpoint sneakZ (fuel : nat) (world : World) (pos : Vec3.t) (dz oldVelZ : float)
  : Res (float * float) :=
  if Js.neqb dz 0 &&
     isEmpty (getSurroundingBBs world (AABB.offset (getPlayerBB pos) 0 0 dz))
  then match fuel with
       | O => OutOfFuel
       | S fuel' => let dz := shrink dz in sneakZ fuel' world pos dz dz
       end
  else Ok (dz, oldVelZ).

(** [while (dx !== 0 && dz !== 0 && no collider along X and Z)]. *)
Fixpoint sneakXZ (fuel : nat) (world : World) (pos : Vec3.t)
  (dx dz oldVelX oldVelZ : float) : Res (float * float * float * float) :=
  if Js.neqb dx 0 && Js.neqb dz 0 &&
     isEmpty (getSurroundingBBs world (AABB.offset (getPlayerBB pos) dx 0 dz))
  then match fuel with
       | O => OutOfFuel
       | S fuel' =>
           let dx := shrink dx in
           let dz := shrink dz in
           sneakXZ fuel' world pos dx dz dx dz
       end
  else Ok (dx, dz, oldVelX, oldVelZ).

(** The sneak edge-guard; it gives the deltas and the values kept as
    [oldVelX], [oldVelZ]. *)
Definition sneakGuard (fuel : nat) (entity : Entity) (world : World) (dx dz : float)
  : Res (float * float * float * float) :=
  let oldVelX := dx in
  let oldVelZ := dz in
  if Control.sneak (control entity) && onGround entity then
    let* '(dx, oldVelX) := sneakX fuel world (pos entity) dx oldVelX in
    let* '(dz, oldVelZ) := sneakZ fuel world (pos entity) dz oldVelZ in
    sneakXZ fuel world (pos entity) dx dz oldVelX oldVelZ
  else Ok (dx, dz, oldVelX, oldVelZ).

Definition sweepY (bbs : list AABB.t) (bb : AABB.t) (dy : float) : float :=
  fold_left (fun dy blockBB => AABB.computeOffsetY blockBB bb dy) bbs dy.

Definition sweepX (bbs : list AABB.t) (bb : AABB.t) (dx : float) : float :=
  fold_left (fun dx blockBB => AABB.computeOffsetX blockBB bb dx) bbs dx.

Definition sweepZ (bbs : list AABB.t) (bb : AABB.t) (dz : float) : float :=
  fold_left (fun dz blockBB => AABB.computeOffsetZ blockBB bb dz) bbs dz.

(** The step onto a block lower than [stepHeight], tried from the box before
    the move. *)
Definition stepUp (world : World) (oldBB : AABB.t) (flat : Resolved)
  (oldVelX oldVelZ : float) : Resolved :=
  let dx := r_dx flat in
  let dz := r_dz flat in
  let oldVelXCol := dx in
  let oldVelYCol := r_dy flat in
  let oldVelZCol := dz in
  let oldBBCol := AABB.clone (r_playerBB flat) in
  let dy := stepHeight phys in
  let queryBB := AABB.extend (AABB.clone oldBB) oldVelX dy oldVelZ in
  let surroundingBBs := getSurroundingBBs world queryBB in
  let BB1 := AABB.clone oldBB in
  let BB2 := AABB.clone oldBB in
  let BB_XZ := AABB.extend (AABB.clone BB1) dx 0 dz in
  let dy1 := sweepY surroundingBBs BB_XZ dy in
  let dy2 := sweepY surroundingBBs BB2 dy in
  let BB1 := AABB.offset BB1 0 dy1 0 in
  let BB2 := AABB.offset BB2 0 dy2 0 in
  let dx1 := sweepX surroundingBBs BB1 oldVelX in
  let dx2 := sweepX surroundingBBs BB2 oldVelX in
  let BB1 := AABB.offset BB1 dx1 0 0 in
  let BB2 := AABB.offset BB2 dx2 0 0 in
  let dz1 := sweepZ surroundingBBs BB1 oldVelZ in
  let dz2 := sweepZ surroundingBBs BB2 oldVelZ in
  let BB1 := AABB.offset BB1 0 0 dz1 in
  let BB2 := AABB.offset BB2 0 0 dz2 in
  let norm1 := dx1 * dx1 + dz1 * dz1 in
  let norm2 := dx2 * dx2 + dz2 * dz2 in
  let '(dx, dy, dz, playerBB) :=
    if norm2 <? norm1 then (dx1, - dy1, dz1, BB1) else (dx2, - dy2, dz2, BB2) in
  let dy := sweepY surroundingBBs playerBB dy in
  let playerBB := AABB.offset playerBB 0 dy 0 in
  if dx * dx + dz * dz <=? oldVelXCol * oldVelXCol + oldVelZCol * oldVelZCol
  then mkResolved oldVelXCol oldVelYCol oldVelZCol oldBBCol
  else mkResolved dx dy dz playerBB.

(** Collision resolution: Y, then X, then Z, then the step. *)
Definition resolve (entity : Entity) (world : World)
  (dx dy dz oldVelX oldVelY oldVelZ : float) : Resolved :=
  let playerBB := getPlayerBB (pos entity) in
  let queryBB := AABB.extend (AABB.clone playerBB) dx dy dz in
  let surroundingBBs := getSurroundingBBs world queryBB in
  let oldBB := AABB.clone playerBB in
  let dy := sweepY surroundingBBs playerBB dy in
  let playerBB := AABB.offset playerBB 0 dy 0 in
  let dx := sweepX surroundingBBs playerBB dx in
  let playerBB := AABB.offset playerBB dx 0 0 in
  let dz := sweepZ surroundingBBs playerBB dz in
  let playerBB := AABB.offset playerBB 0 0 dz in
  if (0 <? stepHeight phys) &&
     (onGround entity || (Js.neqb dy oldVelY && (oldVelY <? 0))) &&
     (Js.neqb dx oldVelX || Js.neqb dz oldVelZ)
  then stepUp world oldBB (mkResolved dx dy dz playerBB) oldVelX oldVelZ
  else mkResolved dx dy dz playerBB.

(** "Update flags": the position, the collision flags, and the velocity
    components of the clamped axes. *)
Definition updateFlags (entity : Entity) (world : World) (r : Resolved)
  (oldVelX oldVelY oldVelZ : float) : Entity :=
  let dx := r_dx r in
  let dy := r_dy r in
  let dz := r_dz r in
  let entity := set_pos (setPositionToBB (r_playerBB r)) entity in
  let entity :=
    set_isCollidedHorizontally (Js.neqb dx oldVelX || Js.neqb dz oldVelZ) entity in
  let entity := set_isCollidedVertically (Js.neqb dy oldVelY) entity in
  let entity :=
    set_onGround (isCollidedVertically entity && (oldVelY <? 0)) entity in
  let blockAtFeet := getBlock world (Vec3.offset (pos entity) 0 (-0.2) 0) in
  let entity := if Js.neqb dx oldVelX then set_vel_x 0 entity else entity in
  let entity := if Js.neqb dz oldVelZ then set_vel_z 0 entity else entity in
  if Js.neqb dy oldVelY then
    if match blockAtFeet with
       | Some b => (type b =? slimeBlockId cat)%Z
       | None => false
       end && negb (Control.sneak (control entity))
    then set_vel_y (- Vec3.y (vel entity)) entity
    else set_vel_y 0 entity
  else entity.

(** [vel.x *= k; vel.z *= k]. *)
Definition scaleXZ (k : float) (entity : Entity) : Entity :=
  let entity := set_vel_x (Vec3.x (vel entity) * k) entity in
  set_vel_z (Vec3.z (vel entity) * k) entity.

Definition velocityBlock (block : Block) (entity : Entity) : Entity :=
  if (type block =? soulsandId cat)%Z then scaleXZ (soulsandSpeed phys) entity
  else if (type block =? honeyblockId cat)%Z then scaleXZ (honeyblockSpeed phys) entity
  else entity.

(** The web and the bubble column among the blocks the contracted box
    touches. *)
Definition webOrBubble (world : World) (cursor : Vec3.t) (block : Block)
  (entity : Entity) : Entity :=
  if (type block =? webId cat)%Z then set_isInWeb true entity
  else if (type block =? bubblecolumnId cat)%Z then
    let down_ := (metadata block =? 0)%Z in
    let aboveBlock := getBlock world (Vec3.offset cursor 0 1 0) in
    let bubbleDrag :=
      if match aboveBlock with
         | Some b => (type b =? 0)%Z
         | None => false
         end
      then bubbleColumnSurfaceDrag phys
      else bubbleColumnDrag phys in
    if down_
    then set_vel_y (Js.Math_max (maxDown bubbleDrag)
                      (Vec3.y (vel entity) - down bubbleDrag)) entity
    else set_vel_y (Js.Math_min (maxUp bubbleDrag)
                      (Vec3.y (vel entity) + up bubbleDrag)) entity
  else entity.

(** The effect of one block the contracted box touches. *)
Definition collideBlock (world : World) (cursor : Vec3.t) (block : Block)
  (entity : Entity) : Entity :=
  let entity :=
    if supportFeature "velocityBlocksOnCollision" then velocityBlock block entity
    else entity in
  webOrBubble world cursor block entity.

(** "Finally, apply block collisions (web, soulsand...)". *)
Definition blockCollisions (world : World) (playerBB : AABB.t) (entity : Entity)
  : Entity :=
  let playerBB := AABB.contract playerBB 0.001 0.001 0.001 in
  for_range (Js.floorZ (AABB.minY playerBB)) (Js.floorZ (AABB.maxY playerBB))
    (fun cy entity =>
  for_range (Js.floorZ (AABB.minZ playerBB)) (Js.floorZ (AABB.maxZ playerBB))
    (fun cz entity =>
  for_range (Js.floorZ (AABB.minX playerBB)) (Js.floorZ (AABB.maxX playerBB))
    (fun cx entity =>
       let cursor := Vec3.ofZ cx cy cz in
       match getBlock world cursor with
       | Some block => collideBlock world cursor block entity
       | None => entity
       end) entity) entity) entity.

Definition blocksOnTop (world : World) (entity : Entity) : Entity :=
  if supportFeature "velocityBlocksOnTop" then
    match getBlock world (Vec3.offset (Vec3.floored (pos entity)) 0 (-0.5) 0) with
    | Some blockBelow => velocityBlock blockBelow entity
    | None => entity
    end
  else entity.

Definition moveEntity (fuel : nat) (entity : Entity) (world : World)
  (dx dy dz : float) : Res Entity :=
  let '(entity, (dx, dy, dz)) := enterWeb entity dx dy dz in
  let oldVelY := dy in
  let* '(dx, dz, oldVelX, oldVelZ) := sneakGuard fuel entity world dx dz in
  let r := resolve entity world dx dy dz oldVelX oldVelY oldVelZ in
  let entity := updateFlags entity world r oldVelX oldVelY oldVelZ in
  let entity := blockCollisions world (r_playerBB r) entity in
  Ok (blocksOnTop world entity).

(** *** Heading, ladders and liquids *)

Definition getLookingVector (entity : Entity) : LookingVector :=
  let yaw := yaw entity in
  let pitch := pitch entity in
  let sinYaw := Math_sin yaw in
  let cosYaw := Math_cos yaw in
  let sinPitch := Math_sin pitch in
  let cosPitch := Math_cos pitch in
  let lookX := - sinYaw * cosPitch in
  let lookY := sinPitch in
  let lookZ := - cosYaw * cosPitch in
  let lookDir := Vec3.mk lookX lookY lookZ in
  mkLookingVector yaw pitch sinYaw cosYaw sinPitch cosPitch lookX lookY lookZ lookDir.

(** The value [applyHeading] returns is not used by its callers; the model
    keeps the update of the entity. *)
Definition applyHeading (entity : Entity) (strafe forward multiplier : float)
  : Entity :=
  let speed := Js.Math_sqrt (strafe * strafe + forward * forward) in
  if speed <? 0.01 then entity
  else
    let speed := multiplier / Js.Math_max speed 1 in
    let strafe := strafe * speed in
    let forward := forward * speed in
    let yaw := Js.Math_PI - yaw entity in
    let sin := Math_sin yaw in
    let cos := Math_cos yaw in
    let entity :=
      set_vel_x (Vec3.x (vel entity) - (strafe * cos + forward * sin)) entity in
    set_vel_z (Vec3.z (vel entity) + (forward * cos - strafe * sin)) entity.

(** [blockBelow.type] is read without a test that [blockBelow] is a block. *)
Definition isOnLadder (world : World) (pos : Vec3.t) : Res bool :=
  match getBlock world pos with
  | None => Ok false
  | Some block =>
      if (type block =? ladderId cat)%Z || (type block =? vineId cat)%Z then Ok true
      else if supportFeature "climableTrapdoor" &&
              includes (trapdoorIds cat) (type block)
      then
        match getBlock world (Vec3.offset pos 0 (-1) 0) with
        | None => Throw TypeError
        | Some blockBelow =>
            if negb (type blockBelow =? ladderId cat)%Z then Ok false
            else if negb (open (getProperties block)) then Ok false
            else if facing_neqb (facing (getProperties block))
                                (facing (getProperties blockBelow))
            then Ok false
            else Ok true
        end
      else Ok false
  end.

Definition getRenderedDepth (block : option Block) : Z :=
  match block with
  | None => (-1)%Z
  | Some block =>
      if includes (waterLike cat) (type block) then 0%Z
      else if waterlogged (getProperties block) then 0%Z
      else if negb (includes (waterIds cat) (type block)) then (-1)%Z
      else
        let meta := metadata block in
        if (8 <=? meta)%Z then 0%Z else meta
  end.

Definition getLiquidHeightPcent (block : option Block) : float :=
  Js.Z2F (getRenderedDepth block + 1) / 9.

(** The four neighbours [[dx, dz]] visited by [getFlow]. *)
Definition neighbours : list (Z * Z) :=
  [(0, 1); (-1, 0); (0, -1); (1, 0)]%Z.

Definition notEmptyBox (b : option Block) : bool :=
  match b with
  | Some b => negb (String.eqb (boundingBox b) "empty")
  | None => false
  end.

Definition getFlow (world : World) (block : Block) : Vec3.t :=
  let curlevel := getRenderedDepth (Some block) in
  let addFlow (flow : Vec3.t) (dx dz f : Z) : Vec3.t :=
    Vec3.mk (Vec3.x flow + Js.Z2F (dx * f)) (Vec3.y flow)
            (Vec3.z flow + Js.Z2F (dz * f)) in
  let at_ (dx dy dz : Z) :=
    getBlock world (Vec3.offset (position block) (Js.Z2F dx) (Js.Z2F dy) (Js.Z2F dz)) in
  let flow :=
    fold_left
      (fun flow (d : Z * Z) =>
         let '(dx, dz) := d in
         let adjBlock := at_ dx 0%Z dz in
         let adjLevel := getRenderedDepth adjBlock in
         if (adjLevel <? 0)%Z then
           if notEmptyBox adjBlock then
             let adjLevel := getRenderedDepth (at_ dx (-1)%Z dz) in
             if (0 <=? adjLevel)%Z
             then addFlow flow dx dz (adjLevel - (curlevel - 8))%Z
             else flow
           else flow
         else addFlow flow dx dz (adjLevel - curlevel)%Z)
      neighbours (Vec3.mk 0 0 0) in
  let flow :=
    if (8 <=? metadata block)%Z then
      fold_left
        (fun flow (d : Z * Z) =>
           let '(dx, dz) := d in
           let adjBlock := at_ dx 0%Z dz in
           let adjUpBlock := at_ dx 1%Z dz in
           if notEmptyBox adjBlock || notEmptyBox adjUpBlock
           then Vec3.translate (Vec3.normalize flow) 0 (-6) 0
           else flow)
        neighbours flow
    else flow in
  Vec3.normalize flow.

Definition getWaterInBB (world : World) (bb : AABB.t) : list Block :=
  for_range (Js.floorZ (AABB.minY bb)) (Js.floorZ (AABB.maxY bb))
    (fun cy waterBlocks =>
  for_range (Js.floorZ (AABB.minZ bb)) (Js.floorZ (AABB.maxZ bb))
    (fun cz waterBlocks =>
  for_range (Js.floorZ (AABB.minX bb)) (Js.floorZ (AABB.maxX bb))
    (fun cx waterBlocks =>
       match getBlock world (Vec3.ofZ cx cy cz) with
       | Some block =>
           if includes (waterIds cat) (type block) ||
              includes (waterLike cat) (type block) ||
              waterlogged (getProperties block)
           then
             let waterLevel := Js.Z2F cy + 1 - getLiquidHeightPcent (Some block) in
             if waterLevel <=? Js.Math_ceil (AABB.maxY bb)
             then waterBlocks ++ [block]
             else waterBlocks
           else waterBlocks
       | None => waterBlocks
       end) waterBlocks) waterBlocks) [].

(** The first matching block ends the sweep of the source with [true]; the
    sweep reads the world only, so the model tests every position. *)
Definition isMaterialInBB (world : World) (queryBB : AABB.t) (types : list Z) : bool :=
  for_range (Js.floorZ (AABB.minY queryBB)) (Js.floorZ (AABB.maxY queryBB))
    (fun cy found =>
  for_range (Js.floorZ (AABB.minZ queryBB)) (Js.floorZ (AABB.maxZ queryBB))
    (fun cz found =>
  for_range (Js.floorZ (AABB.minX queryBB)) (Js.floorZ (AABB.maxX queryBB))
    (fun cx found =>
       found ||
       match getBlock world (Vec3.ofZ cx cy cz) with
       | Some block => includes types (type block)
       | None => false
       end) found) found) false.

(** [isInWaterApplyCurrent(world, bb, vel)]: the flag and the updated
    velocity. *)
Definition isInWaterApplyCurrent (world : World) (bb : AABB.t) (vel : Vec3.t)
  : bool * Vec3.t :=
  let waterBlocks := getWaterInBB world bb in
  let isInWater := negb (isEmpty waterBlocks) in
  let acceleration :=
    fold_left (fun acceleration block => Vec3.add acceleration (getFlow world block))
      waterBlocks (Vec3.mk 0 0 0) in
  let len := Vec3.norm acceleration in
  if 0 <? len
  then (isInWater,
        Vec3.mk (Vec3.x vel + Vec3.x acceleration / len * 0.014)
                (Vec3.y vel + Vec3.y acceleration / len * 0.014)
                (Vec3.z vel + Vec3.z acceleration / len * 0.014))
  else (isInWater, vel).

Definition doesNotCollide (world : World) (pos : Vec3.t) : bool :=
  let pBB := getPlayerBB pos in
  negb (existsb (fun x => AABB.intersects pBB x) (getSurroundingBBs world pBB)) &&
  isEmpty (getWaterInBB world pBB).

(** *** moveEntityWithHeading *)

(** The liquid regime after [applyHeading] and [moveEntity]: inertia and
    liquid gravity, before the jump-out test. *)
Definition liquidDrag (entity : Entity) (inertia horizontalInertia gravityMultiplier : float)
  : Entity :=
  let entity := set_vel_y (Vec3.y (vel entity) * inertia) entity in
  let entity :=
    set_vel_y (Vec3.y (vel entity) -
               (if isInWater entity then waterGravity phys else lavaGravity phys) *
               gravityMultiplier) entity in
  let entity := set_vel_x (Vec3.x (vel entity) * horizontalInertia) entity in
  set_vel_z (Vec3.z (vel entity) * horizontalInertia) entity.

(** The position tested for the jump out of a liquid. *)
Definition jumpOutPos (entity : Entity) (lastY : float) : Vec3.t :=
  Vec3.offset (pos entity)
    (Vec3.x (vel entity))
    (Vec3.y (vel entity) + 0.6 - Vec3.y (pos entity) + lastY)
    (Vec3.z (vel entity)).

(** The inertia of the liquid, and the horizontal inertia and acceleration
    after the depth-strider and dolphin's-grace adjustments. *)
Definition liquidInertia (entity : Entity) : float :=
  if isInWater entity then waterInertia phys else lavaInertia phys.

Definition liquidHeading (entity : Entity) : float * float :=
  let acceleration := liquidAcceleration phys in
  let horizontalInertia := liquidInertia entity in
  if isInWater entity then
    let strider := Js.Math_min (depthStrider entity) 3 in
    let strider := if negb (onGround entity) then strider * 0.5 else strider in
    let '(horizontalInertia, acceleration) :=
      if 0 <? strider
      then (horizontalInertia + (0.546 - horizontalInertia) * strider / 3,
            acceleration + (0.7 - acceleration) * strider / 3)
      else (horizontalInertia, acceleration) in
    (if 0 <? dolphinsGrace entity then 0.96 else horizontalInertia, acceleration)
  else (horizontalInertia, acceleration).

Definition moveInLiquid (fuel : nat) (entity : Entity) (world : World)
  (strafe forward gravityMultiplier : float) : Res Entity :=
  let lastY := Vec3.y (pos entity) in
  let inertia := liquidInertia entity in
  let '(horizontalInertia, acceleration) := liquidHeading entity in
  let entity := applyHeading entity strafe forward acceleration in
  let* entity :=
    moveEntity fuel entity world
      (Vec3.x (vel entity)) (Vec3.y (vel entity)) (Vec3.z (vel entity)) in
  let entity := liquidDrag entity inertia horizontalInertia gravityMultiplier in
  if isCollidedHorizontally entity && doesNotCollide world (jumpOutPos entity lastY)
  then Ok (set_vel_y (outOfLiquidImpulse phys) entity)
  else Ok entity.

Definition moveWithElytra (fuel : nat) (entity : Entity) (world : World)
  (gravityMultiplier : float) : Res Entity :=
  let lv := getLookingVector entity in
  let pitch := lv_pitch lv in
  let sinPitch := sinPitch lv in
  let cosPitch := cosPitch lv in
  let lookDir := lookDir lv in
  let vx := Vec3.x (vel entity) in
  let vy := Vec3.y (vel entity) in
  let vz := Vec3.z (vel entity) in
  let horizontalSpeed := Js.Math_sqrt (vx * vx + vz * vz) in
  let cosPitchSquared := cosPitch * cosPitch in
  let vy := vy + gravity phys * gravityMultiplier * (-1.0 + cosPitchSquared * 0.75) in
  let '(vx, vy, vz) :=
    if (vy <? 0.0) && (0.0 <? cosPitch) then
      let movingDownSpeedModifier := vy * (-0.1) * cosPitchSquared in
      (vx + Vec3.x lookDir * movingDownSpeedModifier / cosPitch,
       vy + movingDownSpeedModifier,
       vz + Vec3.z lookDir * movingDownSpeedModifier / cosPitch)
    else (vx, vy, vz) in
  let '(vx, vy, vz) :=
    if (pitch <? 0.0) && (0.0 <? cosPitch) then
      let lookDownSpeedModifier := horizontalSpeed * (- sinPitch) * 0.04 in
      (vx + - Vec3.x lookDir * lookDownSpeedModifier / cosPitch,
       vy + lookDownSpeedModifier * 3.2,
       vz + - Vec3.z lookDir * lookDownSpeedModifier / cosPitch)
    else (vx, vy, vz) in
  let '(vx, vz) :=
    if 0.0 <? cosPitch then
      (vx + (Vec3.x lookDir / cosPitch * horizontalSpeed - vx) * 0.1,
       vz + (Vec3.z lookDir / cosPitch * horizontalSpeed - vz) * 0.1)
    else (vx, vz) in
  let entity := set_vel (Vec3.mk (vx * 0.99) (vy * 0.98) (vz * 0.99)) entity in
  let* entity :=
    moveEntity fuel entity world
      (Vec3.x (vel entity)) (Vec3.y (vel entity)) (Vec3.z (vel entity)) in
  if onGround entity then Ok (set_elytraFlying false entity) else Ok entity.

(** The speed attribute of the player with the sprinting modifier deleted
    and, when sprinting, added again.  The source hands the attribute object
    of the entity itself to the helper; the model computes the value the
    helper returns and does not record what the helper leaves in that
    object, so nothing is stated below about [attributes] after a move. *)
Definition attributeSpeed (entity : Entity) : float :=
  let playerSpeedAttribute :=
    match attributes entity with
    | Some attrs =>
        match attrs (movementSpeedAttribute phys) with
        | Some a => a
        | None => attribute.createAttributeValue (playerSpeed phys)
        end
    | None => attribute.createAttributeValue (playerSpeed phys)
    end in
  let playerSpeedAttribute :=
    attribute.deleteAttributeModifier playerSpeedAttribute (sprintingUUID phys) in
  let playerSpeedAttribute :=
    if Control.sprint (control entity) then
      if negb (attribute.checkAttributeModifier playerSpeedAttribute (sprintingUUID phys))
      then attribute.addAttributeModifier playerSpeedAttribute
             (attribute.mkModifier (sprintingUUID phys) (sprintSpeed phys) 2%Z)
      else playerSpeedAttribute
    else playerSpeedAttribute in
  attribute.getAttributeValue playerSpeedAttribute.

(** [blockSlipperiness[type] || physics.defaultSlipperiness]. *)
Definition slipperiness (blockType : Z) : float :=
  match lookup blockType (blockSlipperiness cat) with
  | Some s => if Js.truthy s then s else defaultSlipperiness phys
  | None => defaultSlipperiness phys
  end.

Definition moveNormally (fuel : nat) (entity : Entity) (world : World)
  (strafe forward gravityMultiplier : float) : Res Entity :=
  let blockUnder := getBlock world (Vec3.offset (pos entity) 0 (-1) 0) in
  let '(acceleration, inertia) :=
    match (if onGround entity then blockUnder else None) with
    | Some blockUnder =>
        let inertia := slipperiness (type blockUnder) * 0.91 in
        let acceleration :=
          attributeSpeed entity * (0.1627714 / (inertia * inertia * inertia)) in
        (if acceleration <? 0 then 0 else acceleration, inertia)
    | None =>
        let acceleration := airborneAcceleration phys in
        let inertia := airborneInertia phys in
        (if Control.sprint (control entity)
         then acceleration + airborneAcceleration phys * 0.3
         else acceleration, inertia)
    end in
  let entity := applyHeading entity strafe forward acceleration in
  let* onLadder := isOnLadder world (pos entity) in
  let entity :=
    if onLadder then
      let entity :=
        set_vel_x (clamp (- ladderMaxSpeed phys) (Vec3.x (vel entity))
                     (ladderMaxSpeed phys)) entity in
      let entity :=
        set_vel_z (clamp (- ladderMaxSpeed phys) (Vec3.z (vel entity))
                     (ladderMaxSpeed phys)) entity in
      set_vel_y (Js.Math_max (Vec3.y (vel entity))
                   (if Control.sneak (control entity) then 0
                    else - ladderMaxSpeed phys)) entity
    else entity in
  let* entity :=
    moveEntity fuel entity world
      (Vec3.x (vel entity)) (Vec3.y (vel entity)) (Vec3.z (vel entity)) in
  let* onLadder := isOnLadder world (pos entity) in
  let entity :=
    if onLadder &&
       (isCollidedHorizontally entity ||
        (supportFeature "climbUsingJump" && Control.jump (control entity)))
    then set_vel_y (ladderClimbSpeed phys) entity
    else entity in
  let entity :=
    if 0 <? levitation entity
    then set_vel_y (Vec3.y (vel entity) +
                    (0.05 * levitation entity - Vec3.y (vel entity)) * 0.2) entity
    else set_vel_y (Vec3.y (vel entity) - gravity phys * gravityMultiplier) entity in
  let entity := set_vel_y (Vec3.y (vel entity) * airdrag phys) entity in
  let entity := set_vel_x (Vec3.x (vel entity) * inertia) entity in
  Ok (set_vel_z (Vec3.z (vel entity) * inertia) entity).

Definition gravityMultiplier (entity : Entity) : float :=
  if (Vec3.y (vel entity) <=? 0) && (0 <? slowFalling entity)
  then slowFalling_ phys else 1.

Definition moveEntityWithHeading (fuel : nat) (entity : Entity) (world : World)
  (strafe forward : float) : Res Entity :=
  let gravityMultiplier := gravityMultiplier entity in
  if isInWater entity || isInLava entity
  then moveInLiquid fuel entity world strafe forward gravityMultiplier
  else if elytraFlying entity
  then moveWithElytra fuel entity world gravityMultiplier
  else moveNormally fuel entity world strafe forward gravityMultiplier.

(** *** simulatePlayer *)

(** "Reset velocity component if it falls under the threshold". *)
Definition resetNegligible (entity : Entity) : Entity :=
  let entity :=
    if Js.Math_abs (Vec3.x (vel entity)) <? negligeableVelocity phys
    then set_vel_x 0 entity else entity in
  let entity :=
    if Js.Math_abs (Vec3.y (vel entity)) <? negligeableVelocity phys
    then set_vel_y 0 entity else entity in
  if Js.Math_abs (Vec3.z (vel entity)) <? negligeableVelocity phys
  then set_vel_z 0 entity else entity.

(** "Handle inputs": the jump, up to [entity.jumpQueued = false]. *)
Definition handleJump (entity : Entity) (world : World) : Entity :=
  let entity :=
    if Control.jump (control entity) || jumpQueued entity then
      let entity :=
        if (0 <? jumpTicks entity)%Z
        then set_jumpTicks (jumpTicks entity - 1)%Z entity else entity in
      if isInWater entity || isInLava entity then
        set_vel_y (Vec3.y (vel entity) + 0.04) entity
      else if onGround entity && (jumpTicks entity =? 0)%Z then
        let blockBelow :=
          getBlock world (Vec3.offset (Vec3.floored (pos entity)) 0 (-0.5) 0) in
        let entity :=
          set_vel_y (Js.Math_fround 0.42 *
                     (if match blockBelow with
                         | Some b => (type b =? honeyblockId cat)%Z
                         | None => false
                         end
                      then honeyblockJumpSpeed phys else 1)) entity in
        let entity :=
          if 0 <? jumpBoost entity
          then set_vel_y (Vec3.y (vel entity) + 0.1 * jumpBoost entity) entity
          else entity in
        let entity :=
          if Control.sprint (control entity) then
            let yaw := Js.Math_PI - yaw entity in
            let entity :=
              set_vel_x (Vec3.x (vel entity) - Math_sin yaw * 0.2) entity in
            set_vel_z (Vec3.z (vel entity) + Math_cos yaw * 0.2) entity
          else entity in
        set_jumpTicks (autojumpCooldown phys) entity
      else entity
    else set_jumpTicks 0%Z entity in
  set_jumpQueued false entity.

Definition fireworkRocket (entity : Entity) : Entity :=
  if (0 <? fireworkRocketDuration entity)%Z then
    if negb (elytraFlying entity) then set_fireworkRocketDuration 0%Z entity
    else
      let lookDir := lookDir (getLookingVector entity) in
      let v := vel entity in
      let entity :=
        set_vel
          (Vec3.mk
             (Vec3.x v + (Vec3.x lookDir * 0.1 + (Vec3.x lookDir * 1.5 - Vec3.x v) * 0.5))
             (Vec3.y v + (Vec3.y lookDir * 0.1 + (Vec3.y lookDir * 1.5 - Vec3.y v) * 0.5))
             (Vec3.z v + (Vec3.z lookDir * 0.1 + (Vec3.z lookDir * 1.5 - Vec3.z v) * 0.5)))
          entity in
      set_fireworkRocketDuration (fireworkRocketDuration entity - 1)%Z entity
  else entity.

Definition simulatePlayer (fuel : nat) (entity : Entity) (world : World) : Res Entity :=
  let waterBB := AABB.contract (getPlayerBB (pos entity)) 0.001 0.401 0.001 in
  let lavaBB := AABB.contract (getPlayerBB (pos entity)) 0.1 0.4 0.1 in
  let '(inWater, v) := isInWaterApplyCurrent world waterBB (vel entity) in
  let entity := set_isInWater inWater (set_vel v entity) in
  let entity := set_isInLava (isMaterialInBB world lavaBB (lavaIds cat)) entity in
  let entity := resetNegligible entity in
  let entity := handleJump entity world in
  let c := control entity in
  let strafe := (Js.Number (Control.right c) - Js.Number (Control.left c)) * 0.98 in
  let forward := (Js.Number (Control.forward c) - Js.Number (Control.back c)) * 0.98 in
  let '(strafe, forward) :=
    if Control.sneak c
    then (strafe * sneakSpeed phys, forward * sneakSpeed phys)
    else (strafe, forward) in
  let entity :=
    set_elytraFlying
      (elytraFlying entity && elytraEquipped entity && negb (onGround entity) &&
       negb (Js.truthy (levitation entity))) entity in
  let entity := fireworkRocket entity in
  moveEntityWithHeading fuel entity world strafe forward.

End Closure.

(** ** The player state of a bot

    [getEffectLevel], [getEnchantmentLevel] and the class [PlayerState],
    which copies the fields of the host bot into an entity and back. *)

Module Effect.

(** An entry of [mcData.effectsByName] and an entry of [entity.effects]. *)
Record Descriptor : Type := mkDescriptor { id : Z }.

Record Info : Type := mkInfo { amplifier : float }.

End Effect.

Module Enchantment.

(** An entry of [mcData.enchantmentsByName]. *)
Record Descriptor : Type := mkDescriptor { id : Z }.

End Enchantment.

Module EnchInfo.

(** [enchInfo.id] is a string or a number, which the source tells apart
    with [typeof]. *)
Inductive Id : Type :=
| Str (s : string)
| Num (n : Z).

Record t : Type := mk { id : Id; lvl : float }.

End EnchInfo.

(** The part of the game-data catalogue that [PlayerState] reads. *)
Module Registry.

Record t : Type := mk {
  effectsByName : string -> option Effect.Descriptor;
  enchantmentsByName : string -> option Enchantment.Descriptor
}.

End Registry.

(** [effects] is the object of the active effects, keyed by effect id. *)
Definition getEffectLevel (mcData : Registry.t) (effectName : string)
  (effects : Z -> option Effect.Info) : float :=
  match Registry.effectsByName mcData effectName with
  | None => 0
  | Some effectDescriptor =>
      match effects (Effect.id effectDescriptor) with
      | None => 0
      | Some effectInfo => Effect.amplifier effectInfo + 1
      end
  end.

(** [s.includes(sub)] on strings: [sub] occurs in [s]. *)
Fixpoint String_includes (s sub : string) : bool :=
  String.prefix sub s ||
  match s with
  | EmptyString => false
  | String _ r => String_includes r sub
  end.

(** The loop of [getEnchantmentLevel], left at the first entry that
    matches. *)
Fixpoint firstLevel (enchantmentName : string)
  (enchantmentDescriptor : Enchantment.Descriptor)
  (enchantments : list EnchInfo.t) : float :=
  match enchantments with
  | [] => 0
  | enchInfo :: rest =>
      match EnchInfo.id enchInfo with
      | EnchInfo.Str s =>
          if String_includes s enchantmentName then EnchInfo.lvl enchInfo
          else firstLevel enchantmentName enchantmentDescriptor rest
      | EnchInfo.Num n =>
          if (n =? Enchantment.id enchantmentDescriptor)%Z then EnchInfo.lvl enchInfo
          else firstLevel enchantmentName enchantmentDescriptor rest
      end
  end.

Definition getEnchantmentLevel (mcData : Registry.t) (enchantmentName : string)
  (enchantments : list EnchInfo.t) : float :=
  match Registry.enchantmentsByName mcData enchantmentName with
  | None => 0
  | Some enchantmentDescriptor =>
      firstLevel enchantmentName enchantmentDescriptor enchantments
  end.

(** What [nbt.simplify] returns, as far as it is read: the two places an
    item keeps its enchantments in. *)
Record SimplifiedNbt : Type := mkSimplifiedNbt {
  Enchantments : option (list EnchInfo.t);
  ench : option (list EnchInfo.t)
}.

(** The host bot.  [Nbt] is the type of the tag of an item. *)
Module Bot.

Record Item (Nbt : Type) : Type := mkItem {
  name : string;
  nbt : option Nbt
}.

Arguments mkItem {Nbt}.
Arguments name {Nbt}.
Arguments nbt {Nbt}.

Record BotEntity : Type := mkBotEntity {
  position : Vec3.t;
  velocity : Vec3.t;
  onGround : bool;
  isInWater : bool;
  isInLava : bool;
  isInWeb : bool;
  isCollidedHorizontally : bool;
  isCollidedVertically : bool;
  elytraFlying : bool;
  attributes : option (string -> option attribute.AttributeValue);
  yaw : float;
  pitch : float;
  effects : Z -> option Effect.Info
}.

(** [slots] is [bot.inventory.slots]: an array whose entries may be empty. *)
Record t (Nbt : Type) : Type := mk {
  entity : BotEntity;
  jumpTicks : Z;
  jumpQueued : bool;
  fireworkRocketDuration : Z;
  slots : list (option (Item Nbt));
  version : string
}.

Arguments mk {Nbt}.
Arguments entity {Nbt}.
Arguments jumpTicks {Nbt}.
Arguments jumpQueued {Nbt}.
Arguments fireworkRocketDuration {Nbt}.
Arguments slots {Nbt}.
Arguments version {Nbt}.

(** [bot.inventory.slots[n]], where an index past the end reads as empty. *)
Definition slot {Nbt : Type} (bot : t Nbt) (n : nat) : option (Item Nbt) :=
  match nth_error (slots bot) n with
  | Some (Some item) => Some item
  | _ => None
  end.

End Bot.

Module PlayerState.

Section Host.

(** The two packages the constructor loads: [minecraft-data], applied to the
    version of the bot (a version the package knows), and the [simplify] of
    [prismarine-nbt]. *)
Variable Nbt : Type.
Variable minecraftData : string -> Registry.t.
Variable simplify : Nbt -> SimplifiedNbt.

(** [new PlayerState(bot, control)]. *)
Definition new (bot : Bot.t Nbt) (control : Control.t) : Entity :=
  let mcData := minecraftData (Bot.version bot) in
  let effects := Bot.effects (Bot.entity bot) in
  let boots := Bot.slot bot 8 in
  let depthStrider :=
    match boots with
    | Some boots =>
        match Bot.nbt boots with
        | Some tag =>
            let simplifiedNbt := simplify tag in
            let enchantments :=
              match Enchantments simplifiedNbt with
              | Some l => l
              | None =>
                  match ench simplifiedNbt with
                  | Some l => l
                  | None => []
                  end
              end in
            getEnchantmentLevel mcData "depth_strider" enchantments
        | None => 0
        end
    | None => 0
    end in
  let item := Bot.slot bot 6 in
  mkEntity
    (Bot.position (Bot.entity bot))
    (Bot.velocity (Bot.entity bot))
    (Bot.onGround (Bot.entity bot))
    (Bot.isInWater (Bot.entity bot))
    (Bot.isInLava (Bot.entity bot))
    (Bot.isInWeb (Bot.entity bot))
    (Bot.isCollidedHorizontally (Bot.entity bot))
    (Bot.isCollidedVertically (Bot.entity bot))
    (Bot.elytraFlying (Bot.entity bot))
    (Bot.jumpTicks bot)
    (Bot.jumpQueued bot)
    (Bot.fireworkRocketDuration bot)
    (Bot.attributes (Bot.entity bot))
    (Bot.yaw (Bot.entity bot))
    (Bot.pitch (Bot.entity bot))
    control
    (getEffectLevel mcData "JumpBoost" effects)
    (getEffectLevel mcData "Speed" effects)
    (getEffectLevel mcData "Slowness" effects)
    (getEffectLevel mcData "DolphinsGrace" effects)
    (getEffectLevel mcData "SlowFalling" effects)
    (getEffectLevel mcData "Levitation" effects)
    depthStrider
    (match item with
     | Some item => String.eqb (Bot.name item) "elytra"
     | None => false
     end).

(** [state.apply(bot)]: the twelve fields a tick may change are written
    back. *)
Definition apply (state : Entity) (bot : Bot.t Nbt) : Bot.t Nbt :=
  let e := Bot.entity bot in
  Bot.mk
    (Bot.mkBotEntity (pos state) (vel state) (onGround state) (isInWater state)
       (isInLava state) (isInWeb state) (isCollidedHorizontally state)
       (isCollidedVertically state) (elytraFlying state)
       (Bot.attributes e) (Bot.yaw e) (Bot.pitch e) (Bot.effects e))
    (jumpTicks state) (jumpQueued state) (fireworkRocketDuration state)
    (Bot.slots bot) (Bot.version bot).

End Host.

End PlayerState.

(** ** Example data: a version, a feature file, a catalogue and worlds *)

Module Sample.

(** A decimal version string as its list of numbers. *)
Definition digit (c : ascii) : option N :=
  let n := N_of_ascii c in
  if ((48 <=? n) && (n <=? 57))%N then Some (n - 48)%N else None.

Fixpoint number (s : string) (acc : N) : N :=
  match s with
  | EmptyString => acc
  | String c r =>
      match digit c with
      | Some d => number r (10 * acc + d)%N
      | None => number r acc
      end
  end.

Definition parse (s : string) : list N := map (fun p => number p 0%N) (split "." s).

Fixpoint cmp (a b : list N) : comparison :=
  match a, b with
  | [], _ => if forallb (N.eqb 0) b then Eq else Lt
  | x :: a', [] => match (x ?= 0)%N with Eq => cmp a' [] | c => c end
  | x :: a', y :: b' => match (x ?= y)%N with Eq => cmp a' b' | c => c end
  end.

(** A version object that orders version strings number by number. *)
Definition versionOf (minecraftVersion major : string) : Version :=
  let c (p : string) := cmp (parse minecraftVersion) (parse p) in
  mkVersion major
    (fun n =>
       if String.eqb n ">" then Some (fun p => match c p with Gt => true | _ => false end)
       else if String.eqb n ">=" then Some (fun p => match c p with Lt => false | _ => true end)
       else if String.eqb n "<" then Some (fun p => match c p with Lt => true | _ => false end)
       else if String.eqb n "<=" then Some (fun p => match c p with Gt => false | _ => true end)
       else if String.eqb n "==" then Some (fun p => match c p with Eq => true | _ => false end)
       else None).

Definition features : list Feature :=
  [ mkFeature "independentLiquidGravity" [Array ["< 1.13"]];
    mkFeature "proportionalLiquidGravity" [Single ">= 1.13"];
    mkFeature "velocityBlocksOnCollision" [Array [">= 1.8"; "< 1.15"]];
    mkFeature "velocityBlocksOnTop" [Single ">= 1.15"];
    mkFeature "climbUsingJump" [Single ">= 1.14"];
    mkFeature "climableTrapdoor" [Single ">= 1.9"] ].

Definition blocks : list (string * Z) :=
  [ ("stone", 1); ("slime_block", 2); ("ice", 3); ("packed_ice", 4);
    ("soul_sand", 5); ("honey_block", 6); ("cobweb", 7); ("water", 8);
    ("lava", 9); ("ladder", 10); ("vine", 11); ("oak_trapdoor", 12);
    ("bubble_column", 13); ("blue_ice", 14) ]%Z.

Fixpoint find (n : string) (l : list (string * Z)) : option BlockInfo :=
  match l with
  | [] => None
  | (k, v) :: r => if String.eqb n k then Some (mkBlockInfo v) else find n r
  end.

Definition mcData (minecraftVersion major : string) : McData.t :=
  McData.mk (versionOf minecraftVersion major)
    (fun n => find n blocks)
    (fun n => if String.eqb n "movementSpeed"
              then Some (mkAttributeInfo "minecraft:generic.movement_speed")
              else None).

(** The world without blocks. *)
Definition emptyWorld : World := mkWorld (fun _ => None).

(** A full cube of the given type at the lattice position of [p]. *)
Definition cube (t : Z) (p : Vec3.t) : Block :=
  mkBlock (Vec3.floored p) t 0 [(0, 0, 0, 1, 1, 1)]
    (mkProperties false None false) "block".

(** Stone below y = 64 and nothing above. *)
Definition flatWorld : World :=
  mkWorld (fun p => if Vec3.y p <? 64 then Some (cube 1 p) else None).

(** Slime blocks below y = 64 and nothing above. *)
Definition slimeWorld : World :=
  mkWorld (fun p => if Vec3.y p <? 64 then Some (cube 2 p) else None).

(** The flat world with a wall of stone from x = 1 on. *)
Definition wallWorld : World :=
  mkWorld (fun p => if (Vec3.y p <? 64) || (1 <=? Vec3.x p)
                    then Some (cube 1 p) else None).

(** A source block of water: no shape, an empty bounding box. *)
Definition water (p : Vec3.t) : Block :=
  mkBlock (Vec3.floored p) 8 0 [] (mkProperties false None false) "empty".

(** A pool: a stone floor below y = 64; in the layer 64 <= y < 65 water
    where x < 1 and a stone ledge from x = 1 on; nothing above. *)
Definition poolWorld : World :=
  mkWorld (fun p =>
             if Vec3.y p <? 64 then Some (cube 1 p)
             else if Vec3.y p <? 65
                  then if 1 <=? Vec3.x p then Some (cube 1 p) else Some (water p)
                  else None).

Definition noControl : Control.t := Control.mk false false false false false false false.

(** A player with no effect, no attribute and no elytra. *)
Definition player (p v : Vec3.t) (ground : bool) (c : Control.t) : Entity :=
  mkEntity p v ground false false false false false false 0 false 0 None 0 0 c
    0 0 0 0 0 0 0 false.

(** An open oak trapdoor. *)
Definition trapdoor (p : Vec3.t) : Block :=
  mkBlock (Vec3.floored p) 12 0 [] (mkProperties true (Some "north") false) "block".

(** A world whose only blocks are trapdoors in the layer 10 <= y < 11, with
    nothing below them. *)
Definition trapdoorWorld : World :=
  mkWorld (fun p => if (10 <=? Vec3.y p) && (Vec3.y p <? 11)
                    then Some (trapdoor p) else None).

(** An entity floating in the pool and pushed against the ledge. *)
Definition swimmer : Entity :=
  mkEntity (Vec3.mk 0.5 64.5 0.5) (Vec3.mk 0.5 0 0) false true false false false
    false false 0 false 0 None 0 0 noControl 0 0 0 0 0 0 0 false.


(** A cobweb: no shape, an empty bounding box. *)
Definition web (p : Vec3.t) : Block :=
  mkBlock (Vec3.floored p) 7 0 [] (mkProperties false None false) "empty".

(** The flat world with cobwebs in the layer 64 <= y < 65. *)
Definition webWorld : World :=
  mkWorld (fun p => if Vec3.y p <? 64 then Some (cube 1 p)
                    else if Vec3.y p <? 65 then Some (web p) else None).

(** A player caught in a web, with the velocity it came with. *)
Definition caught : Entity :=
  mkEntity (Vec3.mk 0.5 64.5 0.5) (Vec3.mk 0.2 (-0.1) 0.1) false false false true
    false false false 0 false 0 None 0 0 noControl 0 0 0 0 0 0 0 false.

(** The values of [Math.sin] and [Math.cos] at 0, for the examples whose
    only angle is 0. *)
Definition sinAt0 (x : float) : float := 0.
Definition cosAt0 (x : float) : float := 1.

(** A player gliding north with an elytra, level, with a rocket burning. *)
Definition glider : Entity :=
  mkEntity (Vec3.mk 0.5 100 0.5) (Vec3.mk 0 0 (-1)) false false false false false
    false true 0 false 5 None 0 0 noControl 0 0 0 0 0 0 0 true.

(** A player falling onto the floor of the flat world. *)
Definition lander : Entity :=
  player (Vec3.mk 0.5 64 0.5) (Vec3.mk 0 (-0.1) 0) false noControl.

(** Game data with the six effects and the enchantment that [PlayerState]
    asks for. *)
Definition registry : Registry.t :=
  Registry.mk
    (fun n =>
       if String.eqb n "Speed" then Some (Effect.mkDescriptor 1)
       else if String.eqb n "Slowness" then Some (Effect.mkDescriptor 2)
       else if String.eqb n "JumpBoost" then Some (Effect.mkDescriptor 8)
       else if String.eqb n "Levitation" then Some (Effect.mkDescriptor 25)
       else if String.eqb n "SlowFalling" then Some (Effect.mkDescriptor 28)
       else if String.eqb n "DolphinsGrace" then Some (Effect.mkDescriptor 30)
       else None)
    (fun n => if String.eqb n "depth_strider"
              then Some (Enchantment.mkDescriptor 8) else None).

(** Boots with depth strider III, their tag already in simplified form. *)
Definition boots : Bot.Item SimplifiedNbt :=
  Bot.mkItem "diamond_boots"
    (Some (mkSimplifiedNbt
             (Some [EnchInfo.mk (EnchInfo.Str "minecraft:depth_strider") 3])
             None)).

(** A bot falling onto the floor of the flat world, with jump boost II, an
    elytra in slot 6 and the boots in slot 8. *)
Definition bot : Bot.t SimplifiedNbt :=
  Bot.mk
    (Bot.mkBotEntity (Vec3.mk 0.5 64 0.5) (Vec3.mk 0 (-0.1) 0) false false false
       false false false false None 0 0
       (fun i => if (i =? 8)%Z then Some (Effect.mkInfo 1) else None))
    0 false 0
    [None; None; None; None; None; None; Some (Bot.mkItem "elytra" None); None;
     Some boots]
    "1.20.1".

(** Version 1.20.1, and what [Physics] builds for it: the feature list, the
    catalogue and the closure (see [closure_built]). *)
Definition version120 : Version := versionOf "1.20.1" "1.20".

Definition featureList : FeatureList.t :=
  FeatureList.mk version120
    ["proportionalLiquidGravity"; "velocityBlocksOnTop"; "climbUsingJump";
     "climableTrapdoor"].

Definition catalogue120 : Catalogue :=
  mkCatalogue [(14%Z, 0.989); (4%Z, 0.98); (3%Z, 0.98); (2%Z, 0.8)]
    2 5 6 7 [8; -1]%Z [9; -1]%Z 10 [12]%Z 11 [13]%Z 13.

Definition closure : Closure :=
  mkClosure (constants "minecraft:generic.movement_speed" (0.08 / 16) (0.08 / 4))
    catalogue120 featureList.


(** A floor with a corner cut out: stone below y = 64, except where
    x >= 1 and z >= 1. *)
Definition cornerWorld : World :=
  mkWorld (fun p => if (Vec3.y p <? 64) &&
                       negb ((1 <=? Vec3.x p) && (1 <=? Vec3.z p))
                    then Some (cube 1 p) else None).

(** A player sneaking on the floor next to the corner. *)
Definition sneaker : Entity :=
  player (Vec3.mk 0.9 64 0.9) (Vec3.mk 0 0 0) true
    (Control.mk false false false false false false true).

(** A player on the ground who sprints forward, facing the angle whose sine
    is 0 and cosine 1, with the movement-speed attribute of the server and
    a rocket that is not burning in flight. *)
Definition sprinter : Entity :=
  mkEntity (Vec3.mk 0.5 64 0.5) (Vec3.mk 0 0 0) true false false false false
    false false 0 false 3
    (Some (fun n => if String.eqb n "minecraft:generic.movement_speed"
                    then Some (attribute.mkAttributeValue 0.1 []) else None))
    Js.Math_PI 0 (Control.mk true false false false false true false)
    0 0 0 0 0 0 0 false.

(** Stand-ins for [Math.sin] and [Math.cos] in closed examples.  They return
    NaN, so an example that reached them would show it in its result. *)
Definition noTrig (x : float) : float := nan.

End Sample.

(** ** What the properties are stated with *)

(** A condition string holds of a version when [checkVersion] answers
    [true]; an entry of a [versions] list is satisfied when its condition
    holds, or when all the conditions of its array hold. *)
Definition conditionHolds (version : Version) (condition : string) : Prop :=
  FeatureList.checkVersion version condition = Ok true.

Definition entrySatisfied (version : Version) (entry : VersionConditions) : Prop :=
  match entry with
  | Single condition => conditionHolds version condition
  | Array conditions => Forall (conditionHolds version) conditions
  end.

(** A string with no space in it: a bare version, a predicate name or a
    parameter. *)
Fixpoint noSpace (s : string) : bool :=
  match s with
  | EmptyString => true
  | String c r => negb (Ascii.eqb c " ") && noSpace r
  end.

(** The cursor positions [(x, y, z)] of the sweep of [getSurroundingBBs]
    around a box, in the order the three loops reach them: [y] outermost
    and starting one below the floor of [minY], then [z], then [x]. *)
Definition cursorPositions (queryBB : AABB.t) : list (Z * Z * Z) :=
  flat_map
    (fun cy =>
       flat_map
         (fun cz =>
            map (fun cx => (cx, cy, cz))
              (range (Js.floorZ (AABB.minX queryBB)) (Js.floorZ (AABB.maxX queryBB))))
         (range (Js.floorZ (AABB.minZ queryBB)) (Js.floorZ (AABB.maxZ queryBB))))
    (range (option_map (fun f => (f - 1)%Z) (Js.floorZ (AABB.minY queryBB)))
           (Js.floorZ (AABB.maxY queryBB))).

(** A shape translated by a position. *)
Definition translated (p : Vec3.t) (shape : Shape) : AABB.t :=
  let '(x0, y0, z0, x1, y1, z1) := shape in
  AABB.mk (x0 + Vec3.x p) (y0 + Vec3.y p) (z0 + Vec3.z p)
          (x1 + Vec3.x p) (y1 + Vec3.y p) (z1 + Vec3.z p).

(** The fields of the model's entity that a move does not assign: the
    counters, the liquid flags and the inputs. *)
Definition frame (e : Entity) :=
  (jumpTicks e, jumpQueued e, fireworkRocketDuration e, isInWater e, isInLava e,
   attributes e, yaw e, pitch e, control e,
   (jumpBoost e, speed e, slowness e, dolphinsGrace e, slowFalling e,
    levitation e, depthStrider e, elytraEquipped e)).

(** A computation that does not raise (it returns or runs out of fuel). *)
Definition noThrow {A : Type} (r : Res A) : Prop := forall e, r <> Throw e.

(** A horizontal velocity component that is zero. *)
Definition zero_x (e : Entity) : Prop := Vec3.x (vel e) = 0.
Definition zero_z (e : Entity) : Prop := Vec3.z (vel e) = 0.

(** [e'] is [e] with another velocity and web flag. *)
Definition touched (e e' : Entity) : Prop :=
  e' = set_isInWeb (isInWeb e') (set_vel (vel e') e).

(** The fields of the model's entity that a tick does not assign, and the
    fields it may assign (those which [apply] copies back to the bot). *)
Definition inputs (e : Entity) :=
  (attributes e, yaw e, pitch e, control e,
   (jumpBoost e, speed e, slowness e, dolphinsGrace e, slowFalling e,
    levitation e, depthStrider e, elytraEquipped e)).

Definition outputs (e : Entity) :=
  (pos e, vel e, onGround e, isInWater e, isInLava e, isInWeb e,
   (isCollidedHorizontally e, isCollidedVertically e, elytraFlying e,
    jumpTicks e, jumpQueued e, fireworkRocketDuration e)).

(** What a move leaves as it was: the counters, the liquid flags, the
    angles, the controls, the effect levels, the depth-strider level and
    the elytra slot.  The attribute object is not among them: the source
    lets its helper update it. *)
Definition untouched (e : Entity) :=
  (jumpTicks e, jumpQueued e, fireworkRocketDuration e, isInWater e, isInLava e,
   yaw e, pitch e, control e,
   (jumpBoost e, speed e, slowness e, dolphinsGrace e, slowFalling e,
    levitation e, depthStrider e, elytraEquipped e)).

(** What a tick only reads: the angles, the controls, the effect levels,
    the depth-strider level and the elytra slot. *)
Definition settings (e : Entity) :=
  (yaw e, pitch e, control e,
   (jumpBoost e, speed e, slowness e, dolphinsGrace e, slowFalling e,
    levitation e, depthStrider e, elytraEquipped e)).

(** The elytra flag that a tick recomputes before it moves: the flight goes
    on while the elytra is worn, the entity was off the ground and does not
    levitate. *)
Definition flying (e : Entity) : bool :=
  elytraFlying e && elytraEquipped e && negb (onGround e) &&
  negb (Js.truthy (levitation e)).

(** The boxes whose blocks give the liquid flags of a tick. *)
Definition waterBB (P : Closure) (e : Entity) : AABB.t :=
  AABB.contract (getPlayerBB P (pos e)) 0.001 0.401 0.001.

Definition lavaBB (P : Closure) (e : Entity) : AABB.t :=
  AABB.contract (getPlayerBB P (pos e)) 0.1 0.4 0.1.

(** The blocks whose id [Physics] reads without a test.  An entry lists the
    names that are tried in turn: the first is read if the game data has
    it, the last otherwise. *)
Definition mandatoryBlocks : list (list string) :=
  [ ["slime_block"; "slime"]; ["ice"]; ["packed_ice"]; ["soul_sand"];
    ["cobweb"; "web"]; ["water"]; ["lava"]; ["ladder"]; ["vine"] ].

Definition hasOneOf (blocksByName : string -> option BlockInfo)
  (names : list string) : bool :=
  existsb (fun n => match blocksByName n with Some _ => true | None => false end)
    names.

(** The cursor positions of the sweeps that start at the floor of [minY]
    ([isMaterialInBB], [getWaterInBB], the block effects of a move), in the
    order the three loops reach them. *)
Definition boxPositions (bb : AABB.t) : list (Z * Z * Z) :=
  flat_map
    (fun cy =>
       flat_map
         (fun cz =>
            map (fun cx => (cx, cy, cz))
              (range (Js.floorZ (AABB.minX bb)) (Js.floorZ (AABB.maxX bb))))
         (range (Js.floorZ (AABB.minZ bb)) (Js.floorZ (AABB.maxZ bb))))
    (range (Js.floorZ (AABB.minY bb)) (Js.floorZ (AABB.maxY bb))).

(** A block that counts as water: water itself, a plant that only grows in
    water, a bubble column, or a waterlogged block. *)
Definition isWater (P : Closure) (b : Block) : bool :=
  includes (waterIds (catalogue P)) (type b) ||
  includes (waterLike (catalogue P)) (type b) ||
  waterlogged (getProperties b).

(** An entity with other collision flags. *)
Definition collided (ch cv : bool) (e : Entity) : Entity :=
  set_isCollidedVertically cv (set_isCollidedHorizontally ch e).

(** A box whose sweep the lattice model follows step by step: the floors
    of its six bounds are integers below 2^53 in absolute value, so that the
    cursor of the source reaches each position and advances by exactly one. *)
Definition exactBound (x : float) : bool :=
  match Js.floorZ x with
  | Some z => (Z.abs z <? 2 ^ 53)%Z
  | None => false
  end.

Definition sweepable (bb : AABB.t) : bool :=
  exactBound (AABB.minX bb) && exactBound (AABB.maxX bb) &&
  exactBound (AABB.minY bb) && exactBound (AABB.maxY bb) &&
  exactBound (AABB.minZ bb) && exactBound (AABB.maxZ bb).

(** An entity with other levels of the Speed and Slowness effects. *)
Definition withSpeed (sp sl : float) (e : Entity) : Entity :=
  mkEntity (pos e) (vel e) (onGround e) (isInWater e) (isInLava e) (isInWeb e)
    (isCollidedHorizontally e) (isCollidedVertically e) (elytraFlying e)
    (jumpTicks e) (jumpQueued e) (fireworkRocketDuration e) (attributes e)
    (yaw e) (pitch e) (control e) (jumpBoost e) sp sl
    (dolphinsGrace e) (slowFalling e) (levitation e) (depthStrider e)
    (elytraEquipped e).

(** * Properties *)

(** ** The feature list *)

Lemma split_noSpace (s : string) :
  noSpace s = true -> split " " s = [s].
Proof.
  induction s as [|c r IH]; simpl; [reflexivity|].
  intros H. apply andb_prop in H. destruct H as [Hc Hr].
  destruct (Ascii.eqb c " "); [discriminate|].
  rewrite (IH Hr). reflexivity.
Qed.

Lemma split_pair (p q : string) :
  noSpace p = true -> noSpace q = true ->
  split " " (p ++ " " ++ q) = [p; q].
Proof.
  intros Hp Hq. induction p as [|c r IH]; simpl.
  - rewrite (split_noSpace q Hq). reflexivity.
  - simpl in Hp. apply andb_prop in Hp. destruct Hp as [Hc Hr].
    destruct (Ascii.eqb c " "); [discriminate|].
    simpl in IH. rewrite (IH Hr). reflexivity.
Qed.

Lemma allConditions_spec (version : Version) (conditions : list string) :
  forall acc flag,
    FeatureList.allConditions version conditions acc = Ok flag ->
    (flag = true <-> acc = true /\ Forall (conditionHolds version) conditions).
Proof.
  induction conditions as [|c cs IH]; simpl; intros acc flag H.
  - inversion H; subst. split; [intros ->; auto | tauto].
  - unfold bind in H.
    destruct (FeatureList.checkVersion version c) as [b| |] eqn:Hc; try discriminate.
    apply IH in H. rewrite H. split.
    + intros [Hab HF]. apply andb_prop in Hab. destruct Hab as [-> ->].
      split; [reflexivity|]. constructor; assumption.
    + intros [-> HF]. inversion HF as [|? ? Hh Ht]; subst.
      unfold conditionHolds in Hh. rewrite Hh in Hc. inversion Hc; subst.
      split; [reflexivity | assumption].
Qed.

Lemma flagOf_spec (version : Version) (entry : VersionConditions) (flag : bool) :
  FeatureList.flagOf version entry = Ok flag ->
  (flag = true <-> entrySatisfied version entry).
Proof.
  destruct entry as [c|cs]; simpl; intros H.
  - unfold conditionHolds. rewrite H. split; [intros ->; reflexivity | congruence].
  - apply allConditions_spec in H. rewrite H. tauto.
Qed.

Lemma anyVersions_spec (version : Version) (vs : list VersionConditions) (b : bool) :
  FeatureList.anyVersions version vs = Ok b ->
  (b = true <-> Exists (entrySatisfied version) vs).
Proof.
  revert b. induction vs as [|e es IH]; simpl; intros b H.
  - inversion H; subst. split; [discriminate | intros HE; inversion HE].
  - unfold bind in H.
    destruct (FeatureList.flagOf version e) as [flag| |] eqn:He; try discriminate.
    apply flagOf_spec in He. destruct flag.
    + inversion H; subst. split; [|reflexivity].
      intros _. apply Exists_cons_hd. apply He. reflexivity.
    + apply IH in H. rewrite H. split.
      * intros HE. apply Exists_cons_tl. exact HE.
      * intros HE. inversion HE as [? ? Hh|? ? Ht]; subst; [|assumption].
        apply He in Hh. discriminate.
Qed.

Lemma has_add (s : list string) (n m : string) :
  FeatureList.has (FeatureList.add n s) m = FeatureList.has s m || String.eqb m n.
Proof.
  unfold FeatureList.add.
  destruct (FeatureList.has s n) eqn:Hn.
  - destruct (String.eqb_spec m n) as [->|Hneq].
    + rewrite Hn. reflexivity.
    + rewrite orb_false_r. reflexivity.
  - unfold FeatureList.has. rewrite existsb_app. simpl.
    rewrite orb_false_r. reflexivity.
Qed.

Lemma collect_spec (version : Version) (feats : list Feature) :
  forall acc s n,
    FeatureList.collect version feats acc = Ok s ->
    (FeatureList.has s n = true <->
     FeatureList.has acc n = true \/
     exists f, In f feats /\ name f = n /\
               Exists (entrySatisfied version) (versions f)).
Proof.
  induction feats as [|f fs IH]; simpl; intros acc s n H.
  - inversion H; subst. split; [auto | intros [?|[f [[] _]]]; assumption].
  - unfold bind in H.
    destruct (FeatureList.anyVersions version (versions f)) as [b| |] eqn:Hb;
      try discriminate.
    apply anyVersions_spec in Hb.
    apply (IH _ _ n) in H. rewrite H. clear H IH.
    destruct b.
    + rewrite has_add. split.
      * intros [Hh|[g [Hin Hg]]].
        -- apply orb_prop in Hh. destruct Hh as [Hh|Hh]; [left; assumption|].
           right. exists f. apply String.eqb_eq in Hh.
           split; [left; reflexivity|]. split; [congruence|].
           apply Hb. reflexivity.
        -- right. exists g. split; [right; assumption | assumption].
      * intros [Hh|[g [[Heq|Hin] [Hn Hg]]]].
        -- left. rewrite Hh. reflexivity.
        -- subst g. left. subst n. rewrite String.eqb_refl. apply orb_true_r.
        -- right. exists g. auto.
    + split.
      * intros [Hh|[g [Hin Hg]]]; [left; assumption|].
        right. exists g. split; [right; assumption | assumption].
      * intros [Hh|[g [[Heq|Hin] [Hn Hg]]]].
        -- left. assumption.
        -- subst g. apply Hb in Hg. discriminate.
        -- right. exists g. auto.
Qed.

(** C6.  A bare version string holds iff it equals the major version of the
    version; a ["predicate parameter"] string holds iff the comparison method
    of that name answers [true] on the parameter; and the feature list built
    from a feature file supports a name iff some record of that name has an
    entry of its [versions] list that is satisfied, an array entry being
    satisfied when all its conditions hold. *)
Theorem FeatureList_enables_iff_some_entry (version : Version) :
  (forall c, noSpace c = true ->
     FeatureList.checkVersion version c = Ok (String.eqb c (majorVersion version))) /\
  (forall p q, noSpace p = true -> noSpace q = true ->
     FeatureList.checkVersion version (p ++ " " ++ q) =
     match method version p with
     | Some compare => Ok (compare q)
     | None => Throw TypeError
     end) /\
  (forall feats fl n,
     FeatureList.new feats version = Ok fl ->
     (FeatureList.supportFeature fl n = true <->
      exists f, In f feats /\ name f = n /\
                Exists (entrySatisfied version) (versions f))).
Proof.
  split; [|split].
  - intros c Hc. unfold FeatureList.checkVersion.
    rewrite (split_noSpace c Hc). reflexivity.
  - intros p q Hp Hq. unfold FeatureList.checkVersion.
    rewrite (split_pair p q Hp Hq). reflexivity.
  - intros feats fl n H. unfold FeatureList.new, bind in H.
    destruct (FeatureList.collect version feats []) as [s| |] eqn:Hs; try discriminate.
    inversion H; subst. unfold FeatureList.supportFeature. simpl.
    rewrite (collect_spec version feats [] s n Hs). simpl.
    split; [intros [?|?]; [discriminate | assumption] | auto].
Qed.

(** The example of the source: ["== 1.14"] holds of 1.14 and not of 1.14.1,
    and ["1.14"] holds of both. *)
Example FeatureList_eq_1_14 :
  conditionHolds (Sample.versionOf "1.14" "1.14") "== 1.14" /\
  ~ conditionHolds (Sample.versionOf "1.14.1" "1.14") "== 1.14" /\
  conditionHolds (Sample.versionOf "1.14" "1.14") "1.14" /\
  conditionHolds (Sample.versionOf "1.14.1" "1.14") "1.14".
Proof.
  unfold conditionHolds. repeat split; try reflexivity.
  vm_compute. discriminate.
Qed.

Lemma FeatureList_enables_witness :
  FeatureList.new Sample.features Sample.version120 = Ok Sample.featureList /\
  FeatureList.supportFeature Sample.featureList "climbUsingJump" = true /\
  exists f, In f Sample.features /\ name f = "climbUsingJump" /\
            Exists (entrySatisfied Sample.version120) (versions f).
Proof.
  split; [reflexivity|]. split; [reflexivity|].
  apply (proj2 (proj2 (FeatureList_enables_iff_some_entry Sample.version120))
           Sample.features Sample.featureList "climbUsingJump");
    reflexivity.
Defined.

(** ** Construction of the closure *)

Lemma Physics_inv (feats : list Feature) (mcData : McData.t) (P : Closure) :
  Physics feats mcData = Ok P ->
  exists fl c ms wg lg,
    FeatureList.new feats (McData.version mcData) = Ok fl /\
    readCatalogue (McData.blocksByName mcData) = Ok c /\
    liquidGravity fl 0.08 = Ok (wg, lg) /\
    P = mkClosure (constants ms wg lg) c fl.
Proof.
  unfold Physics, bind. intros H.
  destruct (FeatureList.new feats (McData.version mcData)) as [fl| |]; try discriminate.
  destruct (readCatalogue (McData.blocksByName mcData)) as [c| |]; try discriminate.
  destruct (McData.attributesByName mcData "movementSpeed") as [a|]; try discriminate.
  destruct (liquidGravity fl 0.08) as [[wg lg]| |] eqn:Hg; try discriminate.
  inversion H; subst. exists fl, c, (resource a), wg, lg.
  repeat split; assumption.
Qed.

(** The constants of a closure that [Physics] built. *)
Lemma Physics_constants (feats : list Feature) (mcData : McData.t) (P : Closure) :
  Physics feats mcData = Ok P ->
  exists ms wg lg, physics P = constants ms wg lg.
Proof.
  intros H. apply Physics_inv in H.
  destruct H as (fl & c & ms & wg & lg & _ & _ & _ & ->).
  exists ms, wg, lg. reflexivity.
Qed.

(** C7.  Where the feature list and the catalogue of a version are built,
    construction fails with the "No liquid gravity settings" error iff
    neither [independentLiquidGravity] nor [proportionalLiquidGravity] is
    supported; with [independentLiquidGravity] both liquid gravities are
    0.02; otherwise with [proportionalLiquidGravity] the water gravity is
    gravity / 16 = 0.005 and the lava gravity is gravity / 4 = 0.02. *)
Theorem Physics_liquid_gravity
  (feats : list Feature) (mcData : McData.t)
  (fl : FeatureList.t) (c : Catalogue) (a : AttributeInfo) :
  FeatureList.new feats (McData.version mcData) = Ok fl ->
  readCatalogue (McData.blocksByName mcData) = Ok c ->
  McData.attributesByName mcData "movementSpeed" = Some a ->
  let independent := FeatureList.supportFeature fl "independentLiquidGravity" in
  let proportional := FeatureList.supportFeature fl "proportionalLiquidGravity" in
  (Physics feats mcData = Throw (Error noLiquidGravity) <->
   independent = false /\ proportional = false) /\
  (independent = true ->
   exists P, Physics feats mcData = Ok P /\
             waterGravity (physics P) = 0.02 /\
             lavaGravity (physics P) = 0.02) /\
  (independent = false -> proportional = true ->
   exists P, Physics feats mcData = Ok P /\
             waterGravity (physics P) = gravity (physics P) / 16 /\
             waterGravity (physics P) = 0.005 /\
             lavaGravity (physics P) = gravity (physics P) / 4 /\
             lavaGravity (physics P) = 0.02).
Proof.
  intros Hfl Hc Ha independent proportional.
  unfold Physics. rewrite Hfl, Hc, Ha. simpl. unfold liquidGravity.
  fold independent. fold proportional.
  destruct independent, proportional; simpl;
    (split; [split; [discriminate || auto | intros [? ?]; discriminate || reflexivity]
            | split; [intros ?; try discriminate | intros ? ?; try discriminate]]);
    eexists; (split; [reflexivity|]); simpl; repeat split; reflexivity.
Qed.

Lemma Physics_liquid_gravity_witness :
  exists P, Physics Sample.features (Sample.mcData "1.20.1" "1.20") = Ok P /\
            waterGravity (physics P) = gravity (physics P) / 16 /\
            waterGravity (physics P) = 0.005 /\
            lavaGravity (physics P) = gravity (physics P) / 4 /\
            lavaGravity (physics P) = 0.02.
Proof.
  apply (proj2 (proj2
    (Physics_liquid_gravity Sample.features (Sample.mcData "1.20.1" "1.20")
       Sample.featureList Sample.catalogue120
       (mkAttributeInfo "minecraft:generic.movement_speed")
       eq_refl eq_refl eq_refl))); reflexivity.
Defined.

(** The closure of the examples is the one [Physics] builds for 1.20.1. *)
Lemma closure_built :
  Physics Sample.features (Sample.mcData "1.20.1" "1.20") = Ok Sample.closure.
Proof. vm_compute. reflexivity. Qed.

(** A version outside every liquid-gravity entry has no closure. *)
Example Physics_unknown_version :
  Physics [] (Sample.mcData "1.20.1" "1.20") = Throw (Error noLiquidGravity).
Proof. reflexivity. Qed.

(** ** Lattice sweeps *)

Lemma In_Zrange (lo hi c : Z) : In c (Zrange lo hi) <-> (lo <= c <= hi)%Z.
Proof.
  unfold Zrange. rewrite in_map_iff. split.
  - intros [i [<- Hi]]. apply in_seq in Hi. lia.
  - intros H. exists (Z.to_nat (c - lo)). split; [lia|].
    apply in_seq. lia.
Qed.

Lemma NoDup_Zrange (lo hi : Z) : NoDup (Zrange lo hi).
Proof.
  unfold Zrange. apply NoDup_map_NoDup_ForallPairs; [|apply seq_NoDup].
  intros i j _ _ H. lia.
Qed.

Lemma In_range (lo hi : option Z) (a b c : Z) :
  lo = Some a -> hi = Some b -> (In c (range lo hi) <-> (a <= c <= b)%Z).
Proof. intros -> ->. apply In_Zrange. Qed.

Lemma NoDup_range (lo hi : option Z) : NoDup (range lo hi).
Proof.
  destruct lo as [a|], hi as [b|]; simpl; try constructor.
  apply NoDup_Zrange.
Qed.

(** A loop that only pushes to its accumulator is a [flat_map]. *)
Lemma for_range_push {A : Type} (lo hi : option Z)
  (body : Z -> list A -> list A) (f : Z -> list A) :
  (forall c acc, body c acc = acc ++ f c) ->
  forall acc, for_range lo hi body acc = acc ++ flat_map f (range lo hi).
Proof.
  intros Hbody. unfold for_range.
  induction (range lo hi) as [|c l IH]; intros acc; simpl.
  - rewrite app_nil_r. reflexivity.
  - rewrite IH, Hbody, <- app_assoc. reflexivity.
Qed.

Lemma flat_map_nested {A B C : Type} (f : B -> list C) (g : A -> list B) (l : list A) :
  flat_map f (flat_map g l) = flat_map (fun a => flat_map f (g a)) l.
Proof.
  induction l as [|a l IH]; simpl; [reflexivity|].
  rewrite flat_map_app, IH. reflexivity.
Qed.

Lemma flat_map_map {A B C : Type} (f : B -> list C) (g : A -> B) (l : list A) :
  flat_map f (map g l) = flat_map (fun a => f (g a)) l.
Proof.
  induction l as [|a l IH]; simpl; [reflexivity|]. rewrite IH. reflexivity.
Qed.

Lemma NoDup_flat_map {A B : Type} (f : A -> list B) (l : list A) :
  NoDup l ->
  (forall a, NoDup (f a)) ->
  (forall a a' b, In b (f a) -> In b (f a') -> a = a') ->
  NoDup (flat_map f l).
Proof.
  intros Hl Hf Hdisj. induction Hl as [|a l Ha Hl IH]; simpl; [constructor|].
  apply NoDup_app; [apply Hf | exact IH |].
  intros b Hb Hin. apply in_flat_map in Hin. destruct Hin as [a' [Ha' Hb']].
  rewrite (Hdisj a a' b Hb Hb') in Ha. contradiction.
Qed.

Lemma NoDup_cursorPositions (queryBB : AABB.t) : NoDup (cursorPositions queryBB).
Proof.
  unfold cursorPositions.
  apply NoDup_flat_map; [apply NoDup_range | |].
  - intros cy. apply NoDup_flat_map; [apply NoDup_range | |].
    + intros cz. apply NoDup_map_NoDup_ForallPairs; [|apply NoDup_range].
      intros i j _ _ H. congruence.
    + intros cz cz' [[x y] z] H H'.
      apply in_map_iff in H. apply in_map_iff in H'.
      destruct H as [? [H _]]. destruct H' as [? [H' _]]. congruence.
  - intros cy cy' [[x y] z] H H'.
    apply in_flat_map in H. apply in_flat_map in H'.
    destruct H as [? [_ H]]. destruct H' as [? [_ H']].
    apply in_map_iff in H. apply in_map_iff in H'.
    destruct H as [? [H _]]. destruct H' as [? [H' _]]. congruence.
Qed.

Lemma blockBBs_translated (block : Block) :
  blockBBs block = map (translated (position block)) (shapes block).
Proof.
  unfold blockBBs. apply map_ext. intros [[[[[x0 y0] z0] x1] y1] z1]. reflexivity.
Qed.

(** C8.  For a box whose bounds have floors below 2^53 in absolute value,
    where the cursor of the source advances by exactly one:
    [getSurroundingBBs] returns, position by position in the order of the
    sweep, the shapes of the block found there translated by the position
    of that block, and nothing for a position without a block; the sweep
    reaches no position twice; and its positions are the integer triples
    with [y] from one below the floor of [minY] through the floor of
    [maxY], and [x], [z] from the floor of the minimum through the floor of
    the maximum. *)
Theorem getSurroundingBBs_lattice (world : World) (queryBB : AABB.t) :
  sweepable queryBB = true ->
  getSurroundingBBs world queryBB =
  flat_map
    (fun c : Z * Z * Z =>
       let '(cx, cy, cz) := c in
       match getBlock world (Vec3.ofZ cx cy cz) with
       | Some block => map (translated (position block)) (shapes block)
       | None => []
       end)
    (cursorPositions queryBB) /\
  NoDup (cursorPositions queryBB) /\
  (forall x0 x1 y0 y1 z0 z1,
     Js.floorZ (AABB.minX queryBB) = Some x0 ->
     Js.floorZ (AABB.maxX queryBB) = Some x1 ->
     Js.floorZ (AABB.minY queryBB) = Some y0 ->
     Js.floorZ (AABB.maxY queryBB) = Some y1 ->
     Js.floorZ (AABB.minZ queryBB) = Some z0 ->
     Js.floorZ (AABB.maxZ queryBB) = Some z1 ->
     forall cx cy cz,
       In (cx, cy, cz) (cursorPositions queryBB) <->
       (y0 - 1 <= cy <= y1 /\ z0 <= cz <= z1 /\ x0 <= cx <= x1)%Z).
Proof.
  intros _. split; [|split].
  - unfold getSurroundingBBs, cursorPositions.
    rewrite (for_range_push _ _ _
      (fun cy => flat_map (fun cz => flat_map (fun cx =>
         match getBlock world (Vec3.ofZ cx cy cz) with
         | Some block => blockBBs block
         | None => []
         end)
         (range (Js.floorZ (AABB.minX queryBB)) (Js.floorZ (AABB.maxX queryBB))))
         (range (Js.floorZ (AABB.minZ queryBB)) (Js.floorZ (AABB.maxZ queryBB))))).
    + simpl. rewrite flat_map_nested. apply flat_map_ext. intros cy.
      rewrite flat_map_nested. apply flat_map_ext. intros cz.
      rewrite flat_map_map. apply flat_map_ext. intros cx.
      destruct (getBlock world (Vec3.ofZ cx cy cz)); [|reflexivity].
      apply blockBBs_translated.
    + intros cy acc. apply for_range_push. intros cz acc'.
      apply for_range_push. intros cx acc''.
      destruct (getBlock world (Vec3.ofZ cx cy cz)); [reflexivity|].
      rewrite app_nil_r. reflexivity.
  - apply NoDup_cursorPositions.
  - intros x0 x1 y0 y1 z0 z1 Hx0 Hx1 Hy0 Hy1 Hz0 Hz1 cx cy cz.
    unfold cursorPositions. rewrite Hx0, Hx1, Hy0, Hy1, Hz0, Hz1. simpl.
    rewrite in_flat_map. split.
    + intros [y [Hy H]]. apply in_flat_map in H. destruct H as [z [Hz H]].
      apply in_map_iff in H. destruct H as [x [Heq Hx]].
      inversion Heq; subst. apply In_Zrange in Hx, Hy, Hz. lia.
    + intros (Hy & Hz & Hx). exists cy. split; [apply In_Zrange; lia|].
      apply in_flat_map. exists cz. split; [apply In_Zrange; lia|].
      apply in_map_iff. exists cx. split; [reflexivity | apply In_Zrange; lia].
Qed.

(** The sweep around the box of a player standing at (0.5, 64, 0.5) covers
    the layers 63 to 65 of the column x = 0, z = 0. *)
Example cursorPositions_player :
  cursorPositions (getPlayerBB Sample.closure (Vec3.mk 0.5 64 0.5)) =
  [(0, 63, 0); (0, 64, 0); (0, 65, 0)]%Z.
Proof. vm_compute. reflexivity. Qed.

Lemma getSurroundingBBs_lattice_witness :
  In (0, 63, 0)%Z
     (cursorPositions (getPlayerBB Sample.closure (Vec3.mk 0.5 64 0.5))) <->
  (64 - 1 <= 63 <= 65 /\ 0 <= 0 <= 0 /\ 0 <= 0 <= 0)%Z.
Proof.
  assert (Hs : sweepable (getPlayerBB Sample.closure (Vec3.mk 0.5 64 0.5)) = true)
    by (vm_compute; reflexivity).
  apply (proj2 (proj2 (getSurroundingBBs_lattice Sample.emptyWorld
           (getPlayerBB Sample.closure (Vec3.mk 0.5 64 0.5)) Hs)));
    vm_compute; reflexivity.
Defined.

(** ** Heading *)

(** C9.  [applyHeading] changes at most [vel.x] and [vel.z]: the result is
    the entity with a new velocity whose [y] is the old one, every other
    field being the same; and below the 0.01 threshold the entity is
    returned as it is. *)
Theorem applyHeading_frame (Math_sin Math_cos : float -> float)
  (entity : Entity) (strafe forward multiplier : float) :
  (exists vx vz,
     applyHeading Math_sin Math_cos entity strafe forward multiplier =
     set_vel (Vec3.mk vx (Vec3.y (vel entity)) vz) entity) /\
  ((Js.Math_sqrt (strafe * strafe + forward * forward) <? 0.01) = true ->
   applyHeading Math_sin Math_cos entity strafe forward multiplier = entity).
Proof.
  unfold applyHeading.
  destruct (Js.Math_sqrt (strafe * strafe + forward * forward) <? 0.01).
  - split; [|reflexivity].
    exists (Vec3.x (vel entity)), (Vec3.z (vel entity)).
    destruct entity as [p [vx vy vz]]. reflexivity.
  - split; [|discriminate].
    eexists. eexists. unfold set_vel_x, set_vel_z, set_vel. simpl. reflexivity.
Qed.

Lemma applyHeading_frame_witness :
  applyHeading Sample.noTrig Sample.noTrig
    (Sample.player (Vec3.mk 0 10 0) (Vec3.mk 0.1 0.2 0.3) false Sample.noControl)
    0 0 0.02 =
  Sample.player (Vec3.mk 0 10 0) (Vec3.mk 0.1 0.2 0.3) false Sample.noControl.
Proof.
  apply (proj2 (applyHeading_frame Sample.noTrig Sample.noTrig
           (Sample.player (Vec3.mk 0 10 0) (Vec3.mk 0.1 0.2 0.3) false Sample.noControl)
           0 0 0.02)).
  reflexivity.
Defined.

(** With a heading the two horizontal components move and [vel.y] stays. *)
Example applyHeading_forward :
  vel (applyHeading (fun _ => 0) (fun _ => -1)
         (Sample.player (Vec3.mk 0 10 0) (Vec3.mk 0 0.2 0) false Sample.noControl)
         0 0.98 0.02) =
  Vec3.mk (0 - (0 * -1 + 0.98 * 0.02 * 0)) 0.2 (0 + (0.98 * 0.02 * -1 - 0 * 0)).
Proof. vm_compute. reflexivity. Qed.

(** ** The frame of a move *)

Section Frame.

Variable Math_sin Math_cos : float -> float.
Variable P : Closure.

Lemma frame_set_pos v e : frame (set_pos v e) = frame e.
Proof. reflexivity. Qed.

Lemma frame_set_vel v e : frame (set_vel v e) = frame e.
Proof. reflexivity. Qed.

Lemma frame_set_vel_x v e : frame (set_vel_x v e) = frame e.
Proof. reflexivity. Qed.

Lemma frame_set_vel_y v e : frame (set_vel_y v e) = frame e.
Proof. reflexivity. Qed.

Lemma frame_set_vel_z v e : frame (set_vel_z v e) = frame e.
Proof. reflexivity. Qed.

Lemma frame_set_onGround b e : frame (set_onGround b e) = frame e.
Proof. reflexivity. Qed.

Lemma frame_set_isInWeb b e : frame (set_isInWeb b e) = frame e.
Proof. reflexivity. Qed.

Lemma frame_set_isCollidedHorizontally b e :
  frame (set_isCollidedHorizontally b e) = frame e.
Proof. reflexivity. Qed.

Lemma frame_set_isCollidedVertically b e :
  frame (set_isCollidedVertically b e) = frame e.
Proof. reflexivity. Qed.

Lemma frame_set_elytraFlying b e : frame (set_elytraFlying b e) = frame e.
Proof. reflexivity. Qed.

Create Rewrite HintDb frame.

#[local] Hint Rewrite frame_set_pos frame_set_vel frame_set_vel_x frame_set_vel_y
  frame_set_vel_z frame_set_onGround frame_set_isInWeb
  frame_set_isCollidedHorizontally frame_set_isCollidedVertically
  frame_set_elytraFlying : frame.

(** Branch by branch, the assignments of a straight-line update keep the
    frame. *)
Ltac frame_step :=
  repeat first
    [ reflexivity
    | progress autorewrite with frame
    | match goal with
      | |- context [if ?b then _ else _] => destruct b
      | |- context [match ?o with Some _ => _ | None => _ end] => destruct o
      end ].

Lemma frame_for_range (lo hi : option Z) (body : Z -> Entity -> Entity) :
  (forall c e, frame (body c e) = frame e) ->
  forall e, frame (for_range lo hi body e) = frame e.
Proof.
  intros Hbody. unfold for_range.
  induction (range lo hi) as [|c l IH]; intros e; simpl; [reflexivity|].
  rewrite IH. apply Hbody.
Qed.

Lemma frame_enterWeb e dx dy dz : frame (fst (enterWeb e dx dy dz)) = frame e.
Proof. unfold enterWeb. destruct (isInWeb e); reflexivity. Qed.

Lemma frame_updateFlags e world r ox oy oz :
  frame (updateFlags P e world r ox oy oz) = frame e.
Proof. unfold updateFlags. frame_step. Qed.

Lemma frame_scaleXZ k e : frame (scaleXZ k e) = frame e.
Proof. reflexivity. Qed.

Lemma frame_velocityBlock b e : frame (velocityBlock P b e) = frame e.
Proof. unfold velocityBlock. frame_step. Qed.

Lemma frame_webOrBubble world cursor b e :
  frame (webOrBubble P world cursor b e) = frame e.
Proof. unfold webOrBubble. frame_step. Qed.

Lemma frame_collideBlock world cursor b e :
  frame (collideBlock P world cursor b e) = frame e.
Proof.
  unfold collideBlock. rewrite frame_webOrBubble.
  destruct (supportFeature P "velocityBlocksOnCollision");
    [apply frame_velocityBlock | reflexivity].
Qed.

Lemma frame_blockCollisions world bb e :
  frame (blockCollisions P world bb e) = frame e.
Proof.
  unfold blockCollisions.
  apply frame_for_range. intros cy e1.
  apply frame_for_range. intros cz e2.
  apply frame_for_range. intros cx e3.
  destruct (getBlock world (Vec3.ofZ cx cy cz)); [|reflexivity].
  apply frame_collideBlock.
Qed.

Lemma frame_blocksOnTop world e : frame (blocksOnTop P world e) = frame e.
Proof.
  unfold blocksOnTop.
  destruct (supportFeature P "velocityBlocksOnTop"); [|reflexivity].
  destruct (getBlock world _); [apply frame_velocityBlock | reflexivity].
Qed.

Lemma frame_moveEntity fuel e world dx dy dz e' :
  moveEntity P fuel e world dx dy dz = Ok e' -> frame e' = frame e.
Proof.
  unfold moveEntity.
  pose proof (frame_enterWeb e dx dy dz) as Hweb.
  destruct (enterWeb e dx dy dz) as [e0 [[dx0 dy0] dz0]]. simpl in Hweb.
  unfold bind.
  destruct (sneakGuard P fuel e0 world dx0 dz0) as [[[[dx1 dz1] ox] oz]| |];
    try discriminate.
  intros H. inversion H; subst.
  rewrite frame_blocksOnTop, frame_blockCollisions, frame_updateFlags.
  exact Hweb.
Qed.

Lemma frame_applyHeading e strafe forward multiplier :
  frame (applyHeading Math_sin Math_cos e strafe forward multiplier) = frame e.
Proof. unfold applyHeading. frame_step. Qed.

Lemma frame_liquidDrag e inertia horizontalInertia gm :
  frame (liquidDrag P e inertia horizontalInertia gm) = frame e.
Proof. reflexivity. Qed.

Lemma frame_moveInLiquid fuel e world strafe forward gm e' :
  moveInLiquid Math_sin Math_cos P fuel e world strafe forward gm = Ok e' ->
  frame e' = frame e.
Proof.
  unfold moveInLiquid. destruct (liquidHeading P e) as [hi acc]. unfold bind.
  destruct (moveEntity P fuel _ world _ _ _) as [e1| |] eqn:Hmove; try discriminate.
  apply frame_moveEntity in Hmove. rewrite frame_applyHeading in Hmove.
  destruct (_ && _); intros H; inversion H; subst;
    autorewrite with frame; rewrite ?frame_liquidDrag; exact Hmove.
Qed.

Lemma frame_moveWithElytra fuel e world gm e' :
  moveWithElytra Math_sin Math_cos P fuel e world gm = Ok e' ->
  frame e' = frame e.
Proof.
  unfold moveWithElytra.
  repeat match goal with
         | |- context [let '(_, _) := ?c in _] => destruct c
         end.
  unfold bind.
  destruct (moveEntity P fuel _ world _ _ _) as [e1| |] eqn:Hmove; try discriminate.
  apply frame_moveEntity in Hmove. rewrite frame_set_vel in Hmove.
  destruct (onGround e1); intros H; inversion H; subst;
    autorewrite with frame; exact Hmove.
Qed.

Lemma frame_moveNormally fuel e world strafe forward gm e' :
  moveNormally Math_sin Math_cos P fuel e world strafe forward gm = Ok e' ->
  frame e' = frame e.
Proof.
  unfold moveNormally.
  match goal with
  | |- context [let '(_, _) := ?c in _] => destruct c as [acceleration inertia]
  end.
  unfold bind.
  destruct (isOnLadder P world _) as [onLadder| |]; try discriminate.
  destruct (moveEntity P fuel _ world _ _ _) as [e1| |] eqn:Hmove; try discriminate.
  apply frame_moveEntity in Hmove.
  assert (He1 : frame e1 = frame e).
  { rewrite Hmove. destruct onLadder; autorewrite with frame;
      apply frame_applyHeading. }
  destruct (isOnLadder P world (pos e1)) as [onLadder'| |]; try discriminate.
  intros H. inversion H; subst. autorewrite with frame.
  destruct (_ && _); destruct (0 <? levitation _);
    autorewrite with frame; exact He1.
Qed.

(** A move changes the position, the velocity, the collision flags, the web
    flag and the elytra flag only. *)
Lemma frame_moveEntityWithHeading fuel e world strafe forward e' :
  moveEntityWithHeading Math_sin Math_cos P fuel e world strafe forward = Ok e' ->
  frame e' = frame e.
Proof.
  unfold moveEntityWithHeading.
  destruct (isInWater e || isInLava e); [apply frame_moveInLiquid|].
  destruct (elytraFlying e); [apply frame_moveWithElytra | apply frame_moveNormally].
Qed.

End Frame.

(** ** The jump counter *)

Lemma frame_jumpTicks (e e' : Entity) :
  frame e' = frame e ->
  jumpTicks e' = jumpTicks e /\ isInWater e' = isInWater e /\
  isInLava e' = isInLava e.
Proof. unfold frame. intros H. inversion H. auto. Qed.

Lemma fireworkRocket_keeps (Math_sin Math_cos : float -> float) (e : Entity) :
  jumpTicks (fireworkRocket Math_sin Math_cos e) = jumpTicks e /\
  isInWater (fireworkRocket Math_sin Math_cos e) = isInWater e /\
  isInLava (fireworkRocket Math_sin Math_cos e) = isInLava e.
Proof.
  unfold fireworkRocket.
  destruct (0 <? fireworkRocketDuration e)%Z; [|auto].
  destruct (negb (elytraFlying e)); auto.
Qed.

Lemma resetNegligible_keeps (P : Closure) (e : Entity) :
  jumpTicks (resetNegligible P e) = jumpTicks e /\
  jumpQueued (resetNegligible P e) = jumpQueued e /\
  control (resetNegligible P e) = control e /\
  onGround (resetNegligible P e) = onGround e /\
  isInWater (resetNegligible P e) = isInWater e /\
  isInLava (resetNegligible P e) = isInLava e.
Proof.
  unfold resetNegligible.
  repeat match goal with
         | |- context [if ?b then _ else _] => destruct b
         end; auto 10.
Qed.

(** The counter after "Handle inputs". *)
Lemma handleJump_jumpTicks (Math_sin Math_cos : float -> float) (P : Closure)
  (e : Entity) (world : World) :
  let e' := handleJump Math_sin Math_cos P e world in
  isInWater e' = isInWater e /\ isInLava e' = isInLava e /\
  jumpTicks e' =
  if Control.jump (control e) || jumpQueued e then
    let n := if (0 <? jumpTicks e)%Z then (jumpTicks e - 1)%Z else jumpTicks e in
    if isInWater e || isInLava e then n
    else if onGround e && (n =? 0)%Z then autojumpCooldown (physics P)
    else n
  else 0%Z.
Proof.
  destruct e. unfold handleJump. cbn -[Js.Math_fround Js.Math_PI].
  repeat match goal with
         | |- context [if ?b then _ else _] => destruct b eqn:?
         end; cbn in *; auto; congruence.
Qed.

(** C10.  A tick keeps the jump counter between 0 and 10: it is decremented
    when positive and the jump is held or queued, set to 10 by a jump from
    the ground outside liquids, reset to 0 when the jump is neither held nor
    queued, and left as it was otherwise. *)
Theorem simulatePlayer_jumpTicks (Math_sin Math_cos : float -> float)
  (feats : list Feature) (mcData : McData.t) (P : Closure)
  (fuel : nat) (entity entity' : Entity) (world : World) :
  Physics feats mcData = Ok P ->
  simulatePlayer Math_sin Math_cos P fuel entity world = Ok entity' ->
  (0 <= jumpTicks entity <= 10)%Z ->
  (0 <= jumpTicks entity' <= 10)%Z /\
  let held := Control.jump (control entity) || jumpQueued entity in
  ((held = true /\ (0 < jumpTicks entity)%Z /\
    jumpTicks entity' = (jumpTicks entity - 1)%Z) \/
   (held = true /\ onGround entity = true /\
    isInWater entity' || isInLava entity' = false /\
    jumpTicks entity' = 10%Z) \/
   (held = false /\ jumpTicks entity' = 0%Z) \/
   jumpTicks entity' = jumpTicks entity).
Proof.
  intros HP H Hrange.
  apply Physics_constants in HP. destruct HP as (ms & wg & lg & HP).
  unfold simulatePlayer in H.
  destruct (isInWaterApplyCurrent P world _ (vel entity)) as [inWater v].
  remember (set_isInLava
              (isMaterialInBB world
                 (AABB.contract (getPlayerBB P (pos entity)) 0.1 0.4 0.1)
                 (lavaIds (catalogue P)))
              (set_isInWater inWater (set_vel v entity))) as e1 eqn:He1.
  remember (resetNegligible P e1) as e2 eqn:He2.
  remember (handleJump Math_sin Math_cos P e2 world) as e3 eqn:He3.
  match type of H with
  | (let '(_, _) := ?c in _) = _ => destruct c as [strafe forward]
  end.
  apply frame_moveEntityWithHeading in H. apply frame_jumpTicks in H.
  destruct H as (Hj & Hw & Hl).
  match type of Hj with
  | _ = jumpTicks (fireworkRocket _ _ ?e) =>
      destruct (fireworkRocket_keeps Math_sin Math_cos e) as (Fj & Fw & Fl)
  end.
  rewrite Fj in Hj. rewrite Fw in Hw. rewrite Fl in Hl. clear Fj Fw Fl.
  cbn [jumpTicks isInWater isInLava set_elytraFlying] in Hj, Hw, Hl.
  destruct (handleJump_jumpTicks Math_sin Math_cos P e2 world) as (Jw & Jl & Jj).
  rewrite <- He3 in Jw, Jl, Jj.
  destruct (resetNegligible_keeps P e1) as (Rj & Rq & Rc & Rg & Rw & Rl).
  rewrite <- He2 in Rj, Rq, Rc, Rg, Rw, Rl.
  rewrite Jj in Hj. rewrite Jw in Hw. rewrite Jl in Hl. clear Jj Jw Jl.
  rewrite Rj, Rq, Rc, Rg in Hj. rewrite <- Hw, <- Hl in Hj.
  clear Hw Hl Rj Rq Rc Rg Rw Rl.
  subst e1. cbn [jumpTicks jumpQueued control onGround set_isInLava set_isInWater set_vel] in Hj.
  rewrite HP in Hj. cbn [autojumpCooldown constants] in Hj.
  destruct (Control.jump (control entity) || jumpQueued entity); simpl.
  - destruct (0 <? jumpTicks entity)%Z eqn:Hpos;
      destruct (isInWater entity' || isInLava entity');
      try (destruct (onGround entity); simpl in Hj);
      try match type of Hj with
          | context [(?n =? 0)%Z] => destruct (n =? 0)%Z eqn:Hz
          end;
      try (apply Z.ltb_lt in Hpos); try (apply Z.ltb_ge in Hpos);
      split; try lia; intuition lia.
  - split; [lia|]. right. right. left. auto.
Qed.

Lemma simulatePlayer_jumpTicks_witness :
  exists entity',
    simulatePlayer Sample.noTrig Sample.noTrig Sample.closure 0
      (Sample.player (Vec3.mk 0.5 64 0.5) (Vec3.mk 0 0 0) true
         (Control.mk false false false false true false false))
      Sample.flatWorld = Ok entity' /\
    (0 <= jumpTicks entity' <= 10)%Z.
Proof.
  destruct (simulatePlayer Sample.noTrig Sample.noTrig Sample.closure 0
              (Sample.player (Vec3.mk 0.5 64 0.5) (Vec3.mk 0 0 0) true
                 (Control.mk false false false false true false false))
              Sample.flatWorld) as [entity'| |] eqn:H.
  - exists entity'. split; [reflexivity|].
    apply (simulatePlayer_jumpTicks Sample.noTrig Sample.noTrig Sample.features
             (Sample.mcData "1.20.1" "1.20") Sample.closure 0 _ entity'
             Sample.flatWorld eq_refl H).
    simpl. lia.
  - vm_compute in H. discriminate.
  - vm_compute in H. discriminate.
Defined.

(** ** A world without blocks *)

Lemma for_range_unchanged {A : Type} (lo hi : option Z) (body : Z -> A -> A) :
  (forall c a, body c a = a) -> forall a, for_range lo hi body a = a.
Proof.
  intros Hbody. unfold for_range.
  induction (range lo hi) as [|c l IH]; intros a; simpl; [reflexivity|].
  rewrite Hbody. apply IH.
Qed.

Section EmptyWorld.

Variable P : Closure.
Variable world : World.
Hypothesis no_block : forall p, getBlock world p = None.

Lemma getSurroundingBBs_empty (bb : AABB.t) : getSurroundingBBs world bb = [].
Proof.
  unfold getSurroundingBBs.
  apply for_range_unchanged. intros cy a.
  apply for_range_unchanged. intros cz a'.
  apply for_range_unchanged. intros cx a''.
  rewrite no_block. reflexivity.
Qed.

Lemma getWaterInBB_empty (bb : AABB.t) : getWaterInBB P world bb = [].
Proof.
  unfold getWaterInBB.
  apply for_range_unchanged. intros cy a.
  apply for_range_unchanged. intros cz a'.
  apply for_range_unchanged. intros cx a''.
  rewrite no_block. reflexivity.
Qed.

Lemma isMaterialInBB_empty (bb : AABB.t) (types : list Z) :
  isMaterialInBB world bb types = false.
Proof.
  unfold isMaterialInBB.
  apply for_range_unchanged. intros cy a.
  apply for_range_unchanged. intros cz a'.
  apply for_range_unchanged. intros cx a''.
  rewrite no_block. apply orb_false_r.
Qed.

Lemma isInWaterApplyCurrent_empty (bb : AABB.t) (v : Vec3.t) :
  isInWaterApplyCurrent P world bb v = (false, v).
Proof.
  unfold isInWaterApplyCurrent. rewrite getWaterInBB_empty. reflexivity.
Qed.

Lemma isOnLadder_empty (p : Vec3.t) : isOnLadder P world p = Ok false.
Proof. unfold isOnLadder. rewrite no_block. reflexivity. Qed.

Lemma blockCollisions_empty (bb : AABB.t) (e : Entity) :
  blockCollisions P world bb e = e.
Proof.
  unfold blockCollisions.
  apply for_range_unchanged. intros cy a.
  apply for_range_unchanged. intros cz a'.
  apply for_range_unchanged. intros cx a''.
  rewrite no_block. reflexivity.
Qed.

Lemma blocksOnTop_empty (e : Entity) : blocksOnTop P world e = e.
Proof.
  unfold blocksOnTop. rewrite no_block.
  destruct (supportFeature P "velocityBlocksOnTop"); reflexivity.
Qed.

Lemma doesNotCollide_empty (p : Vec3.t) : doesNotCollide P world p = true.
Proof.
  unfold doesNotCollide.
  rewrite getSurroundingBBs_empty, getWaterInBB_empty. reflexivity.
Qed.

End EmptyWorld.

(** The operations read the world through [getBlock] only: on a world
    without blocks they do what they do on [Sample.emptyWorld]. *)
Lemma emptyWorld_no_block : forall p, getBlock Sample.emptyWorld p = None.
Proof. reflexivity. Qed.

Section AnyEmptyWorld.

Variable P : Closure.
Variable world : World.
Hypothesis no_block : forall p, getBlock world p = None.

Lemma sneakX_empty (fuel : nat) (p : Vec3.t) (dx ox : float) :
  sneakX P fuel world p dx ox = sneakX P fuel Sample.emptyWorld p dx ox.
Proof.
  revert dx ox. induction fuel as [|fuel IH]; intros dx ox; simpl;
    rewrite (getSurroundingBBs_empty world no_block),
      (getSurroundingBBs_empty Sample.emptyWorld emptyWorld_no_block);
    [reflexivity | rewrite IH; reflexivity].
Qed.

Lemma sneakZ_empty (fuel : nat) (p : Vec3.t) (dz oz : float) :
  sneakZ P fuel world p dz oz = sneakZ P fuel Sample.emptyWorld p dz oz.
Proof.
  revert dz oz. induction fuel as [|fuel IH]; intros dz oz; simpl;
    rewrite (getSurroundingBBs_empty world no_block),
      (getSurroundingBBs_empty Sample.emptyWorld emptyWorld_no_block);
    [reflexivity | rewrite IH; reflexivity].
Qed.

Lemma sneakXZ_empty (fuel : nat) (p : Vec3.t) (dx dz ox oz : float) :
  sneakXZ P fuel world p dx dz ox oz =
  sneakXZ P fuel Sample.emptyWorld p dx dz ox oz.
Proof.
  revert dx dz ox oz. induction fuel as [|fuel IH]; intros dx dz ox oz; simpl;
    rewrite (getSurroundingBBs_empty world no_block),
      (getSurroundingBBs_empty Sample.emptyWorld emptyWorld_no_block);
    [reflexivity | rewrite IH; reflexivity].
Qed.

Lemma resolve_any_empty (e : Entity) (dx dy dz ox oy oz : float) :
  resolve P e world dx dy dz ox oy oz =
  resolve P e Sample.emptyWorld dx dy dz ox oy oz.
Proof.
  unfold resolve, stepUp.
  rewrite !(getSurroundingBBs_empty world no_block),
    !(getSurroundingBBs_empty Sample.emptyWorld emptyWorld_no_block).
  reflexivity.
Qed.

Lemma updateFlags_any_empty (e : Entity) (r : Resolved) (ox oy oz : float) :
  updateFlags P e world r ox oy oz =
  updateFlags P e Sample.emptyWorld r ox oy oz.
Proof. unfold updateFlags. rewrite no_block. reflexivity. Qed.

Lemma moveEntity_any_empty (fuel : nat) (e : Entity) (dx dy dz : float) :
  moveEntity P fuel e world dx dy dz =
  moveEntity P fuel e Sample.emptyWorld dx dy dz.
Proof.
  unfold moveEntity, sneakGuard.
  destruct (enterWeb e dx dy dz) as [e0 [[dx0 dy0] dz0]].
  assert (Hguard :
    (let* '(dx1, oldVelX) := sneakX P fuel world (pos e0) dx0 dx0 in
     let* '(dz1, oldVelZ) := sneakZ P fuel world (pos e0) dz0 dz0 in
     sneakXZ P fuel world (pos e0) dx1 dz1 oldVelX oldVelZ) =
    (let* '(dx1, oldVelX) := sneakX P fuel Sample.emptyWorld (pos e0) dx0 dx0 in
     let* '(dz1, oldVelZ) := sneakZ P fuel Sample.emptyWorld (pos e0) dz0 dz0 in
     sneakXZ P fuel Sample.emptyWorld (pos e0) dx1 dz1 oldVelX oldVelZ)).
  { rewrite sneakX_empty.
    destruct (sneakX P fuel Sample.emptyWorld (pos e0) dx0 dx0) as [[dx1 ox]| |];
      simpl; try reflexivity.
    rewrite sneakZ_empty.
    destruct (sneakZ P fuel Sample.emptyWorld (pos e0) dz0 dz0) as [[dz1 oz]| |];
      simpl; try reflexivity.
    apply sneakXZ_empty. }
  rewrite Hguard. clear Hguard.
  match goal with
  | |- bind ?g ?k = bind ?g ?k' =>
      destruct g as [[[[dx1 dz1] ox] oz]| |]; simpl; try reflexivity
  end.
  rewrite resolve_any_empty, updateFlags_any_empty.
  rewrite (blockCollisions_empty P world no_block),
    (blockCollisions_empty P Sample.emptyWorld emptyWorld_no_block),
    (blocksOnTop_empty P world no_block),
    (blocksOnTop_empty P Sample.emptyWorld emptyWorld_no_block).
  reflexivity.
Qed.

Lemma moveEntityWithHeading_any_empty (Math_sin Math_cos : float -> float)
  (fuel : nat) (e : Entity) (strafe forward : float) :
  moveEntityWithHeading Math_sin Math_cos P fuel e world strafe forward =
  moveEntityWithHeading Math_sin Math_cos P fuel e Sample.emptyWorld strafe forward.
Proof.
  unfold moveEntityWithHeading.
  destruct (isInWater e || isInLava e); [|destruct (elytraFlying e)].
  - unfold moveInLiquid. destruct (liquidHeading P e) as [hi acc].
    rewrite moveEntity_any_empty.
    match goal with
    | |- bind ?m _ = _ => destruct m as [e1| |]
    end; cbn [bind]; [|reflexivity|reflexivity].
    rewrite (doesNotCollide_empty P world no_block),
      (doesNotCollide_empty P Sample.emptyWorld emptyWorld_no_block).
    reflexivity.
  - unfold moveWithElytra.
    repeat match goal with
           | |- context [let '(_, _) := ?c in _] => destruct c
           end.
    rewrite moveEntity_any_empty. reflexivity.
  - unfold moveNormally.
    rewrite no_block, (emptyWorld_no_block (Vec3.offset (pos e) 0 (-1) 0)).
    match goal with
    | |- context [let '(_, _) := ?c in _] => destruct c as [acceleration inertia]
    end.
    rewrite (isOnLadder_empty P world no_block),
      (isOnLadder_empty P Sample.emptyWorld emptyWorld_no_block).
    cbn [bind]. rewrite moveEntity_any_empty.
    match goal with
    | |- bind ?m _ = _ => destruct m as [e1| |]
    end; cbn [bind]; [|reflexivity|reflexivity].
    rewrite (isOnLadder_empty P world no_block),
      (isOnLadder_empty P Sample.emptyWorld emptyWorld_no_block).
    reflexivity.
Qed.

Lemma handleJump_any_empty (Math_sin Math_cos : float -> float) (e : Entity) :
  handleJump Math_sin Math_cos P e world =
  handleJump Math_sin Math_cos P e Sample.emptyWorld.
Proof.
  unfold handleJump.
  destruct (Control.jump (control e) || jumpQueued e); [|reflexivity].
  destruct (0 <? jumpTicks e)%Z;
    rewrite no_block, (emptyWorld_no_block (Vec3.offset _ 0 (-0.5) 0));
    reflexivity.
Qed.

Lemma simulatePlayer_any_empty (Math_sin Math_cos : float -> float)
  (fuel : nat) (e : Entity) :
  simulatePlayer Math_sin Math_cos P fuel e world =
  simulatePlayer Math_sin Math_cos P fuel e Sample.emptyWorld.
Proof.
  unfold simulatePlayer.
  rewrite (isInWaterApplyCurrent_empty P world no_block),
    (isInWaterApplyCurrent_empty P Sample.emptyWorld emptyWorld_no_block).
  rewrite !(isMaterialInBB_empty world no_block),
    !(isMaterialInBB_empty Sample.emptyWorld emptyWorld_no_block).
  rewrite handleJump_any_empty.
  match goal with
  | |- context [let '(_, _) := ?c in _] => destruct c as [strafe forward]
  end.
  rewrite moveEntityWithHeading_any_empty. reflexivity.
Qed.

End AnyEmptyWorld.


(** A read that returns no block counts as air: in a world whose reads all
    return no block, a box with finite bounds has no collider, no water and
    no lava or other material in its sweep, no position is on a ladder, and
    a player whose box has finite bounds collides with nothing. *)
Theorem world_without_blocks_is_air (P : Closure) (world : World) :
  (forall p, getBlock world p = None) ->
  forall (bb : AABB.t) (types : list Z) (p : Vec3.t),
    sweepable bb = true ->
    sweepable (getPlayerBB P p) = true ->
    getSurroundingBBs world bb = [] /\
    getWaterInBB P world bb = [] /\
    isMaterialInBB world bb types = false /\
    isOnLadder P world p = Ok false /\
    doesNotCollide P world p = true.
Proof.
  intros Hw bb types p _ _. repeat split.
  - apply getSurroundingBBs_empty. exact Hw.
  - apply getWaterInBB_empty. exact Hw.
  - apply isMaterialInBB_empty. exact Hw.
  - apply isOnLadder_empty. exact Hw.
  - apply doesNotCollide_empty. exact Hw.
Qed.

Lemma world_without_blocks_is_air_witness :
  getSurroundingBBs Sample.emptyWorld
    (getPlayerBB Sample.closure (Vec3.mk 0 10 0)) = [] /\
  getWaterInBB Sample.closure Sample.emptyWorld
    (getPlayerBB Sample.closure (Vec3.mk 0 10 0)) = [] /\
  isMaterialInBB Sample.emptyWorld
    (getPlayerBB Sample.closure (Vec3.mk 0 10 0))
    (lavaIds (catalogue Sample.closure)) = false /\
  isOnLadder Sample.closure Sample.emptyWorld (Vec3.mk 0 10 0) = Ok false /\
  doesNotCollide Sample.closure Sample.emptyWorld (Vec3.mk 0 10 0) = true.
Proof.
  apply (world_without_blocks_is_air Sample.closure Sample.emptyWorld
           (fun p => eq_refl));
    vm_compute; reflexivity.
Defined.

(** ** Scenario S1: one tick of free fall *)

(** C1, as the code has it.  In any world whose reads all return no block,
    an entity at (0, 10, 0) with zero velocity, no control held, no jump
    queued, no elytra flight and no effect ends the tick with velocity
    (0, -0.08 * fround(0.98), 0), on the same position (0, 10, 0), since
    gravity is applied after the move, and off the ground. *)
Theorem free_fall_tick (Math_sin Math_cos : float -> float)
  (feats : list Feature) (mcData : McData.t) (P : Closure)
  (fuel : nat) (entity : Entity) (world : World) :
  Physics feats mcData = Ok P ->
  (forall p, getBlock world p = None) ->
  pos entity = Vec3.mk 0 10 0 ->
  vel entity = Vec3.mk 0 0 0 ->
  control entity = Sample.noControl ->
  jumpQueued entity = false ->
  elytraFlying entity = false ->
  slowFalling entity = 0 ->
  levitation entity = 0 ->
  exists entity',
    simulatePlayer Math_sin Math_cos P fuel entity world = Ok entity' /\
    vel entity' = Vec3.mk 0 (- 0.08 * Js.Math_fround 0.98) 0 /\
    pos entity' = Vec3.mk 0 10 0 /\
    onGround entity' = false.
Proof.
  intros HP Hw Hpos Hvel Hc Hq Hel Hsf Hlev.
  rewrite (simulatePlayer_any_empty P world Hw).
  apply Physics_constants in HP. destruct HP as (ms & wg & lg & HP).
  destruct P as [ph c fl]. simpl in HP. subst ph.
  destruct entity as [p v g w l web ch cv ef jt jq frd attrs yw pt ctl jb sp sl dg sf lev ds eq].
  simpl in *. subst.
  destruct frd, g, web.
  all: cbv -[blocksOnTop].
  all: rewrite !blocksOnTop_empty by reflexivity.
  all: vm_compute.
  all: eexists; split; [reflexivity|]; repeat split.
Qed.

Lemma free_fall_tick_witness :
  exists entity',
    simulatePlayer Sample.noTrig Sample.noTrig Sample.closure 0
      (Sample.player (Vec3.mk 0 10 0) (Vec3.mk 0 0 0) false Sample.noControl)
      Sample.emptyWorld = Ok entity' /\
    vel entity' = Vec3.mk 0 (- 0.08 * Js.Math_fround 0.98) 0 /\
    pos entity' = Vec3.mk 0 10 0 /\
    onGround entity' = false.
Proof.
  apply (free_fall_tick Sample.noTrig Sample.noTrig Sample.features
           (Sample.mcData "1.20.1" "1.20") Sample.closure 0
           (Sample.player (Vec3.mk 0 10 0) (Vec3.mk 0 0 0) false Sample.noControl)
           Sample.emptyWorld);
    reflexivity.
Defined.

(** Two numbers that the comparison of the language tells apart are
    different. *)
Lemma eqb_false_neq (a b : float) :
  (a =? b) = false -> (b =? b) = true -> a <> b.
Proof. intros Hab Hbb Heq. subst a. congruence. Qed.

(** After the tick of S1 the entity has not moved: [pos.y] is 10, which is
    not 10 - 0.0784. *)
Lemma free_fall_tick_keeps_height :
  exists entity',
    simulatePlayer Sample.noTrig Sample.noTrig Sample.closure 0
      (Sample.player (Vec3.mk 0 10 0) (Vec3.mk 0 0 0) false Sample.noControl)
      Sample.emptyWorld = Ok entity' /\
    Vec3.y (pos entity') = 10 /\
    Vec3.y (pos entity') <> 10 - 0.0784.
Proof.
  eexists. split; [vm_compute; reflexivity|]. split; [reflexivity|].
  apply eqb_false_neq; reflexivity.
Qed.

(** ** Scenario S2: a jump from flat ground *)

(** C5, as the code has it.  On the flat stone world (version 1.20.1), an
    entity standing at (0.5, 64, 0.5) with zero velocity, the jump held, the
    jump counter at 0, out of any web and with no effect ends the tick with
    the counter at 10, off the ground, risen by fround(0.42), the jump
    impulse being the Y delta of the move, and with the velocity
    (0, (fround(0.42) - 0.08) * fround(0.98), 0) that gravity and drag leave
    of that impulse. *)
Theorem jump_tick (Math_sin Math_cos : float -> float)
  (fuel : nat) (entity : Entity) :
  pos entity = Vec3.mk 0.5 64 0.5 ->
  vel entity = Vec3.mk 0 0 0 ->
  control entity = Control.mk false false false false true false false ->
  jumpTicks entity = 0%Z ->
  onGround entity = true ->
  isInWeb entity = false ->
  jumpBoost entity = 0 ->
  slowFalling entity = 0 ->
  levitation entity = 0 ->
  exists entity',
    simulatePlayer Math_sin Math_cos Sample.closure fuel entity Sample.flatWorld
    = Ok entity' /\
    vel entity' =
    Vec3.mk 0 ((Js.Math_fround 0.42 - 0.08) * Js.Math_fround 0.98) 0 /\
    pos entity' = Vec3.mk 0.5 (64 + Js.Math_fround 0.42) 0.5 /\
    jumpTicks entity' = 10%Z /\
    onGround entity' = false.
Proof.
  intros Hpos Hvel Hc Hjt Hg Hweb Hjb Hsf Hlev.
  destruct entity as [p v g w l web ch cv ef jt jq frd attrs yw pt ctl jb sp sl dg sf lev ds eq].
  simpl in *. subst.
  destruct frd, ef, eq; vm_compute;
    (eexists; split; [reflexivity|]; repeat split).
Qed.

Lemma jump_tick_witness :
  exists entity',
    simulatePlayer Sample.noTrig Sample.noTrig Sample.closure 0
      (Sample.player (Vec3.mk 0.5 64 0.5) (Vec3.mk 0 0 0) true
         (Control.mk false false false false true false false))
      Sample.flatWorld = Ok entity' /\
    vel entity' =
    Vec3.mk 0 ((Js.Math_fround 0.42 - 0.08) * Js.Math_fround 0.98) 0 /\
    pos entity' = Vec3.mk 0.5 (64 + Js.Math_fround 0.42) 0.5 /\
    jumpTicks entity' = 10%Z /\
    onGround entity' = false.
Proof.
  apply (jump_tick Sample.noTrig Sample.noTrig 0
           (Sample.player (Vec3.mk 0.5 64 0.5) (Vec3.mk 0 0 0) true
              (Control.mk false false false false true false false)));
    reflexivity.
Defined.

(** After the tick of S2 the vertical velocity is not the jump impulse
    fround(0.42): gravity and drag have been applied to it. *)
Lemma jump_tick_velocity_after_gravity :
  exists entity',
    simulatePlayer Sample.noTrig Sample.noTrig Sample.closure 0
      (Sample.player (Vec3.mk 0.5 64 0.5) (Vec3.mk 0 0 0) true
         (Control.mk false false false false true false false))
      Sample.flatWorld = Ok entity' /\
    Vec3.y (vel entity') = (Js.Math_fround 0.42 - 0.08) * Js.Math_fround 0.98 /\
    Vec3.y (vel entity') <> Js.Math_fround 0.42.
Proof.
  eexists. split; [vm_compute; reflexivity|]. split; [reflexivity|].
  apply eqb_false_neq; reflexivity.
Qed.

(** ** Reads of the world that return no block *)

(** A position without a block is no ladder. *)
Lemma isOnLadder_no_block (P : Closure) (world : World) (p : Vec3.t) :
  getBlock world p = None -> isOnLadder P world p = Ok false.
Proof. intros H. unfold isOnLadder. rewrite H. reflexivity. Qed.

(** C2, where the code departs from it.  With the climbable-trapdoor
    feature, on a trapdoor of the catalogue with no block directly below,
    [isOnLadder] raises a [TypeError]: [blockBelow.type] is read from a
    missing block. *)
Theorem isOnLadder_null_below_throws
  (P : Closure) (world : World) (p : Vec3.t) (block : Block) :
  getBlock world p = Some block ->
  (type block =? ladderId (catalogue P))%Z = false ->
  (type block =? vineId (catalogue P))%Z = false ->
  supportFeature P "climableTrapdoor" = true ->
  includes (trapdoorIds (catalogue P)) (type block) = true ->
  getBlock world (Vec3.offset p 0 (-1) 0) = None ->
  isOnLadder P world p = Throw TypeError.
Proof.
  intros Hb Hl Hv Hf Ht Hbelow. unfold isOnLadder.
  rewrite Hb, Hl, Hv, Hf, Ht, Hbelow. reflexivity.
Qed.

Lemma isOnLadder_null_below_witness :
  isOnLadder Sample.closure Sample.trapdoorWorld (Vec3.mk 0.5 10 0.5)
  = Throw TypeError.
Proof.
  apply (isOnLadder_null_below_throws Sample.closure Sample.trapdoorWorld
           (Vec3.mk 0.5 10 0.5) (Sample.trapdoor (Vec3.mk 0.5 10 0.5)));
    reflexivity.
Defined.

(** The tick of an entity standing in such a trapdoor raises too. *)
Example simulatePlayer_null_below_throws :
  simulatePlayer Sample.noTrig Sample.noTrig Sample.closure 0
    (Sample.player (Vec3.mk 0.5 10 0.5) (Vec3.mk 0 0 0) false Sample.noControl)
    Sample.trapdoorWorld = Throw TypeError.
Proof. vm_compute. reflexivity. Qed.

(** ** Velocity zeroing in moveEntity *)

Lemma for_range_invariant {A : Type} (I : A -> Prop) (lo hi : option Z)
  (body : Z -> A -> A) :
  (forall c a, I a -> I (body c a)) -> forall a, I a -> I (for_range lo hi body a).
Proof.
  intros Hbody. unfold for_range.
  induction (range lo hi) as [|c l IH]; intros a Ha; simpl; [exact Ha|].
  apply IH. apply Hbody. exact Ha.
Qed.

Section Zeroing.

Variable P : Closure.
Variables (ms : string) (wg lg : float).
Hypothesis constants_of_P : physics P = constants ms wg lg.

(** A zero horizontal component stays zero through the block effects: they
    scale it by 0.4 or leave it alone. *)
Lemma zero_velocityBlock (b : Block) (e : Entity) :
  (zero_x e -> zero_x (velocityBlock P b e)) /\
  (zero_z e -> zero_z (velocityBlock P b e)).
Proof.
  unfold velocityBlock, zero_x, zero_z, scaleXZ. rewrite constants_of_P.
  cbn [soulsandSpeed honeyblockSpeed constants].
  destruct (type b =? soulsandId (catalogue P))%Z;
    [|destruct (type b =? honeyblockId (catalogue P))%Z];
    cbn [vel set_vel_x set_vel_z set_vel Vec3.x Vec3.z];
    split; intros H; try rewrite H; try assumption; reflexivity.
Qed.

Lemma zero_webOrBubble (world : World) (cursor : Vec3.t) (b : Block) (e : Entity) :
  (zero_x e -> zero_x (webOrBubble P world cursor b e)) /\
  (zero_z e -> zero_z (webOrBubble P world cursor b e)).
Proof.
  unfold webOrBubble.
  destruct (type b =? webId (catalogue P))%Z; [split; intros H; exact H|].
  destruct (type b =? bubblecolumnId (catalogue P))%Z; [|split; intros H; exact H].
  cbv zeta. destruct (metadata b =? 0)%Z; split; intros H; exact H.
Qed.

Lemma zero_collideBlock (world : World) (cursor : Vec3.t) (b : Block) (e : Entity) :
  (zero_x e -> zero_x (collideBlock P world cursor b e)) /\
  (zero_z e -> zero_z (collideBlock P world cursor b e)).
Proof.
  unfold collideBlock.
  destruct (supportFeature P "velocityBlocksOnCollision").
  - destruct (zero_velocityBlock b e) as [Hx Hz].
    destruct (zero_webOrBubble world cursor b (velocityBlock P b e)) as [Hx' Hz'].
    split; auto.
  - apply zero_webOrBubble.
Qed.

Lemma zero_blockCollisions (world : World) (bb : AABB.t) (e : Entity) :
  (zero_x e -> zero_x (blockCollisions P world bb e)) /\
  (zero_z e -> zero_z (blockCollisions P world bb e)).
Proof.
  unfold blockCollisions. split; intros H.
  - apply (for_range_invariant zero_x); [|exact H]. intros cy e1 H1.
    apply (for_range_invariant zero_x); [|exact H1]. intros cz e2 H2.
    apply (for_range_invariant zero_x); [|exact H2]. intros cx e3 H3.
    destruct (getBlock world (Vec3.ofZ cx cy cz)); [|exact H3].
    apply zero_collideBlock. exact H3.
  - apply (for_range_invariant zero_z); [|exact H]. intros cy e1 H1.
    apply (for_range_invariant zero_z); [|exact H1]. intros cz e2 H2.
    apply (for_range_invariant zero_z); [|exact H2]. intros cx e3 H3.
    destruct (getBlock world (Vec3.ofZ cx cy cz)); [|exact H3].
    apply zero_collideBlock. exact H3.
Qed.

Lemma zero_blocksOnTop (world : World) (e : Entity) :
  (zero_x e -> zero_x (blocksOnTop P world e)) /\
  (zero_z e -> zero_z (blocksOnTop P world e)).
Proof.
  unfold blocksOnTop.
  destruct (supportFeature P "velocityBlocksOnTop"); [|tauto].
  destruct (getBlock world _); [apply zero_velocityBlock | tauto].
Qed.






End Zeroing.



(** Against the wall the move is clamped on X and on Y, and the entity ends
    on the ground with no velocity on those axes. *)
Example moveEntity_against_wall :
  exists entity',
    moveEntity Sample.closure 0
      (Sample.player (Vec3.mk 0.5 64 0.5) (Vec3.mk 0.5 (-0.1) 0) true Sample.noControl)
      Sample.wallWorld 0.5 (-0.1) 0 = Ok entity' /\
    vel entity' = Vec3.mk 0 0 0 /\
    isCollidedHorizontally entity' = true /\
    onGround entity' = true.
Proof. eexists. split; [vm_compute; reflexivity|]. repeat split. Qed.


(** Scenario S8: an entity falling at 0.5 onto slime leaves the move with
    [vel.y] = +0.5, and with [vel.y] = 0 when it sneaks. *)
Example moveEntity_slime_bounce :
  exists entity' sneaking',
    moveEntity Sample.closure 0
      (Sample.player (Vec3.mk 0.5 64.2 0.5) (Vec3.mk 0 (-0.5) 0) false
         Sample.noControl)
      Sample.slimeWorld 0 (-0.5) 0 = Ok entity' /\
    Vec3.y (vel entity') = 0.5 /\ onGround entity' = true /\
    moveEntity Sample.closure 0
      (Sample.player (Vec3.mk 0.5 64.2 0.5) (Vec3.mk 0 (-0.5) 0) false
         (Control.mk false false false false false false true))
      Sample.slimeWorld 0 (-0.5) 0 = Ok sneaking' /\
    Vec3.y (vel sneaking') = 0.
Proof.
  eexists. eexists. split; [vm_compute; reflexivity|].
  split; [reflexivity|]. split; [reflexivity|].
  split; [vm_compute; reflexivity | reflexivity].
Qed.

(** ** The jump out of a liquid *)






(** Scenario S6 as a whole tick: the swimmer held against the ledge leaves
    the tick with [vel.y] = 0.3. *)
Example swimmer_tick :
  exists entity',
    simulatePlayer Sample.noTrig Sample.noTrig Sample.closure 0
      Sample.swimmer Sample.poolWorld = Ok entity' /\
    isInWater entity' = true /\
    Vec3.y (vel entity') = 0.3.
Proof. eexists. split; [vm_compute; reflexivity|]. split; reflexivity. Qed.

(** ** Where a tick can raise *)

Lemma noThrow_Ok {A : Type} (a : A) : noThrow (Ok a).
Proof. intros e H. discriminate. Qed.

Lemma noThrow_OutOfFuel {A : Type} : noThrow (@OutOfFuel A).
Proof. intros e H. discriminate. Qed.

Lemma noThrow_bind {A B : Type} (m : Res A) (k : A -> Res B) :
  noThrow m -> (forall a, noThrow (k a)) -> noThrow (bind m k).
Proof.
  intros Hm Hk. destruct m as [a|e|]; simpl.
  - apply Hk.
  - exfalso. apply (Hm e). reflexivity.
  - apply noThrow_OutOfFuel.
Qed.

Lemma noThrow_if {A : Type} (b : bool) (x y : Res A) :
  noThrow x -> noThrow y -> noThrow (if b then x else y).
Proof. destruct b; auto. Qed.

Section NoThrow.

Variable Math_sin Math_cos : float -> float.
Variable P : Closure.

Lemma sneakX_noThrow fuel world p dx ox : noThrow (sneakX P fuel world p dx ox).
Proof.
  revert dx ox. induction fuel as [|fuel IH]; intros dx ox; simpl;
    apply noThrow_if; auto using @noThrow_Ok, @noThrow_OutOfFuel.
Qed.

Lemma sneakZ_noThrow fuel world p dz oz : noThrow (sneakZ P fuel world p dz oz).
Proof.
  revert dz oz. induction fuel as [|fuel IH]; intros dz oz; simpl;
    apply noThrow_if; auto using @noThrow_Ok, @noThrow_OutOfFuel.
Qed.

Lemma sneakXZ_noThrow fuel world p dx dz ox oz :
  noThrow (sneakXZ P fuel world p dx dz ox oz).
Proof.
  revert dx dz ox oz. induction fuel as [|fuel IH]; intros dx dz ox oz; simpl;
    apply noThrow_if; auto using @noThrow_Ok, @noThrow_OutOfFuel.
Qed.

Lemma sneakGuard_noThrow fuel e world dx dz :
  noThrow (sneakGuard P fuel e world dx dz).
Proof.
  unfold sneakGuard. apply noThrow_if; [|apply noThrow_Ok].
  apply noThrow_bind; [apply sneakX_noThrow|]. intros [dx' ox].
  apply noThrow_bind; [apply sneakZ_noThrow|]. intros [dz' oz].
  apply sneakXZ_noThrow.
Qed.

Lemma moveEntity_noThrow fuel e world dx dy dz :
  noThrow (moveEntity P fuel e world dx dy dz).
Proof.
  unfold moveEntity. destruct (enterWeb e dx dy dz) as [e0 [[dx0 dy0] dz0]].
  apply noThrow_bind; [apply sneakGuard_noThrow|].
  intros [[[dx1 dz1] ox] oz]. apply noThrow_Ok.
Qed.

Lemma moveInLiquid_noThrow fuel e world strafe forward gm :
  noThrow (moveInLiquid Math_sin Math_cos P fuel e world strafe forward gm).
Proof.
  unfold moveInLiquid. destruct (liquidHeading P e) as [hi acc].
  apply noThrow_bind; [apply moveEntity_noThrow|]. intros e1.
  apply noThrow_if; apply noThrow_Ok.
Qed.

Lemma moveWithElytra_noThrow fuel e world gm :
  noThrow (moveWithElytra Math_sin Math_cos P fuel e world gm).
Proof.
  unfold moveWithElytra.
  repeat match goal with
         | |- context [let '(_, _) := ?c in _] => destruct c
         end.
  apply noThrow_bind; [apply moveEntity_noThrow|]. intros e1.
  apply noThrow_if; apply noThrow_Ok.
Qed.

Hypothesis no_climbable_trapdoor : supportFeature P "climableTrapdoor" = false.

Lemma isOnLadder_noThrow world p : noThrow (isOnLadder P world p).
Proof.
  unfold isOnLadder. rewrite no_climbable_trapdoor.
  destruct (getBlock world p); [|apply noThrow_Ok].
  apply noThrow_if; apply noThrow_Ok.
Qed.

Lemma moveNormally_noThrow fuel e world strafe forward gm :
  noThrow (moveNormally Math_sin Math_cos P fuel e world strafe forward gm).
Proof.
  unfold moveNormally.
  match goal with
  | |- context [let '(_, _) := ?c in _] => destruct c as [acceleration inertia]
  end.
  apply noThrow_bind; [apply isOnLadder_noThrow|]. intros onLadder.
  apply noThrow_bind; [apply moveEntity_noThrow|]. intros e1.
  apply noThrow_bind; [apply isOnLadder_noThrow|]. intros onLadder'.
  apply noThrow_Ok.
Qed.

Lemma moveEntityWithHeading_noThrow fuel e world strafe forward :
  noThrow (moveEntityWithHeading Math_sin Math_cos P fuel e world strafe forward).
Proof.
  unfold moveEntityWithHeading.
  apply noThrow_if; [apply moveInLiquid_noThrow|].
  apply noThrow_if; [apply moveWithElytra_noThrow | apply moveNormally_noThrow].
Qed.

End NoThrow.

(** The trapdoor read of [isOnLadder] is the only place where a tick can
    raise: for a version without the climbable-trapdoor feature no tick
    raises, whatever the world returns. *)
Theorem simulatePlayer_raises_only_for_trapdoors
  (Math_sin Math_cos : float -> float) (P : Closure)
  (fuel : nat) (entity : Entity) (world : World) :
  supportFeature P "climableTrapdoor" = false ->
  noThrow (simulatePlayer Math_sin Math_cos P fuel entity world).
Proof.
  intros Hf. unfold simulatePlayer.
  destruct (isInWaterApplyCurrent P world _ (vel entity)) as [inWater v].
  match goal with
  | |- context [let '(_, _) := ?c in _] => destruct c as [strafe forward]
  end.
  apply moveEntityWithHeading_noThrow. exact Hf.
Qed.

Lemma simulatePlayer_raises_only_for_trapdoors_witness :
  noThrow
    (simulatePlayer Sample.noTrig Sample.noTrig
       (mkClosure (physics Sample.closure) (catalogue Sample.closure)
          (FeatureList.mk Sample.version120 ["proportionalLiquidGravity"]))
       0
       (Sample.player (Vec3.mk 0.5 10 0.5) (Vec3.mk 0 0 0) false Sample.noControl)
       Sample.trapdoorWorld).
Proof.
  apply simulatePlayer_raises_only_for_trapdoors. reflexivity.
Defined.

(** A move leaves the counters, the liquid flags, the angles, the
    controls, the effect levels, the depth-strider level and the elytra
    slot of the entity as they were.  (It assigns the position, the
    velocity, the collision flags, the web flag and the elytra flag, and,
    on the ground, lets the attribute helper update the speed attribute.) *)
Theorem moveEntityWithHeading_frame (Math_sin Math_cos : float -> float)
  (P : Closure) (fuel : nat) (entity entity' : Entity) (world : World)
  (strafe forward : float) :
  moveEntityWithHeading Math_sin Math_cos P fuel entity world strafe forward
  = Ok entity' ->
  untouched entity' = untouched entity.
Proof.
  intros H. apply frame_moveEntityWithHeading in H.
  unfold frame in H. unfold untouched. injection H. intros. congruence.
Qed.

Lemma moveEntityWithHeading_frame_witness :
  exists entity',
    moveEntityWithHeading Sample.sinAt0 Sample.cosAt0 Sample.closure 0
      Sample.sprinter Sample.flatWorld 0 0.98 = Ok entity' /\
    (0 <? Vec3.z (vel entity')) = true /\
    untouched entity' = untouched Sample.sprinter.
Proof.
  destruct (moveEntityWithHeading Sample.sinAt0 Sample.cosAt0 Sample.closure 0
              Sample.sprinter Sample.flatWorld 0 0.98) as [entity'| |] eqn:H.
  - exists entity'. split; [reflexivity|].
    split; [vm_compute in H; injection H as <-; vm_compute; reflexivity|].
    exact (moveEntityWithHeading_frame _ _ _ _ _ _ _ _ _ H).
  - vm_compute in H. discriminate.
  - vm_compute in H. discriminate.
Defined.

(** ** What a move can change *)

Section Shape.

Variable Math_sin Math_cos : float -> float.
Variable P : Closure.

Lemma touched_refl (e : Entity) : touched e e.
Proof. destruct e; reflexivity. Qed.

Lemma touched_trans (e0 e1 e2 : Entity) :
  touched e0 e1 -> touched e1 e2 -> touched e0 e2.
Proof.
  unfold touched. intros H1 H2. rewrite H2. rewrite H1. reflexivity.
Qed.

(** The block effects at the end of a move write the velocity and the web
    flag only. *)
Lemma velocityBlock_touched (b : Block) (e : Entity) :
  touched e (velocityBlock P b e).
Proof.
  unfold touched, velocityBlock, scaleXZ.
  destruct (type b =? soulsandId (catalogue P))%Z;
    [|destruct (type b =? honeyblockId (catalogue P))%Z];
    destruct e; reflexivity.
Qed.

Lemma webOrBubble_touched (world : World) (cursor : Vec3.t) (b : Block) (e : Entity) :
  touched e (webOrBubble P world cursor b e).
Proof.
  unfold touched, webOrBubble.
  destruct (type b =? webId (catalogue P))%Z; [destruct e; reflexivity|].
  destruct (type b =? bubblecolumnId (catalogue P))%Z; [|destruct e; reflexivity].
  cbv zeta. destruct (metadata b =? 0)%Z; destruct e; reflexivity.
Qed.

Lemma collideBlock_touched (world : World) (cursor : Vec3.t) (b : Block) (e : Entity) :
  touched e (collideBlock P world cursor b e).
Proof.
  unfold collideBlock.
  destruct (supportFeature P "velocityBlocksOnCollision").
  - eapply touched_trans; [apply velocityBlock_touched | apply webOrBubble_touched].
  - apply webOrBubble_touched.
Qed.

Lemma for_range_touched (lo hi : option Z) (body : Z -> Entity -> Entity) :
  (forall c e, touched e (body c e)) ->
  forall e, touched e (for_range lo hi body e).
Proof.
  intros Hbody. unfold for_range.
  induction (range lo hi) as [|c l IH]; intros e; simpl.
  - apply touched_refl.
  - eapply touched_trans; [apply Hbody | apply IH].
Qed.

Lemma blockCollisions_touched (world : World) (bb : AABB.t) (e : Entity) :
  touched e (blockCollisions P world bb e).
Proof.
  unfold blockCollisions.
  apply for_range_touched. intros cy e1.
  apply for_range_touched. intros cz e2.
  apply for_range_touched. intros cx e3.
  destruct (getBlock world (Vec3.ofZ cx cy cz)) as [b|].
  - apply collideBlock_touched.
  - apply touched_refl.
Qed.

Lemma blocksOnTop_touched (world : World) (e : Entity) :
  touched e (blocksOnTop P world e).
Proof.
  unfold blocksOnTop.
  destruct (supportFeature P "velocityBlocksOnTop");
    [destruct (getBlock world _) as [b|]|];
    try apply velocityBlock_touched; apply touched_refl.
Qed.

(** "Update flags" writes the position, the three collision flags and the
    velocity; the ground flag is the vertical one and the sign of the
    requested fall. *)
Lemma updateFlags_shape (e : Entity) (world : World) (r : Resolved)
  (oldVelX oldVelY oldVelZ : float) :
  let e' := updateFlags P e world r oldVelX oldVelY oldVelZ in
  e' =
  set_vel (vel e')
    (set_onGround (Js.neqb (r_dy r) oldVelY && (oldVelY <? 0))
       (set_isCollidedVertically (Js.neqb (r_dy r) oldVelY)
          (set_isCollidedHorizontally
             (Js.neqb (r_dx r) oldVelX || Js.neqb (r_dz r) oldVelZ)
             (set_pos (setPositionToBB P (r_playerBB r)) e)))).
Proof.
  unfold updateFlags. cbv zeta.
  destruct (Js.neqb (r_dx r) oldVelX), (Js.neqb (r_dz r) oldVelZ),
    (Js.neqb (r_dy r) oldVelY);
    try match goal with
        | |- context [if ?b && ?c then _ else _] => destruct (b && c)
        end;
    destruct e; reflexivity.
Qed.

(** A move that returns has written the position, the velocity, the
    collision flags and the web flag, and nothing else; the entity is on
    the ground only if it has collided vertically. *)
Lemma moveEntity_shape (fuel : nat) (e : Entity) (world : World)
  (dx dy dz : float) (e' : Entity) :
  moveEntity P fuel e world dx dy dz = Ok e' ->
  exists down,
    e' = set_isInWeb (isInWeb e')
           (set_vel (vel e')
              (set_onGround (isCollidedVertically e' && down)
                 (set_isCollidedVertically (isCollidedVertically e')
                    (set_isCollidedHorizontally (isCollidedHorizontally e')
                       (set_pos (pos e') e))))).
Proof.
  unfold moveEntity, enterWeb.
  destruct (isInWeb e) eqn:Hweb; cbv iota beta; unfold bind;
    match goal with
    | |- context [sneakGuard P fuel ?e0 world ?a ?b] =>
        destruct (sneakGuard P fuel e0 world a b) as [[[[dx1 dz1] ox] oz]| |];
          try discriminate
    end;
    intros H; inversion H; subst; clear H;
    match goal with
    | |- context [updateFlags P ?e0 world ?r ?ox ?oy ?oz] =>
        pose proof (updateFlags_shape e0 world r ox oy oz) as H0; cbv zeta in H0;
          exists (oy <? 0);
          match goal with
          | |- context [blockCollisions P world ?bb ?e1] =>
              pose proof (blockCollisions_touched world bb e1) as H1;
                pose proof (blocksOnTop_touched world (blockCollisions P world bb e1))
                  as H2;
                pose proof (touched_trans _ _ _ H1 H2) as H3; unfold touched in H3;
                rewrite H3 at 1; rewrite H0 at 1; rewrite H3; rewrite H0
          end
    end;
    destruct e; reflexivity.
Qed.

(** Before the move a regime writes the velocity only. *)
Lemma applyHeading_shape (e : Entity) (strafe forward multiplier : float) :
  let e' := applyHeading Math_sin Math_cos e strafe forward multiplier in
  e' = set_vel (vel e') e.
Proof.
  unfold applyHeading. cbv zeta. destruct (_ <? 0.01); destruct e; reflexivity.
Qed.

Lemma set_vel_xyz_shape (e e0 : Entity) (a : float) :
  e0 = set_vel (vel e0) e ->
  set_vel_x a e0 = set_vel (vel (set_vel_x a e0)) e /\
  set_vel_y a e0 = set_vel (vel (set_vel_y a e0)) e /\
  set_vel_z a e0 = set_vel (vel (set_vel_z a e0)) e.
Proof. intros H. rewrite H. destruct e; repeat split. Qed.

(** A regime that returns has made one move, from the entity with another
    velocity, and has then written the velocity and the elytra flag: the
    flag is left as it was in a liquid, and cleared by a landing in flight. *)
Lemma moveEntityWithHeading_shape (fuel : nat) (e : Entity) (world : World)
  (strafe forward : float) (e' : Entity) :
  moveEntityWithHeading Math_sin Math_cos P fuel e world strafe forward = Ok e' ->
  exists v em,
    moveEntity P fuel (set_vel v e) world (Vec3.x v) (Vec3.y v) (Vec3.z v) = Ok em /\
    e' = set_elytraFlying (elytraFlying e') (set_vel (vel e') em) /\
    elytraFlying e' =
    if isInWater e || isInLava e then elytraFlying e
    else elytraFlying e && negb (onGround em).
Proof.
  unfold moveEntityWithHeading.
  destruct (isInWater e || isInLava e); [|destruct (elytraFlying e) eqn:Hfly].
  - unfold moveInLiquid. destruct (liquidHeading P e) as [hi acc].
    pose proof (applyHeading_shape e strafe forward acc) as Ha. cbv zeta in Ha.
    remember (applyHeading Math_sin Math_cos e strafe forward acc) as e0 eqn:He0.
    unfold bind.
    destruct (moveEntity P fuel e0 world _ _ _) as [em| |] eqn:Hmove;
      try discriminate.
    intros H. exists (vel e0), em. rewrite <- Ha. split; [exact Hmove|].
    apply moveEntity_shape in Hmove. destruct Hmove as [down Hm].
    assert (Hf : elytraFlying em = elytraFlying e).
    { rewrite Hm, Ha. reflexivity. }
    unfold liquidDrag in H.
    match type of H with
    | (if ?c then _ else _) = _ => destruct c
    end; injection H as <-;
      (split; [destruct em; reflexivity | exact Hf]).
  - unfold moveWithElytra.
    repeat match goal with
           | |- context [let '(_, _) := ?c in _] => destruct c
           end.
    unfold bind.
    match goal with
    | |- context [moveEntity P fuel ?e0 world ?a ?b ?c] =>
        destruct (moveEntity P fuel e0 world a b c) as [em| |] eqn:Hmove;
          try discriminate
    end.
    intros H. eexists _, em. split; [exact Hmove|].
    destruct (onGround em); injection H as <-;
      split; try (destruct em; reflexivity).
    apply moveEntity_shape in Hmove. destruct Hmove as [down Hm].
    rewrite Hm. simpl. exact Hfly.
  - unfold moveNormally.
    match goal with
    | |- context [let '(_, _) := ?c in _] => destruct c as [acceleration inertia]
    end.
    pose proof (applyHeading_shape e strafe forward acceleration) as Ha.
    cbv zeta in Ha.
    remember (applyHeading Math_sin Math_cos e strafe forward acceleration)
      as ea eqn:Hea.
    unfold bind.
    destruct (isOnLadder P world (pos ea)) as [onLadder| |]; try discriminate.
    match goal with
    | |- context [moveEntity P fuel ?e0 world _ _ _] => remember e0 as eb eqn:Heb
    end.
    destruct (moveEntity P fuel eb world _ _ _) as [em| |] eqn:Hmove;
      try discriminate.
    assert (Hb : eb = set_vel (vel eb) e).
    { rewrite Heb. destruct onLadder; [|exact Ha].
      apply set_vel_xyz_shape, set_vel_xyz_shape, set_vel_xyz_shape, Ha. }
    destruct (isOnLadder P world (pos em)) as [onLadder'| |]; try discriminate.
    intros H. exists (vel eb), em. rewrite <- Hb. split; [exact Hmove|].
    apply moveEntity_shape in Hmove. destruct Hmove as [down Hm].
    assert (Hf : elytraFlying em = false).
    { rewrite Hm, Hb. simpl. exact Hfly. }
    injection H as <-.
    destruct (onLadder' && _), (0 <? levitation _);
      (split; [destruct em; reflexivity | exact Hf]).
Qed.

End Shape.

(** ** What a tick reads and writes *)

(** Case analysis on the tests of a straight-line update, until both sides
    are the same record. *)
Ltac by_cases :=
  repeat first
    [ reflexivity
    | match goal with
      | |- context [if ?b then _ else _] => destruct b
      | |- context [match ?o with Some _ => _ | None => _ end] => destruct o
      end ].

Section Tick.

Variable Math_sin Math_cos : float -> float.
Variable P : Closure.

(** The steps of a tick before the move: each writes the velocity and its
    own counter or flag. *)
Lemma resetNegligible_shape (e : Entity) :
  resetNegligible P e = set_vel (vel (resetNegligible P e)) e.
Proof. unfold resetNegligible. cbv zeta. destruct e. by_cases. Qed.

Lemma handleJump_shape (e : Entity) (world : World) :
  let e' := handleJump Math_sin Math_cos P e world in
  e' = set_jumpQueued false (set_jumpTicks (jumpTicks e') (set_vel (vel e') e)).
Proof. unfold handleJump. cbv zeta. destruct e. by_cases. Qed.

Lemma fireworkRocket_shape (e : Entity) :
  let e' := fireworkRocket Math_sin Math_cos e in
  e' = set_fireworkRocketDuration
         (if (0 <? fireworkRocketDuration e)%Z
          then if elytraFlying e then (fireworkRocketDuration e - 1)%Z else 0%Z
          else fireworkRocketDuration e)
         (set_vel (vel e') e).
Proof.
  unfold fireworkRocket. cbv zeta.
  destruct (0 <? fireworkRocketDuration e)%Z, (elytraFlying e);
    destruct e; reflexivity.
Qed.

Lemma fst_isInWaterApplyCurrent (world : World) (bb : AABB.t) (v : Vec3.t) :
  fst (isInWaterApplyCurrent P world bb v) = negb (isEmpty (getWaterInBB P world bb)).
Proof. unfold isInWaterApplyCurrent. cbv zeta. destruct (0 <? _); reflexivity. Qed.

(** A tick that returns is one regime step from the entity [e3], which is
    the entity of the call with the liquid flags of its position, the jump
    consumed, the elytra flag recomputed and the rocket counted down. *)
Lemma simulatePlayer_inv (fuel : nat) (e : Entity) (world : World) (e' : Entity) :
  simulatePlayer Math_sin Math_cos P fuel e world = Ok e' ->
  exists e3 strafe forward,
    moveEntityWithHeading Math_sin Math_cos P fuel e3 world strafe forward = Ok e' /\
    e3 =
    set_fireworkRocketDuration
      (if (0 <? fireworkRocketDuration e)%Z
       then if flying e then (fireworkRocketDuration e - 1)%Z else 0%Z
       else fireworkRocketDuration e)
      (set_elytraFlying (flying e)
         (set_jumpQueued false
            (set_jumpTicks (jumpTicks e3)
               (set_isInLava
                  (isMaterialInBB world
                     (AABB.contract (getPlayerBB P (pos e)) 0.1 0.4 0.1)
                     (lavaIds (catalogue P)))
                  (set_isInWater
                     (negb (isEmpty
                              (getWaterInBB P world
                                 (AABB.contract (getPlayerBB P (pos e))
                                    0.001 0.401 0.001))))
                     (set_vel (vel e3) e)))))).
Proof.
  unfold simulatePlayer. cbv zeta.
  pose proof (fst_isInWaterApplyCurrent world
                (AABB.contract (getPlayerBB P (pos e)) 0.001 0.401 0.001) (vel e))
    as Hw.
  destruct (isInWaterApplyCurrent P world _ (vel e)) as [inWater v].
  cbn [fst] in Hw. subst inWater.
  match goal with
  | |- context [handleJump Math_sin Math_cos P (resetNegligible P ?e0) world] =>
      pose proof (resetNegligible_shape e0) as Hr;
        remember (resetNegligible P e0) as e1 eqn:He1;
        pose proof (handleJump_shape e1 world) as Hj; cbv zeta in Hj;
        remember (handleJump Math_sin Math_cos P e1 world) as e2 eqn:He2
  end.
  match goal with
  | |- context [let '(_, _) := ?c in _] => destruct c as [strafe forward]
  end.
  match goal with
  | |- context [fireworkRocket Math_sin Math_cos ?e0] =>
      pose proof (fireworkRocket_shape e0) as Hf; cbv zeta in Hf;
        remember (fireworkRocket Math_sin Math_cos e0) as e3 eqn:He3
  end.
  intros H. exists e3, strafe, forward. split; [exact H|].
  clear H He1 He2 He3.
  rewrite Hf, Hj, Hr. unfold flying.
  destruct e; reflexivity.
Qed.

End Tick.

Section TickFacts.

Variable Math_sin Math_cos : float -> float.
Variable P : Closure.
Variables (fuel : nat) (e : Entity) (world : World) (e' : Entity).
Hypothesis tick : simulatePlayer Math_sin Math_cos P fuel e world = Ok e'.

(** The fields that the move leaves alone are, after the tick, what the
    steps before the move made of them. *)
Lemma tick_frame :
  inputs e' = inputs e /\
  jumpQueued e' = false /\
  fireworkRocketDuration e' =
  (if (0 <? fireworkRocketDuration e)%Z
   then if flying e then (fireworkRocketDuration e - 1)%Z else 0%Z
   else fireworkRocketDuration e) /\
  isInWater e' = negb (isEmpty (getWaterInBB P world (waterBB P e))) /\
  isInLava e' = isMaterialInBB world (lavaBB P e) (lavaIds (catalogue P)).
Proof.
  destruct (simulatePlayer_inv Math_sin Math_cos P fuel e world e' tick)
    as (e3 & strafe & forward & Hmove & He3).
  apply frame_moveEntityWithHeading in Hmove.
  rewrite He3 in Hmove. unfold frame in Hmove.
  cbn [jumpTicks jumpQueued fireworkRocketDuration isInWater isInLava attributes
       yaw pitch control jumpBoost speed slowness dolphinsGrace slowFalling
       levitation depthStrider elytraEquipped
       set_fireworkRocketDuration set_elytraFlying set_jumpQueued set_jumpTicks
       set_isInLava set_isInWater set_vel] in Hmove.
  unfold inputs, waterBB, lavaBB.
  injection Hmove. intros. repeat split; try assumption; congruence.
Qed.

(** The elytra flag after the tick, and the two collision flags that the
    ground flag is computed from. *)
Lemma tick_flags :
  exists em down,
    elytraFlying e' =
      (if isInWater e' || isInLava e' then flying e
       else flying e && negb (onGround em)) /\
    onGround e' = onGround em /\
    onGround em = isCollidedVertically em && down /\
    isCollidedVertically e' = isCollidedVertically em.
Proof.
  destruct (simulatePlayer_inv Math_sin Math_cos P fuel e world e' tick)
    as (e3 & strafe & forward & Hmove & He3).
  pose proof (frame_moveEntityWithHeading _ _ _ _ _ _ _ _ _ Hmove) as Hframe.
  destruct (moveEntityWithHeading_shape _ _ _ _ _ _ _ _ _ Hmove)
    as (v & em & Hm & He' & Hfly).
  apply moveEntity_shape in Hm. destruct Hm as [down Hm].
  exists em, down.
  assert (Hw : isInWater e' = isInWater e3 /\ isInLava e' = isInLava e3).
  { unfold frame in Hframe. injection Hframe. intros. split; assumption. }
  destruct Hw as [Hw Hl]. rewrite Hw, Hl.
  assert (Hf3 : elytraFlying e3 = flying e) by (rewrite He3; reflexivity).
  rewrite <- Hf3. split; [exact Hfly|].
  split; [rewrite He'; reflexivity|].
  split; [rewrite Hm at 1; reflexivity|].
  rewrite He'. reflexivity.
Qed.

End TickFacts.

(** A tick only reads the yaw and pitch, the controls, the effect levels,
    the depth-strider level and the elytra slot of the entity: they are the
    same after it.  (The attribute object is not among them: on the ground
    the attribute helper is given it to update.) *)
Theorem simulatePlayer_keeps_inputs (Math_sin Math_cos : float -> float)
  (P : Closure) (fuel : nat) (e : Entity) (world : World) (e' : Entity) :
  simulatePlayer Math_sin Math_cos P fuel e world = Ok e' ->
  settings e' = settings e.
Proof.
  intros H. destruct (tick_frame _ _ _ _ _ _ _ H) as [Hi _].
  unfold inputs in Hi. unfold settings. injection Hi. intros. congruence.
Qed.

Lemma simulatePlayer_keeps_inputs_witness :
  exists e',
    simulatePlayer Sample.sinAt0 Sample.cosAt0 Sample.closure 0 Sample.sprinter
      Sample.flatWorld = Ok e' /\
    (0 <? Vec3.z (vel e')) = true /\
    settings e' = settings Sample.sprinter.
Proof.
  destruct (simulatePlayer Sample.sinAt0 Sample.cosAt0 Sample.closure 0
              Sample.sprinter Sample.flatWorld) as [e'| |] eqn:H.
  - exists e'. split; [reflexivity|].
    split; [vm_compute in H; injection H as <-; vm_compute; reflexivity|].
    exact (simulatePlayer_keeps_inputs _ _ _ _ _ _ _ H).
  - vm_compute in H. discriminate.
  - vm_compute in H. discriminate.
Defined.

(** A tick never starts an elytra flight: the entity flies after it only if
    it flew before, wears the elytra, was off the ground and does not
    levitate. *)
Theorem simulatePlayer_never_starts_flight (Math_sin Math_cos : float -> float)
  (P : Closure) (fuel : nat) (e : Entity) (world : World) (e' : Entity) :
  simulatePlayer Math_sin Math_cos P fuel e world = Ok e' ->
  elytraFlying e' = true ->
  elytraFlying e = true /\ elytraEquipped e = true /\ onGround e = false /\
  Js.truthy (levitation e) = false.
Proof.
  intros H Hfly.
  destruct (tick_flags _ _ _ _ _ _ _ H) as (em & down & Hf & _).
  rewrite Hfly in Hf. unfold flying in Hf.
  destruct (elytraFlying e), (elytraEquipped e), (onGround e),
    (Js.truthy (levitation e)), (isInWater e' || isInLava e');
    simpl in Hf; try discriminate; auto.
Qed.

Lemma simulatePlayer_never_starts_flight_witness :
  exists e',
    simulatePlayer Sample.sinAt0 Sample.cosAt0 Sample.closure 0 Sample.glider
      Sample.emptyWorld = Ok e' /\
    elytraFlying e' = true /\
    elytraFlying Sample.glider = true /\ elytraEquipped Sample.glider = true /\
    onGround Sample.glider = false /\
    Js.truthy (levitation Sample.glider) = false.
Proof.
  destruct (simulatePlayer Sample.sinAt0 Sample.cosAt0 Sample.closure 0
              Sample.glider Sample.emptyWorld) as [e'| |] eqn:H.
  - exists e'. split; [reflexivity|].
    assert (Hfly : elytraFlying e' = true).
    { vm_compute in H. injection H as <-. reflexivity. }
    split; [exact Hfly|].
    exact (simulatePlayer_never_starts_flight _ _ _ _ _ _ _ H Hfly).
  - vm_compute in H. discriminate.
  - vm_compute in H. discriminate.
Defined.

(** After a tick the entity is on the ground only if it has collided
    vertically; and outside liquids an entity on the ground does not fly:
    a landing ends the flight. *)
Theorem simulatePlayer_ground (Math_sin Math_cos : float -> float)
  (P : Closure) (fuel : nat) (e : Entity) (world : World) (e' : Entity) :
  simulatePlayer Math_sin Math_cos P fuel e world = Ok e' ->
  onGround e' = true ->
  isCollidedVertically e' = true /\
  (isInWater e' || isInLava e' = false -> elytraFlying e' = false).
Proof.
  intros H Hg.
  destruct (tick_flags _ _ _ _ _ _ _ H) as (em & down & Hf & Hg' & Hd & Hv).
  rewrite Hg in Hg'. rewrite <- Hg' in Hd. rewrite Hv.
  split.
  - destruct (isCollidedVertically em); [reflexivity | discriminate].
  - intros Hl. rewrite Hl in Hf. rewrite Hf, <- Hg'.
    destruct (flying e); reflexivity.
Qed.

Lemma simulatePlayer_ground_witness :
  exists e',
    simulatePlayer Sample.noTrig Sample.noTrig Sample.closure 0 Sample.lander
      Sample.flatWorld = Ok e' /\
    onGround e' = true /\
    isCollidedVertically e' = true /\
    (isInWater e' || isInLava e' = false -> elytraFlying e' = false).
Proof.
  destruct (simulatePlayer Sample.noTrig Sample.noTrig Sample.closure 0
              Sample.lander Sample.flatWorld) as [e'| |] eqn:H.
  - exists e'. split; [reflexivity|].
    assert (Hg : onGround e' = true).
    { vm_compute in H. injection H as <-. reflexivity. }
    split; [exact Hg|].
    exact (simulatePlayer_ground _ _ _ _ _ _ _ H Hg).
  - vm_compute in H. discriminate.
  - vm_compute in H. discriminate.
Defined.

(** A tick consumes the queued jump, and counts a burning rocket down by
    one while the entity flies and puts it out otherwise: the duration
    never grows, and a positive one decreases.  The duration is an integer
    below 2^53 in absolute value, where the source counts by one
    exactly. *)
Theorem simulatePlayer_counts_down (Math_sin Math_cos : float -> float)
  (P : Closure) (fuel : nat) (e : Entity) (world : World) (e' : Entity) :
  (Z.abs (fireworkRocketDuration e) < 2 ^ 53)%Z ->
  simulatePlayer Math_sin Math_cos P fuel e world = Ok e' ->
  jumpQueued e' = false /\
  fireworkRocketDuration e' =
  (if (0 <? fireworkRocketDuration e)%Z
   then if flying e then (fireworkRocketDuration e - 1)%Z else 0%Z
   else fireworkRocketDuration e) /\
  ((0 < fireworkRocketDuration e)%Z ->
   (0 <= fireworkRocketDuration e' < fireworkRocketDuration e)%Z).
Proof.
  intros _ H.
  destruct (tick_frame _ _ _ _ _ _ _ H) as (_ & Hq & Hd & _).
  split; [exact Hq|]. split; [exact Hd|].
  intros Hpos. rewrite Hd.
  apply Z.ltb_lt in Hpos as Hb. rewrite Hb.
  destruct (flying e); lia.
Qed.

Lemma simulatePlayer_counts_down_witness :
  exists e',
    simulatePlayer Sample.sinAt0 Sample.cosAt0 Sample.closure 0 Sample.glider
      Sample.emptyWorld = Ok e' /\
    jumpQueued e' = false /\ fireworkRocketDuration e' = 4%Z.
Proof.
  destruct (simulatePlayer Sample.sinAt0 Sample.cosAt0 Sample.closure 0
              Sample.glider Sample.emptyWorld) as [e'| |] eqn:H.
  - exists e'. split; [reflexivity|].
    assert (Hb : (Z.abs (fireworkRocketDuration Sample.glider) < 2 ^ 53)%Z)
      by (vm_compute; reflexivity).
    destruct (simulatePlayer_counts_down _ _ _ _ _ _ _ Hb H) as (Hq & Hd & _).
    split; [exact Hq|]. rewrite Hd. reflexivity.
  - vm_compute in H. discriminate.
  - vm_compute in H. discriminate.
Defined.

(** The liquid flags after a tick are those of the position before the
    move: the entity is in water when a water block reaches into the box
    [waterBB] around the old position, and in lava when a lava block lies
    in the box [lavaBB] around it. *)
Theorem simulatePlayer_liquid_flags (Math_sin Math_cos : float -> float)
  (P : Closure) (fuel : nat) (e : Entity) (world : World) (e' : Entity) :
  simulatePlayer Math_sin Math_cos P fuel e world = Ok e' ->
  isInWater e' = negb (isEmpty (getWaterInBB P world (waterBB P e))) /\
  isInLava e' = isMaterialInBB world (lavaBB P e) (lavaIds (catalogue P)).
Proof. intros H. apply (tick_frame _ _ _ _ _ _ _ H). Qed.

Lemma simulatePlayer_liquid_flags_witness :
  exists e',
    simulatePlayer Sample.noTrig Sample.noTrig Sample.closure 0 Sample.swimmer
      Sample.poolWorld = Ok e' /\
    isInWater e' = true /\ isInLava e' = false.
Proof.
  destruct (simulatePlayer Sample.noTrig Sample.noTrig Sample.closure 0
              Sample.swimmer Sample.poolWorld) as [e'| |] eqn:H.
  - exists e'. split; [reflexivity|].
    destruct (simulatePlayer_liquid_flags _ _ _ _ _ _ _ H) as [Hw Hl].
    rewrite Hw, Hl. split; vm_compute; reflexivity.
  - vm_compute in H. discriminate.
  - vm_compute in H. discriminate.
Defined.

(** ** The player state of a bot *)

(** The name occurs in every string that is built around it. *)
Lemma prefix_app (s t : string) : String.prefix s (s ++ t)%string = true.
Proof.
  induction s as [|c s IH]; simpl; [destruct t; reflexivity|].
  destruct (ascii_dec c c) as [_|Hn]; [exact IH | contradiction].
Qed.

Lemma String_includes_app (pre s post : string) :
  String_includes (pre ++ s ++ post)%string s = true.
Proof.
  induction pre as [|c pre IH].
  - cbn [append]. remember (s ++ post)%string as t eqn:Ht.
    destruct t; cbn [String_includes]; rewrite Ht, prefix_app; reflexivity.
  - cbn [append String_includes]. rewrite IH. apply orb_true_r.
Qed.

(** Writing a state that was just read from a bot back to the bot changes
    nothing. *)
Theorem PlayerState_apply_new (Nbt : Type) (minecraftData : string -> Registry.t)
  (simplify : Nbt -> SimplifiedNbt) (bot : Bot.t Nbt) (control : Control.t) :
  PlayerState.apply Nbt (PlayerState.new Nbt minecraftData simplify bot control) bot
  = bot.
Proof. destruct bot as [[] ? ? ? ? ?]. reflexivity. Qed.

(** The cycle of the host: a state read from the bot, one tick, the state
    written back, and a state read again with the same controls.  The
    second state is the result of the tick: nothing is lost, since the tick
    only reads the fields that are not written back. *)
Theorem PlayerState_tick_round_trip (Nbt : Type)
  (minecraftData : string -> Registry.t) (simplify : Nbt -> SimplifiedNbt)
  (Math_sin Math_cos : float -> float) (P : Closure) (fuel : nat)
  (bot : Bot.t Nbt) (c : Control.t) (world : World) (state' : Entity) :
  simulatePlayer Math_sin Math_cos P fuel
    (PlayerState.new Nbt minecraftData simplify bot c) world = Ok state' ->
  PlayerState.new Nbt minecraftData simplify
    (PlayerState.apply Nbt state' bot) c = state'.
Proof.
  intros H. apply tick_frame in H. destruct H as [H _].
  unfold inputs in H.
  destruct state' as [p v g w l web ch cv ef jt jq frd attrs yw pt ctl jb sp sl dg
                        sf lev ds eq].
  cbn [yaw pitch attributes control jumpBoost speed slowness dolphinsGrace
       slowFalling levitation depthStrider elytraEquipped PlayerState.new] in H.
  injection H. intros. subst.
  reflexivity.
Qed.

Lemma PlayerState_tick_round_trip_witness :
  exists state',
    simulatePlayer Sample.noTrig Sample.noTrig Sample.closure 0
      (PlayerState.new SimplifiedNbt (fun _ => Sample.registry) (fun t => t)
         Sample.bot Sample.noControl)
      Sample.flatWorld = Ok state' /\
    PlayerState.new SimplifiedNbt (fun _ => Sample.registry) (fun t => t)
      (PlayerState.apply SimplifiedNbt state' Sample.bot) Sample.noControl = state'.
Proof.
  destruct (simulatePlayer Sample.noTrig Sample.noTrig Sample.closure 0
              (PlayerState.new SimplifiedNbt (fun _ => Sample.registry) (fun t => t)
                 Sample.bot Sample.noControl)
              Sample.flatWorld) as [state'| |] eqn:H.
  - exists state'. split; [reflexivity|].
    exact (PlayerState_tick_round_trip _ _ _ _ _ _ _ _ _ _ _ H).
  - vm_compute in H. discriminate.
  - vm_compute in H. discriminate.
Defined.

(** An effect that the game data of the version does not know, or that is
    not active on the bot, has level 0 in the state; for slow falling the
    entity then falls under the full gravity. *)
Theorem PlayerState_effect_absent (Nbt : Type)
  (minecraftData : string -> Registry.t) (simplify : Nbt -> SimplifiedNbt)
  (P : Closure) (bot : Bot.t Nbt) (control : Control.t) :
  (forall d,
     Registry.effectsByName (minecraftData (Bot.version bot)) "SlowFalling" = Some d ->
     Bot.effects (Bot.entity bot) (Effect.id d) = None) ->
  let state := PlayerState.new Nbt minecraftData simplify bot control in
  slowFalling state = 0 /\ gravityMultiplier P state = 1.
Proof.
  intros H state.
  assert (Hs : slowFalling state = 0).
  { unfold state. cbn [slowFalling PlayerState.new]. unfold getEffectLevel.
    destruct (Registry.effectsByName _ "SlowFalling") as [d|]; [|reflexivity].
    rewrite (H d eq_refl). reflexivity. }
  split; [exact Hs|].
  unfold gravityMultiplier. rewrite Hs.
  destruct (Vec3.y (vel state) <=? 0); reflexivity.
Qed.

Lemma PlayerState_effect_absent_witness :
  slowFalling (PlayerState.new SimplifiedNbt (fun _ => Sample.registry) (fun t => t)
                 Sample.bot Sample.noControl) = 0 /\
  gravityMultiplier Sample.closure
    (PlayerState.new SimplifiedNbt (fun _ => Sample.registry) (fun t => t)
       Sample.bot Sample.noControl) = 1.
Proof.
  apply (PlayerState_effect_absent SimplifiedNbt (fun _ => Sample.registry)
           (fun t => t) Sample.closure Sample.bot Sample.noControl).
  intros d Hd. vm_compute in Hd. injection Hd as <-. reflexivity.
Defined.

(** [getEnchantmentLevel] returns the level of the first entry that
    matches, and a string id matches as soon as it contains the name: an id
    with a namespace before the name, or with anything after it, is taken.
    A numeric id matches the id of the game data.  The level is 0 for a
    name the game data does not know, whatever the list holds. *)
Theorem getEnchantmentLevel_first_match (mcData : Registry.t) (name : string) :
  (Registry.enchantmentsByName mcData name = None ->
   forall l, getEnchantmentLevel mcData name l = 0) /\
  (forall d, Registry.enchantmentsByName mcData name = Some d ->
     (forall pre post lvl rest,
        getEnchantmentLevel mcData name
          (EnchInfo.mk (EnchInfo.Str (pre ++ name ++ post)%string) lvl :: rest) = lvl) /\
     (forall lvl rest,
        getEnchantmentLevel mcData name
          (EnchInfo.mk (EnchInfo.Num (Enchantment.id d)) lvl :: rest) = lvl) /\
     getEnchantmentLevel mcData name [] = 0).
Proof.
  unfold getEnchantmentLevel. split.
  - intros H l. rewrite H. reflexivity.
  - intros d H. rewrite H. repeat split.
    + intros pre post lvl rest. cbn [firstLevel EnchInfo.id EnchInfo.lvl].
      rewrite String_includes_app. reflexivity.
    + intros lvl rest. cbn [firstLevel EnchInfo.id EnchInfo.lvl].
      rewrite Z.eqb_refl. reflexivity.
Qed.

(** The boots of the sample bot: the id has a namespace before the name,
    and is found. *)
Example depthStrider_of_bot :
  depthStrider (PlayerState.new SimplifiedNbt (fun _ => Sample.registry)
                  (fun t => t) Sample.bot Sample.noControl) = 3.
Proof. reflexivity. Qed.

(** ** When the construction of the closure returns *)

Lemma readCatalogue_returns (blocksByName : string -> option BlockInfo) :
  match readCatalogue blocksByName with
  | Ok _ => forallb (hasOneOf blocksByName) mandatoryBlocks = true
  | Throw e => e = TypeError /\
               forallb (hasOneOf blocksByName) mandatoryBlocks = false
  | OutOfFuel => False
  end.
Proof.
  unfold readCatalogue, mandatoryBlocks, hasOneOf, idOf.
  cbn [forallb existsb].
  destruct (blocksByName "slime_block"); [|destruct (blocksByName "slime")];
    cbn [bind orb andb]; try (split; reflexivity).
  all: destruct (blocksByName "ice"); cbn [bind orb andb]; try (split; reflexivity).
  all: destruct (blocksByName "packed_ice"); cbn [bind orb andb];
    try (split; reflexivity).
  all: destruct (blocksByName "soul_sand"); cbn [bind orb andb];
    try (split; reflexivity).
  all: (destruct (blocksByName "cobweb"); [|destruct (blocksByName "web")]);
    cbn [bind orb andb]; try (split; reflexivity).
  all: destruct (blocksByName "water"); cbn [bind orb andb]; try (split; reflexivity).
  all: destruct (blocksByName "lava"); cbn [bind orb andb]; try (split; reflexivity).
  all: destruct (blocksByName "ladder"); cbn [bind orb andb];
    try (split; reflexivity).
  all: destruct (blocksByName "vine"); cbn [bind orb andb]; try (split; reflexivity).
  all: reflexivity.
Qed.

(** [Physics] returns a closure exactly when the feature list of the
    version can be built and enables one of the two liquid-gravity
    features, the game data has every mandatory block and it has the
    [movementSpeed] attribute.  With the feature list built, a missing
    block or attribute raises a TypeError, before the liquid gravities are
    looked at. *)
Theorem Physics_returns_iff (feats : list Feature) (mcData : McData.t) :
  ((exists P, Physics feats mcData = Ok P) <->
   (exists fl,
      FeatureList.new feats (McData.version mcData) = Ok fl /\
      FeatureList.supportFeature fl "independentLiquidGravity" ||
      FeatureList.supportFeature fl "proportionalLiquidGravity" = true) /\
   forallb (hasOneOf (McData.blocksByName mcData)) mandatoryBlocks = true /\
   McData.attributesByName mcData "movementSpeed" <> None) /\
  (forall fl,
     FeatureList.new feats (McData.version mcData) = Ok fl ->
     forallb (hasOneOf (McData.blocksByName mcData)) mandatoryBlocks = false \/
     McData.attributesByName mcData "movementSpeed" = None ->
     Physics feats mcData = Throw TypeError).
Proof.
  pose proof (readCatalogue_returns (McData.blocksByName mcData)) as Hc.
  unfold Physics, liquidGravity, bind.
  destruct (FeatureList.new feats (McData.version mcData)) as [fl|e|].
  - destruct (readCatalogue (McData.blocksByName mcData)) as [c|e|];
      [|destruct Hc as [-> Hc]|contradiction].
    + destruct (McData.attributesByName mcData "movementSpeed") as [a|].
      * destruct (FeatureList.supportFeature fl "independentLiquidGravity")
          eqn:Hi;
          [|destruct (FeatureList.supportFeature fl "proportionalLiquidGravity")
              eqn:Hp].
        1, 2: split;
          [split;
           [intros _;
            (split; [exists fl; split; [reflexivity|rewrite Hi, ?Hp; reflexivity]|]);
            split; [exact Hc | discriminate]
           |intros _; eexists; reflexivity]
          |intros fl' _ [H|H]; [rewrite Hc in H|]; discriminate].
        split.
        -- split; [intros [P HP]; discriminate|].
           intros [[fl' [Hfl Hg]] _]. injection Hfl as <-.
           rewrite Hi, Hp in Hg. discriminate.
        -- intros fl' _ [H|H]; [rewrite Hc in H|]; discriminate.
      * split.
        -- split; [intros [P HP]; discriminate|].
           intros (_ & _ & H). contradiction.
        -- reflexivity.
    + split.
      * split; [intros [P HP]; discriminate|].
        intros (_ & H & _). rewrite Hc in H. discriminate.
      * reflexivity.
  - split.
    + split; [intros [P HP]; discriminate|].
      intros [[fl [H _]] _]. discriminate.
    + intros fl H. discriminate.
  - split.
    + split; [intros [P HP]; discriminate|].
      intros [[fl [H _]] _]. discriminate.
    + intros fl H. discriminate.
Qed.

(** The game data of the examples without its ladder. *)
Example Physics_without_ladder :
  Physics Sample.features
    (McData.mk (Sample.versionOf "1.20.1" "1.20")
       (fun n => if String.eqb n "ladder" then None else Sample.find n Sample.blocks)
       (McData.attributesByName (Sample.mcData "1.20.1" "1.20")))
  = Throw TypeError.
Proof. reflexivity. Qed.

(** The slipperiness table of a catalogue that was read: its values, and
    the entry of blue ice, which is assigned last. *)
Lemma readCatalogue_slipperiness (blocksByName : string -> option BlockInfo)
  (c : Catalogue) :
  readCatalogue blocksByName = Ok c ->
  (forall k s, lookup k (blockSlipperiness c) = Some s -> In s [0.8; 0.98; 0.989]) /\
  (forall b, blocksByName "blue_ice" = Some b ->
             lookup (id b) (blockSlipperiness c) = Some 0.989).
Proof.
  unfold readCatalogue, idOf.
  destruct (blocksByName "slime_block"); [|destruct (blocksByName "slime")];
    cbn [bind]; try discriminate.
  all: destruct (blocksByName "ice"); cbn [bind]; try discriminate.
  all: destruct (blocksByName "packed_ice"); cbn [bind]; try discriminate.
  all: destruct (blocksByName "soul_sand"); cbn [bind]; try discriminate.
  all: (destruct (blocksByName "cobweb"); [|destruct (blocksByName "web")]);
    cbn [bind]; try discriminate.
  all: destruct (blocksByName "water"); cbn [bind]; try discriminate.
  all: destruct (blocksByName "lava"); cbn [bind]; try discriminate.
  all: destruct (blocksByName "ladder"); cbn [bind]; try discriminate.
  all: destruct (blocksByName "vine"); cbn [bind]; try discriminate.
  all: intros H; injection H as <-; cbn [blockSlipperiness].
  all: destruct (blocksByName "frosted_ice"), (blocksByName "blue_ice");
    unfold assign; cbn [lookup];
    (split;
     [ intros k s;
       repeat match goal with
              | |- context [(k =? ?x)%Z] => destruct (k =? x)%Z
              end;
       intros H; try discriminate; injection H as <-; simpl; auto
     | intros b' Hb; try discriminate; injection Hb as <-;
       rewrite Z.eqb_refl; reflexivity ]).
Qed.

Lemma Physics_slipperiness_values (feats : list Feature) (mcData : McData.t)
  (P : Closure) :
  Physics feats mcData = Ok P ->
  (forall blockType, In (slipperiness P blockType) [0.6; 0.8; 0.98; 0.989]) /\
  (forall b, McData.blocksByName mcData "blue_ice" = Some b ->
             slipperiness P (id b) = 0.989).
Proof.
  intros HP. apply Physics_inv in HP.
  destruct HP as (fl & c & ms & wg & lg & _ & Hc & _ & ->).
  apply readCatalogue_slipperiness in Hc. destruct Hc as [Hv Hb].
  unfold slipperiness. cbn [catalogue physics defaultSlipperiness constants].
  split.
  - intros t. destruct (lookup t (blockSlipperiness c)) as [s|] eqn:Hs;
      [|simpl; auto].
    apply Hv in Hs. simpl in Hs.
    destruct Hs as [<-|[<-|[<-|[]]]]; simpl; auto.
  - intros b H. rewrite (Hb b H). reflexivity.
Qed.

(** The friction of a block, for a closure that [Physics] built: 0.8 for
    slime, 0.98 for the ices, 0.989 for blue ice, and the default 0.6 for
    every other block; whatever the ids of the game data are, it is one of
    these four numbers, and blue ice, assigned last, has its own. *)
Theorem Physics_slipperiness (feats : list Feature) (mcData : McData.t)
  (P : Closure) :
  Physics feats mcData = Ok P ->
  (forall blockType, In (slipperiness P blockType) [0.6; 0.8; 0.98; 0.989]) /\
  (forall b, McData.blocksByName mcData "blue_ice" = Some b ->
             slipperiness P (id b) = 0.989).
Proof. apply Physics_slipperiness_values. Qed.

Lemma Physics_slipperiness_witness :
  (forall blockType,
     In (slipperiness Sample.closure blockType) [0.6; 0.8; 0.98; 0.989]) /\
  (forall b, McData.blocksByName (Sample.mcData "1.20.1" "1.20") "blue_ice" = Some b ->
             slipperiness Sample.closure (id b) = 0.989).
Proof.
  apply (Physics_slipperiness Sample.features (Sample.mcData "1.20.1" "1.20")
           Sample.closure).
  reflexivity.
Defined.

(** ** The sweeps for liquids and materials *)

(** A loop that only raises a flag is an [existsb]. *)
Lemma for_range_orb (lo hi : option Z) (body : Z -> bool -> bool) (f : Z -> bool) :
  (forall c acc, body c acc = acc || f c) ->
  forall acc, for_range lo hi body acc = acc || existsb f (range lo hi).
Proof.
  intros Hbody. unfold for_range.
  induction (range lo hi) as [|c l IH]; intros acc; simpl.
  - rewrite orb_false_r. reflexivity.
  - rewrite IH, Hbody, orb_assoc. reflexivity.
Qed.

Lemma In_boxPositions (bb : AABB.t) (cx cy cz : Z) :
  In (cx, cy, cz) (boxPositions bb) <->
  In cy (range (Js.floorZ (AABB.minY bb)) (Js.floorZ (AABB.maxY bb))) /\
  In cz (range (Js.floorZ (AABB.minZ bb)) (Js.floorZ (AABB.maxZ bb))) /\
  In cx (range (Js.floorZ (AABB.minX bb)) (Js.floorZ (AABB.maxX bb))).
Proof.
  unfold boxPositions. rewrite in_flat_map. split.
  - intros [y [Hy H]]. apply in_flat_map in H. destruct H as [z [Hz H]].
    apply in_map_iff in H. destruct H as [x [Heq Hx]].
    inversion Heq; subst. auto.
  - intros (Hy & Hz & Hx). exists cy. split; [exact Hy|].
    apply in_flat_map. exists cz. split; [exact Hz|].
    apply in_map_iff. exists cx. split; [reflexivity | exact Hx].
Qed.

(** For a box with finite bounds, [isMaterialInBB] answers [true] exactly
    when one of the positions of its sweep holds a block whose type is
    among [types]; a position whose read returns no block is skipped. *)
Theorem isMaterialInBB_iff (world : World) (queryBB : AABB.t) (types : list Z) :
  sweepable queryBB = true ->
  (isMaterialInBB world queryBB types = true <->
   exists cx cy cz block,
     In (cx, cy, cz) (boxPositions queryBB) /\
     getBlock world (Vec3.ofZ cx cy cz) = Some block /\
     In (type block) types).
Proof.
  intros _. unfold isMaterialInBB.
  rewrite (for_range_orb _ _ _
    (fun cy => existsb (fun cz => existsb (fun cx =>
       match getBlock world (Vec3.ofZ cx cy cz) with
       | Some block => includes types (type block)
       | None => false
       end)
       (range (Js.floorZ (AABB.minX queryBB)) (Js.floorZ (AABB.maxX queryBB))))
       (range (Js.floorZ (AABB.minZ queryBB)) (Js.floorZ (AABB.maxZ queryBB))))).
  - cbn [orb]. rewrite existsb_exists. split.
    + intros (cy & Hy & H). apply existsb_exists in H. destruct H as (cz & Hz & H).
      apply existsb_exists in H. destruct H as (cx & Hx & H).
      destruct (getBlock world (Vec3.ofZ cx cy cz)) as [block|] eqn:Hb;
        [|discriminate].
      exists cx, cy, cz, block. split; [apply In_boxPositions; auto|].
      split; [exact Hb|].
      unfold includes in H. apply existsb_exists in H.
      destruct H as (k & Hk & Heq). apply Z.eqb_eq in Heq. subst k. exact Hk.
    + intros (cx & cy & cz & block & Hin & Hb & Ht).
      apply In_boxPositions in Hin. destruct Hin as (Hy & Hz & Hx).
      exists cy. split; [exact Hy|].
      apply existsb_exists. exists cz. split; [exact Hz|].
      apply existsb_exists. exists cx. split; [exact Hx|].
      rewrite Hb. unfold includes. apply existsb_exists.
      exists (type block). split; [exact Ht | apply Z.eqb_refl].
  - intros cy acc. apply for_range_orb. intros cz acc'.
    apply for_range_orb. intros cx acc''. reflexivity.
Qed.

Lemma isMaterialInBB_iff_witness :
  isMaterialInBB Sample.poolWorld (lavaBB Sample.closure Sample.swimmer)
    (waterIds (catalogue Sample.closure)) = true <->
  exists cx cy cz block,
    In (cx, cy, cz) (boxPositions (lavaBB Sample.closure Sample.swimmer)) /\
    getBlock Sample.poolWorld (Vec3.ofZ cx cy cz) = Some block /\
    In (type block) (waterIds (catalogue Sample.closure)).
Proof.
  apply (isMaterialInBB_iff Sample.poolWorld (lavaBB Sample.closure Sample.swimmer)
           (waterIds (catalogue Sample.closure))).
  vm_compute. reflexivity.
Defined.

(** The lava flag of the swimmer's pool is not set, and the water under
    its feet is found by id. *)
Example isMaterialInBB_pool :
  isMaterialInBB Sample.poolWorld (lavaBB Sample.closure Sample.swimmer)
    (lavaIds (catalogue Sample.closure)) = false /\
  isMaterialInBB Sample.poolWorld (lavaBB Sample.closure Sample.swimmer)
    (waterIds (catalogue Sample.closure)) = true.
Proof. split; vm_compute; reflexivity. Qed.

(** The depth of a block that counts as water is 0, or its metadata when
    that is below 8. *)
Lemma getRenderedDepth_isWater (P : Closure) (b : Block) :
  isWater P b = true -> (0 <= metadata b)%Z ->
  (0 <= getRenderedDepth P (Some b) <= 7)%Z.
Proof.
  unfold isWater, getRenderedDepth. intros Hw Hm.
  destruct (includes (waterLike (catalogue P)) (type b)); [lia|].
  destruct (waterlogged (getProperties b)); [lia|].
  rewrite orb_false_r, orb_false_r in Hw. rewrite Hw. cbn [negb].
  destruct (8 <=? metadata b)%Z eqn:H8; [lia|].
  apply Z.leb_gt in H8. lia.
Qed.

Lemma getWaterInBB_flat_map (P : Closure) (world : World) (bb : AABB.t) :
  getWaterInBB P world bb =
  flat_map
    (fun c : Z * Z * Z =>
       let '(cx, cy, cz) := c in
       match getBlock world (Vec3.ofZ cx cy cz) with
       | Some block =>
           if isWater P block &&
              (Js.Z2F cy + 1 - getLiquidHeightPcent P (Some block) <=?
               Js.Math_ceil (AABB.maxY bb))
           then [block] else []
       | None => []
       end)
    (boxPositions bb).
Proof.
  unfold getWaterInBB, boxPositions.
  rewrite (for_range_push _ _ _
    (fun cy => flat_map (fun cz => flat_map (fun cx =>
       match getBlock world (Vec3.ofZ cx cy cz) with
       | Some block =>
           if isWater P block &&
              (Js.Z2F cy + 1 - getLiquidHeightPcent P (Some block) <=?
               Js.Math_ceil (AABB.maxY bb))
           then [block] else []
       | None => []
       end)
       (range (Js.floorZ (AABB.minX bb)) (Js.floorZ (AABB.maxX bb))))
       (range (Js.floorZ (AABB.minZ bb)) (Js.floorZ (AABB.maxZ bb))))).
  - simpl. rewrite flat_map_nested. apply flat_map_ext. intros cy.
    rewrite flat_map_nested. apply flat_map_ext. intros cz.
    rewrite flat_map_map. reflexivity.
  - intros cy acc. apply for_range_push. intros cz acc'.
    apply for_range_push. intros cx acc''. unfold isWater.
    destruct (getBlock world (Vec3.ofZ cx cy cz)) as [block|];
      [|rewrite app_nil_r; reflexivity].
    destruct (_ || _); cbn [andb]; [|rewrite app_nil_r; reflexivity].
    destruct (_ <=? _); [reflexivity | rewrite app_nil_r; reflexivity].
Qed.

Lemma getWaterInBB_isWater (P : Closure) (world : World) (bb : AABB.t)
  (block : Block) :
  In block (getWaterInBB P world bb) -> isWater P block = true.
Proof.
  intros Hin. rewrite getWaterInBB_flat_map in Hin. apply in_flat_map in Hin.
  destruct Hin as ([[cx cy] cz] & _ & Hin).
  destruct (getBlock world (Vec3.ofZ cx cy cz)) as [b|]; [|contradiction].
  destruct (isWater P b) eqn:Hw; cbn [andb] in Hin; [|contradiction].
  destruct (_ <=? _); [|contradiction].
  destruct Hin as [<-|[]]. exact Hw.
Qed.

(** For a box with finite bounds, [getWaterInBB] returns, position by
    position in the order of its sweep, the block found there if it counts
    as water and its surface is not above the ceiling of the top of the
    box.  So every block it returns counts as water, and has a rendered
    depth from 0 to 7 if its metadata is not negative. *)
Theorem getWaterInBB_lattice (P : Closure) (world : World) (bb : AABB.t) :
  sweepable bb = true ->
  getWaterInBB P world bb =
  flat_map
    (fun c : Z * Z * Z =>
       let '(cx, cy, cz) := c in
       match getBlock world (Vec3.ofZ cx cy cz) with
       | Some block =>
           if isWater P block &&
              (Js.Z2F cy + 1 - getLiquidHeightPcent P (Some block) <=?
               Js.Math_ceil (AABB.maxY bb))
           then [block] else []
       | None => []
       end)
    (boxPositions bb) /\
  (forall block,
     In block (getWaterInBB P world bb) ->
     isWater P block = true /\
     ((0 <= metadata block)%Z ->
      (0 <= getRenderedDepth P (Some block) <= 7)%Z)).
Proof.
  intros _. split; [apply getWaterInBB_flat_map|].
  intros block Hin. apply getWaterInBB_isWater in Hin.
  split; [exact Hin|]. apply getRenderedDepth_isWater. exact Hin.
Qed.

Lemma getWaterInBB_lattice_witness :
  getWaterInBB Sample.closure Sample.poolWorld
    (waterBB Sample.closure Sample.swimmer) =
  flat_map
    (fun c : Z * Z * Z =>
       let '(cx, cy, cz) := c in
       match getBlock Sample.poolWorld (Vec3.ofZ cx cy cz) with
       | Some block =>
           if isWater Sample.closure block &&
              (Js.Z2F cy + 1 - getLiquidHeightPcent Sample.closure (Some block) <=?
               Js.Math_ceil (AABB.maxY (waterBB Sample.closure Sample.swimmer)))
           then [block] else []
       | None => []
       end)
    (boxPositions (waterBB Sample.closure Sample.swimmer)).
Proof.
  apply (getWaterInBB_lattice Sample.closure Sample.poolWorld
           (waterBB Sample.closure Sample.swimmer)).
  vm_compute. reflexivity.
Defined.

(** The water of the pool under the swimmer. *)
Example getWaterInBB_pool :
  getWaterInBB Sample.closure Sample.poolWorld (waterBB Sample.closure Sample.swimmer)
  = [Sample.water (Vec3.mk 0 64 0)].
Proof. vm_compute. reflexivity. Qed.

(** ** Currents *)

(** A block of water whose four neighbours have its depth exerts no
    current. *)
Lemma getFlow_still (P : Closure) (world : World) (block : Block) :
  isWater P block = true ->
  (0 <= metadata block < 8)%Z ->
  (forall dx dz, In (dx, dz) neighbours ->
     getRenderedDepth P
       (getBlock world
          (Vec3.offset (position block) (Js.Z2F dx) (Js.Z2F 0) (Js.Z2F dz))) =
     getRenderedDepth P (Some block)) ->
  getFlow P world block = Vec3.mk 0 0 0.
Proof.
  intros Hw Hm Hn.
  pose proof (getRenderedDepth_isWater P block Hw (proj1 Hm)) as Hd.
  assert (H8 : (8 <=? metadata block)%Z = false) by (apply Z.leb_gt; lia).
  unfold getFlow. rewrite H8. cbv zeta. cbn [fold_left neighbours].
  rewrite (Hn 0 1 (or_introl eq_refl))%Z.
  rewrite (Hn (-1) 0 (or_intror (or_introl eq_refl)))%Z.
  rewrite (Hn 0 (-1) (or_intror (or_intror (or_introl eq_refl))))%Z.
  rewrite (Hn 1 0 (or_intror (or_intror (or_intror (or_introl eq_refl)))))%Z.
  assert (Hneg : (getRenderedDepth P (Some block) <? 0)%Z = false)
    by (apply Z.ltb_ge; lia).
  rewrite Hneg, Z.sub_diag. reflexivity.
Qed.

Lemma no_flow_no_acceleration (P : Closure) (world : World) (l : list Block) :
  (forall block, In block l -> getFlow P world block = Vec3.mk 0 0 0) ->
  fold_left (fun acceleration block => Vec3.add acceleration (getFlow P world block))
    l (Vec3.mk 0 0 0) = Vec3.mk 0 0 0.
Proof.
  induction l as [|b l IH]; intros H; [reflexivity|].
  cbn [fold_left]. rewrite (H b) by (left; reflexivity).
  change (Vec3.add (Vec3.mk 0 0 0) (Vec3.mk 0 0 0)) with (Vec3.mk 0 0 0).
  apply IH. intros block Hin. apply H. right. exact Hin.
Qed.

(** Still water exerts no current: for a box with finite bounds, where
    every water block that reaches into the box has a metadata from 0 to 7
    and four horizontal neighbours of its own rendered depth,
    [isInWaterApplyCurrent] leaves the velocity as it is, and answers
    whether there is such a block. *)
Theorem still_water_no_current (P : Closure) (world : World) (bb : AABB.t)
  (vel : Vec3.t) :
  sweepable bb = true ->
  (forall block,
     In block (getWaterInBB P world bb) ->
     (0 <= metadata block < 8)%Z /\
     forall dx dz, In (dx, dz) neighbours ->
       getRenderedDepth P
         (getBlock world
            (Vec3.offset (position block) (Js.Z2F dx) (Js.Z2F 0) (Js.Z2F dz))) =
       getRenderedDepth P (Some block)) ->
  isInWaterApplyCurrent P world bb vel =
  (negb (isEmpty (getWaterInBB P world bb)), vel).
Proof.
  intros _ H. unfold isInWaterApplyCurrent. cbv zeta.
  rewrite no_flow_no_acceleration; [reflexivity|].
  intros block Hin. destruct (H block Hin) as [Hm Hn].
  apply getFlow_still; [exact (getWaterInBB_isWater P world bb block Hin) | exact Hm
                       | exact Hn].
Qed.

Lemma still_water_no_current_witness :
  isInWaterApplyCurrent Sample.closure Sample.poolWorld
    (AABB.contract (getPlayerBB Sample.closure (Vec3.mk (-5.5) 64.5 0.5))
       0.001 0.401 0.001)
    (Vec3.mk 0.1 0 0) =
  (true, Vec3.mk 0.1 0 0).
Proof.
  rewrite (still_water_no_current Sample.closure Sample.poolWorld
             (AABB.contract (getPlayerBB Sample.closure (Vec3.mk (-5.5) 64.5 0.5))
                0.001 0.401 0.001)
             (Vec3.mk 0.1 0 0)).
  - vm_compute. reflexivity.
  - vm_compute. reflexivity.
  - intros block Hin. vm_compute in Hin. destruct Hin as [<-|[]].
    split; [cbn [metadata]; lia|].
    intros dx dz Hn. cbn [In neighbours] in Hn.
    destruct Hn as [E|[E|[E|[E|[]]]]]; injection E as <- <-; vm_compute; reflexivity.
Defined.

(** ** The flags that a tick only writes *)

(** The projections and the assignments of an entity, computed. *)
Ltac fields :=
  cbn [pos vel onGround isInWater isInLava isInWeb isCollidedHorizontally
       isCollidedVertically elytraFlying jumpTicks jumpQueued
       fireworkRocketDuration attributes yaw pitch control jumpBoost speed
       slowness dolphinsGrace slowFalling levitation depthStrider elytraEquipped
       set_pos set_vel set_onGround set_isInWater set_isInLava set_isInWeb
       set_isCollidedHorizontally set_isCollidedVertically set_elytraFlying
       set_jumpTicks set_jumpQueued set_fireworkRocketDuration
       set_vel_x set_vel_y set_vel_z Vec3.x Vec3.y Vec3.z fst snd].

(** Case analysis on the innermost tests first, so that the same test is
    split once for both sides of an equation. *)
Ltac innermost_cases :=
  repeat (fields;
          first
            [ reflexivity
            | match goal with
              | |- context [if ?b then _ else _] =>
                  lazymatch b with
                  | context [if _ then _ else _] => fail
                  | context [match _ with Some _ => _ | None => _ end] => fail
                  | _ => destruct b
                  end
              | |- context [match ?o with Some _ => _ | None => _ end] =>
                  lazymatch o with
                  | context [if _ then _ else _] => fail
                  | _ => destruct o
                  end
              end ]).

Section Flags.

Variable Math_sin Math_cos : float -> float.
Variable P : Closure.
Variables ch cv : bool.

Lemma collided_resetNegligible (e : Entity) :
  resetNegligible P (collided ch cv e) = collided ch cv (resetNegligible P e).
Proof.
  unfold resetNegligible, collided. cbv zeta.
  destruct e as [p v g w l web ch0 cv0 ef jt jq frd attrs yw pt ctl jb sp sl dg sf lev ds eq].
  innermost_cases.
Qed.

Lemma collided_handleJump (e : Entity) (world : World) :
  handleJump Math_sin Math_cos P (collided ch cv e) world =
  collided ch cv (handleJump Math_sin Math_cos P e world).
Proof.
  unfold handleJump, collided. cbv zeta.
  destruct e as [p v g w l web ch0 cv0 ef jt jq frd attrs yw pt ctl jb sp sl dg sf lev ds eq].
  innermost_cases.
Qed.

Lemma collided_fireworkRocket (e : Entity) :
  fireworkRocket Math_sin Math_cos (collided ch cv e) =
  collided ch cv (fireworkRocket Math_sin Math_cos e).
Proof.
  unfold fireworkRocket, collided, getLookingVector. cbv zeta.
  destruct e as [p v g w l web ch0 cv0 ef jt jq frd attrs yw pt ctl jb sp sl dg sf lev ds eq].
  innermost_cases.
Qed.

Lemma collided_applyHeading (e : Entity) (strafe forward multiplier : float) :
  applyHeading Math_sin Math_cos (collided ch cv e) strafe forward multiplier =
  collided ch cv (applyHeading Math_sin Math_cos e strafe forward multiplier).
Proof.
  unfold applyHeading, collided. cbv zeta.
  destruct e as [p v g w l web ch0 cv0 ef jt jq frd attrs yw pt ctl jb sp sl dg sf lev ds eq].
  innermost_cases.
Qed.

(** A move writes the two collision flags before it reads them. *)
Lemma collided_moveEntity (fuel : nat) (e : Entity) (world : World)
  (dx dy dz : float) :
  moveEntity P fuel (collided ch cv e) world dx dy dz =
  moveEntity P fuel e world dx dy dz.
Proof.
  unfold moveEntity, enterWeb, collided.
  destruct e as [p v g w l web ch0 cv0 ef jt jq frd attrs yw pt ctl jb sp sl dg sf lev ds eq].
  fields. destruct web; reflexivity.
Qed.

Lemma collided_moveEntityWithHeading (fuel : nat) (e : Entity) (world : World)
  (strafe forward : float) :
  moveEntityWithHeading Math_sin Math_cos P fuel (collided ch cv e) world
    strafe forward =
  moveEntityWithHeading Math_sin Math_cos P fuel e world strafe forward.
Proof.
  unfold moveEntityWithHeading.
  replace (isInWater (collided ch cv e)) with (isInWater e) by reflexivity.
  replace (isInLava (collided ch cv e)) with (isInLava e) by reflexivity.
  replace (elytraFlying (collided ch cv e)) with (elytraFlying e) by reflexivity.
  replace (gravityMultiplier P (collided ch cv e)) with (gravityMultiplier P e)
    by reflexivity.
  destruct (isInWater e || isInLava e); [|destruct (elytraFlying e)].
  - unfold moveInLiquid.
    replace (liquidHeading P (collided ch cv e)) with (liquidHeading P e)
      by reflexivity.
    replace (liquidInertia P (collided ch cv e)) with (liquidInertia P e)
      by reflexivity.
    destruct (liquidHeading P e) as [hi acc].
    rewrite collided_applyHeading.
    replace (pos (collided ch cv e)) with (pos e) by reflexivity.
    match goal with
    | |- context [collided ch cv ?ea] =>
        replace (vel (collided ch cv ea)) with (vel ea) by reflexivity
    end.
    rewrite collided_moveEntity. reflexivity.
  - unfold moveWithElytra. cbv zeta.
    replace (getLookingVector Math_sin Math_cos (collided ch cv e))
      with (getLookingVector Math_sin Math_cos e) by reflexivity.
    replace (vel (collided ch cv e)) with (vel e) by reflexivity.
    repeat match goal with
           | |- context [let '(_, _) := ?c in _] => destruct c
           end.
    fields.
    match goal with
    | |- context [set_vel ?v (collided ch cv e)] =>
        replace (set_vel v (collided ch cv e)) with (collided ch cv (set_vel v e))
          by reflexivity
    end.
    rewrite collided_moveEntity. reflexivity.
  - unfold moveNormally.
    replace (pos (collided ch cv e)) with (pos e) by reflexivity.
    replace (onGround (collided ch cv e)) with (onGround e) by reflexivity.
    replace (attributeSpeed P (collided ch cv e)) with (attributeSpeed P e)
      by reflexivity.
    replace (control (collided ch cv e)) with (control e) by reflexivity.
    match goal with
    | |- context [let '(_, _) := ?c in _] => destruct c as [acceleration inertia]
    end.
    rewrite collided_applyHeading.
    remember (applyHeading Math_sin Math_cos e strafe forward acceleration) as ea.
    replace (pos (collided ch cv ea)) with (pos ea) by reflexivity.
    destruct (isOnLadder P world (pos ea)) as [onLadder| |]; cbn [bind];
      try reflexivity.
    destruct onLadder.
    + match goal with
      | |- context [moveEntity P fuel ?e0 world ?a ?b ?c] =>
          match e0 with
          | context [collided ch cv ea] =>
              match goal with
              | |- context [moveEntity P fuel ?e1 world _ _ _ ] =>
                  lazymatch e1 with
                  | context [collided ch cv ea] => fail
                  | _ =>
                      replace (moveEntity P fuel e0 world a b c)
                        with (moveEntity P fuel (collided ch cv e1) world
                                (Vec3.x (vel e1)) (Vec3.y (vel e1)) (Vec3.z (vel e1)))
                        by reflexivity
                  end
              end
          end
      end.
      rewrite collided_moveEntity. reflexivity.
    + replace (vel (collided ch cv ea)) with (vel ea) by reflexivity.
      rewrite collided_moveEntity. reflexivity.
Qed.

End Flags.

(** The tick writes the two liquid flags and the two collision flags of
    the entity before it reads them: its result does not depend on the
    values they are given. *)
Theorem simulatePlayer_ignores_output_flags (Math_sin Math_cos : float -> float)
  (P : Closure) (fuel : nat) (e : Entity) (world : World) (w l ch cv : bool) :
  simulatePlayer Math_sin Math_cos P fuel
    (set_isInWater w (set_isInLava l (collided ch cv e))) world =
  simulatePlayer Math_sin Math_cos P fuel e world.
Proof.
  unfold simulatePlayer. cbv zeta.
  replace (pos (set_isInWater w (set_isInLava l (collided ch cv e))))
    with (pos e) by reflexivity.
  replace (vel (set_isInWater w (set_isInLava l (collided ch cv e))))
    with (vel e) by reflexivity.
  destruct (isInWaterApplyCurrent P world _ (vel e)) as [inWater v].
  match goal with
  | |- context [set_isInLava ?x (set_isInWater ?y (set_vel ?z e))] =>
      replace (set_isInLava x
                 (set_isInWater y
                    (set_vel z (set_isInWater w (set_isInLava l (collided ch cv e))))))
        with (collided ch cv (set_isInLava x (set_isInWater y (set_vel z e))))
        by (destruct e; reflexivity);
        remember (set_isInLava x (set_isInWater y (set_vel z e))) as e0 eqn:He0
  end.
  rewrite collided_resetNegligible, collided_handleJump.
  remember (handleJump Math_sin Math_cos P (resetNegligible P e0) world) as e2 eqn:He2.
  replace (control (collided ch cv e2)) with (control e2) by reflexivity.
  match goal with
  | |- context [let '(_, _) := ?c in _] => destruct c as [strafe forward]
  end.
  match goal with
  | |- context [set_elytraFlying ?f (collided ch cv e2)] =>
      replace (set_elytraFlying f (collided ch cv e2))
        with (collided ch cv
                (set_elytraFlying
                   (elytraFlying e2 && elytraEquipped e2 && negb (onGround e2) &&
                    negb (Js.truthy (levitation e2))) e2))
        by (destruct e2; reflexivity)
  end.
  rewrite collided_fireworkRocket, collided_moveEntityWithHeading. reflexivity.
Qed.

(** ** The levels that a tick does not read *)

Section Dead.

Variable Math_sin Math_cos : float -> float.
Variable P : Closure.
Variables sp sl : float.

Lemma withSpeed_resetNegligible (e : Entity) :
  resetNegligible P (withSpeed sp sl e) = withSpeed sp sl (resetNegligible P e).
Proof.
  unfold resetNegligible, withSpeed. cbv zeta.
  destruct e as [p v g w l web ch0 cv0 ef jt jq frd attrs yw pt ctl jb sp0 sl0 dg sf lev ds eq].
  innermost_cases.
Qed.

Lemma withSpeed_handleJump (e : Entity) (world : World) :
  handleJump Math_sin Math_cos P (withSpeed sp sl e) world =
  withSpeed sp sl (handleJump Math_sin Math_cos P e world).
Proof.
  unfold handleJump, withSpeed. cbv zeta.
  destruct e as [p v g w l web ch0 cv0 ef jt jq frd attrs yw pt ctl jb sp0 sl0 dg sf lev ds eq].
  innermost_cases.
Qed.

Lemma withSpeed_fireworkRocket (e : Entity) :
  fireworkRocket Math_sin Math_cos (withSpeed sp sl e) =
  withSpeed sp sl (fireworkRocket Math_sin Math_cos e).
Proof.
  unfold fireworkRocket, withSpeed, getLookingVector. cbv zeta.
  destruct e as [p v g w l web ch0 cv0 ef jt jq frd attrs yw pt ctl jb sp0 sl0 dg sf lev ds eq].
  innermost_cases.
Qed.

Lemma withSpeed_applyHeading (e : Entity) (strafe forward multiplier : float) :
  applyHeading Math_sin Math_cos (withSpeed sp sl e) strafe forward multiplier =
  withSpeed sp sl (applyHeading Math_sin Math_cos e strafe forward multiplier).
Proof.
  unfold applyHeading, withSpeed. cbv zeta.
  destruct e as [p v g w l web ch0 cv0 ef jt jq frd attrs yw pt ctl jb sp0 sl0 dg sf lev ds eq].
  innermost_cases.
Qed.

Lemma withSpeed_updateFlags (e : Entity) (world : World) (r : Resolved)
  (ox oy oz : float) :
  updateFlags P (withSpeed sp sl e) world r ox oy oz =
  withSpeed sp sl (updateFlags P e world r ox oy oz).
Proof.
  unfold updateFlags, withSpeed. cbv zeta.
  destruct e as [p v g w l web ch0 cv0 ef jt jq frd attrs yw pt ctl jb sp0 sl0 dg sf lev ds eq].
  innermost_cases.
Qed.

Lemma withSpeed_velocityBlock (b : Block) (e : Entity) :
  velocityBlock P b (withSpeed sp sl e) = withSpeed sp sl (velocityBlock P b e).
Proof.
  unfold velocityBlock, scaleXZ, withSpeed.
  destruct e as [p v g w l web ch0 cv0 ef jt jq frd attrs yw pt ctl jb sp0 sl0 dg sf lev ds eq].
  innermost_cases.
Qed.

Lemma withSpeed_collideBlock (world : World) (cursor : Vec3.t) (b : Block)
  (e : Entity) :
  collideBlock P world cursor b (withSpeed sp sl e) =
  withSpeed sp sl (collideBlock P world cursor b e).
Proof.
  unfold collideBlock.
  destruct (supportFeature P "velocityBlocksOnCollision");
    rewrite ?withSpeed_velocityBlock;
    unfold webOrBubble, withSpeed; cbv zeta;
    match goal with
    | |- context [velocityBlock P b e] => generalize (velocityBlock P b e)
    | _ => generalize e
    end;
    intros [p v g w l web ch0 cv0 ef jt jq frd attrs yw pt ctl jb sp0 sl0 dg sf lev ds eq];
    innermost_cases.
Qed.

Lemma withSpeed_for_range (lo hi : option Z) (body : Z -> Entity -> Entity) :
  (forall c e, body c (withSpeed sp sl e) = withSpeed sp sl (body c e)) ->
  forall e, for_range lo hi body (withSpeed sp sl e) =
  withSpeed sp sl (for_range lo hi body e).
Proof.
  intros Hbody. unfold for_range.
  induction (range lo hi) as [|c l IH]; intros e; cbn [fold_left]; [reflexivity|].
  rewrite Hbody. apply IH.
Qed.

Lemma withSpeed_blockCollisions (world : World) (bb : AABB.t) (e : Entity) :
  blockCollisions P world bb (withSpeed sp sl e) =
  withSpeed sp sl (blockCollisions P world bb e).
Proof.
  unfold blockCollisions. cbv zeta.
  apply withSpeed_for_range. intros cy e1.
  apply withSpeed_for_range. intros cz e2.
  apply withSpeed_for_range. intros cx e3.
  destruct (getBlock world (Vec3.ofZ cx cy cz)); [|reflexivity].
  apply withSpeed_collideBlock.
Qed.

Lemma withSpeed_blocksOnTop (world : World) (e : Entity) :
  blocksOnTop P world (withSpeed sp sl e) = withSpeed sp sl (blocksOnTop P world e).
Proof.
  unfold blocksOnTop.
  destruct (supportFeature P "velocityBlocksOnTop"); [|reflexivity].
  replace (pos (withSpeed sp sl e)) with (pos e) by reflexivity.
  destruct (getBlock world _); [apply withSpeed_velocityBlock | reflexivity].
Qed.

Lemma withSpeed_moveEntity (fuel : nat) (e : Entity) (world : World)
  (dx dy dz : float) :
  moveEntity P fuel (withSpeed sp sl e) world dx dy dz =
  let* e' := moveEntity P fuel e world dx dy dz in Ok (withSpeed sp sl e').
Proof.
  unfold moveEntity, enterWeb.
  replace (isInWeb (withSpeed sp sl e)) with (isInWeb e) by reflexivity.
  destruct (isInWeb e); cbv iota beta.
  - replace (set_isInWeb false (set_vel (Vec3.mk 0 0 0) (withSpeed sp sl e)))
      with (withSpeed sp sl (set_isInWeb false (set_vel (Vec3.mk 0 0 0) e))) by reflexivity.
    generalize (set_isInWeb false (set_vel (Vec3.mk 0 0 0) e)). intros e0.
    replace (sneakGuard P fuel (withSpeed sp sl e0) world (dx * 0.25) (dz * 0.25))
      with (sneakGuard P fuel e0 world (dx * 0.25) (dz * 0.25)) by reflexivity.
    destruct (sneakGuard P fuel e0 world _ _) as [[[[dx1 dz1] ox] oz]| |];
      cbn [bind]; try reflexivity.
    replace (resolve P (withSpeed sp sl e0) world dx1 (dy * 0.05) dz1 ox (dy * 0.05) oz)
      with (resolve P e0 world dx1 (dy * 0.05) dz1 ox (dy * 0.05) oz)
      by reflexivity.
    rewrite withSpeed_updateFlags, withSpeed_blockCollisions, withSpeed_blocksOnTop.
    reflexivity.
  - replace (sneakGuard P fuel (withSpeed sp sl e) world dx dz)
      with (sneakGuard P fuel e world dx dz) by reflexivity.
    destruct (sneakGuard P fuel e world _ _) as [[[[dx1 dz1] ox] oz]| |];
      cbn [bind]; try reflexivity.
    replace (resolve P (withSpeed sp sl e) world dx1 dy dz1 ox dy oz)
      with (resolve P e world dx1 dy dz1 ox dy oz) by reflexivity.
    rewrite withSpeed_updateFlags, withSpeed_blockCollisions, withSpeed_blocksOnTop.
    reflexivity.
Qed.

Lemma withSpeed_moveEntityWithHeading (fuel : nat) (e : Entity) (world : World)
  (strafe forward : float) :
  moveEntityWithHeading Math_sin Math_cos P fuel (withSpeed sp sl e) world strafe forward =
  let* e' := moveEntityWithHeading Math_sin Math_cos P fuel e world strafe forward in
  Ok (withSpeed sp sl e').
Proof.
  unfold moveEntityWithHeading.
  replace (isInWater (withSpeed sp sl e)) with (isInWater e) by reflexivity.
  replace (isInLava (withSpeed sp sl e)) with (isInLava e) by reflexivity.
  replace (elytraFlying (withSpeed sp sl e)) with (elytraFlying e) by reflexivity.
  replace (gravityMultiplier P (withSpeed sp sl e)) with (gravityMultiplier P e) by reflexivity.
  destruct (isInWater e || isInLava e); [|destruct (elytraFlying e)].
  - unfold moveInLiquid.
    replace (liquidHeading P (withSpeed sp sl e)) with (liquidHeading P e) by reflexivity.
    replace (liquidInertia P (withSpeed sp sl e)) with (liquidInertia P e) by reflexivity.
    replace (pos (withSpeed sp sl e)) with (pos e) by reflexivity.
    destruct (liquidHeading P e) as [hi acc].
    rewrite withSpeed_applyHeading.
    generalize (applyHeading Math_sin Math_cos e strafe forward acc). intros ea.
    replace (vel (withSpeed sp sl ea)) with (vel ea) by reflexivity.
    rewrite withSpeed_moveEntity.
    destruct (moveEntity P fuel ea world _ _ _) as [em| |]; cbn [bind];
      try reflexivity.
    replace (liquidDrag P (withSpeed sp sl em) (liquidInertia P e) hi (gravityMultiplier P e))
      with (withSpeed sp sl (liquidDrag P em (liquidInertia P e) hi (gravityMultiplier P e)))
      by reflexivity.
    generalize (liquidDrag P em (liquidInertia P e) hi (gravityMultiplier P e)).
    intros ed.
    replace (isCollidedHorizontally (withSpeed sp sl ed)) with (isCollidedHorizontally ed)
      by reflexivity.
    replace (jumpOutPos (withSpeed sp sl ed) (Vec3.y (pos e)))
      with (jumpOutPos ed (Vec3.y (pos e))) by reflexivity.
    destruct (_ && _); reflexivity.
  - unfold moveWithElytra. cbv zeta.
    replace (getLookingVector Math_sin Math_cos (withSpeed sp sl e))
      with (getLookingVector Math_sin Math_cos e) by reflexivity.
    replace (vel (withSpeed sp sl e)) with (vel e) by reflexivity.
    repeat match goal with
           | |- context [let '(_, _) := ?c in _] => destruct c
           end.
    fields.
    match goal with
    | |- context [set_vel ?v (withSpeed sp sl e)] =>
        replace (set_vel v (withSpeed sp sl e)) with (withSpeed sp sl (set_vel v e)) by reflexivity
    end.
    rewrite withSpeed_moveEntity.
    destruct (moveEntity P fuel _ world _ _ _) as [em| |]; cbn [bind];
      try reflexivity.
    replace (onGround (withSpeed sp sl em)) with (onGround em) by reflexivity.
    destruct (onGround em); reflexivity.
  - unfold moveNormally.
    replace (pos (withSpeed sp sl e)) with (pos e) by reflexivity.
    replace (onGround (withSpeed sp sl e)) with (onGround e) by reflexivity.
    replace (attributeSpeed P (withSpeed sp sl e)) with (attributeSpeed P e) by reflexivity.
    replace (control (withSpeed sp sl e)) with (control e) by reflexivity.
    match goal with
    | |- context [let '(_, _) := ?c in _] => destruct c as [acceleration inertia]
    end.
    rewrite withSpeed_applyHeading.
    generalize (applyHeading Math_sin Math_cos e strafe forward acceleration).
    intros ea.
    replace (pos (withSpeed sp sl ea)) with (pos ea) by reflexivity.
    destruct (isOnLadder P world (pos ea)) as [onLadder| |]; cbn [bind];
      try reflexivity.
    assert (Hmove : forall eb,
      (let* entity := moveEntity P fuel (withSpeed sp sl eb) world (Vec3.x (vel eb))
                        (Vec3.y (vel eb)) (Vec3.z (vel eb)) in
       let* onLadder' := isOnLadder P world (pos entity) in
       let entity :=
         if onLadder' &&
            (isCollidedHorizontally entity ||
             supportFeature P "climbUsingJump" && Control.jump (control entity))
         then set_vel_y (ladderClimbSpeed (physics P)) entity else entity in
       let entity :=
         if 0 <? levitation entity
         then set_vel_y (Vec3.y (vel entity) +
                         (0.05 * levitation entity - Vec3.y (vel entity)) * 0.2)
                entity
         else set_vel_y (Vec3.y (vel entity) -
                         gravity (physics P) * gravityMultiplier P e) entity in
       let entity := set_vel_y (Vec3.y (vel entity) * airdrag (physics P)) entity in
       let entity := set_vel_x (Vec3.x (vel entity) * inertia) entity in
       Ok (set_vel_z (Vec3.z (vel entity) * inertia) entity)) =
      (let* e' :=
         (let* entity := moveEntity P fuel eb world (Vec3.x (vel eb))
                           (Vec3.y (vel eb)) (Vec3.z (vel eb)) in
          let* onLadder' := isOnLadder P world (pos entity) in
          let entity :=
            if onLadder' &&
               (isCollidedHorizontally entity ||
                supportFeature P "climbUsingJump" && Control.jump (control entity))
            then set_vel_y (ladderClimbSpeed (physics P)) entity else entity in
          let entity :=
            if 0 <? levitation entity
            then set_vel_y (Vec3.y (vel entity) +
                            (0.05 * levitation entity - Vec3.y (vel entity)) * 0.2)
                   entity
            else set_vel_y (Vec3.y (vel entity) -
                            gravity (physics P) * gravityMultiplier P e) entity in
          let entity := set_vel_y (Vec3.y (vel entity) * airdrag (physics P)) entity in
          let entity := set_vel_x (Vec3.x (vel entity) * inertia) entity in
          Ok (set_vel_z (Vec3.z (vel entity) * inertia) entity)) in
       Ok (withSpeed sp sl e'))).
    { intros eb. rewrite withSpeed_moveEntity.
      destruct (moveEntity P fuel eb world _ _ _) as [em| |]; cbn [bind];
        try reflexivity.
      replace (pos (withSpeed sp sl em)) with (pos em) by reflexivity.
      destruct (isOnLadder P world (pos em)) as [onLadder'| |]; cbn [bind];
        try reflexivity.
      cbv zeta. unfold withSpeed.
      destruct em as [p v g w l web ch0 cv0 ef jt jq frd attrs yw pt ctl jb sp0 sl0 dg sf lev ds eq].
      f_equal. innermost_cases. }
    destruct onLadder.
    + match goal with
      | |- context [moveEntity P fuel ?e0 world _ _ _ ] =>
          lazymatch e0 with
          | context [withSpeed sp sl ea] => fail
          | _ => specialize (Hmove e0)
          end
      end.
      exact Hmove.
    + exact (Hmove ea).
Qed.

End Dead.

(** The tick never reads the levels [speed] and [slowness] of the entity:
    with other levels the tick does the same, and its result differs in
    those two fields only.  (The speed the tick reads is the value of the
    movement-speed attribute.) *)
Theorem simulatePlayer_ignores_speed (Math_sin Math_cos : float -> float)
  (P : Closure) (fuel : nat) (e : Entity) (world : World) (sp sl : float) :
  simulatePlayer Math_sin Math_cos P fuel (withSpeed sp sl e) world =
  let* e' := simulatePlayer Math_sin Math_cos P fuel e world in
  Ok (withSpeed sp sl e').
Proof.
  unfold simulatePlayer. cbv zeta.
  replace (pos (withSpeed sp sl e)) with (pos e) by reflexivity.
  replace (vel (withSpeed sp sl e)) with (vel e) by reflexivity.
  destruct (isInWaterApplyCurrent P world _ (vel e)) as [inWater v].
  match goal with
  | |- context [set_isInLava ?x (set_isInWater ?y (set_vel ?z e))] =>
      replace (set_isInLava x (set_isInWater y (set_vel z (withSpeed sp sl e))))
        with (withSpeed sp sl (set_isInLava x (set_isInWater y (set_vel z e))))
        by reflexivity;
        generalize (set_isInLava x (set_isInWater y (set_vel z e)))
  end.
  intros e0.
  rewrite withSpeed_resetNegligible, withSpeed_handleJump.
  generalize (handleJump Math_sin Math_cos P (resetNegligible P e0) world).
  intros e2.
  replace (control (withSpeed sp sl e2)) with (control e2) by reflexivity.
  match goal with
  | |- context [let '(_, _) := ?c in _] => destruct c as [strafe forward]
  end.
  match goal with
  | |- context [set_elytraFlying ?f (withSpeed sp sl e2)] =>
      replace (set_elytraFlying f (withSpeed sp sl e2))
        with (withSpeed sp sl
                (set_elytraFlying
                   (elytraFlying e2 && elytraEquipped e2 && negb (onGround e2) &&
                    negb (Js.truthy (levitation e2))) e2))
        by reflexivity
  end.
  rewrite withSpeed_fireworkRocket. apply withSpeed_moveEntityWithHeading.
Qed.

(** ** Climbable blocks *)

Lemma facing_neqb_false (a b : option string) : facing_neqb a b = false <-> a = b.
Proof.
  destruct a as [s|], b as [s'|]; simpl; split; intros H;
    try discriminate; try reflexivity.
  - apply negb_false_iff, String.eqb_eq in H. subst. reflexivity.
  - injection H as <-. rewrite String.eqb_refl. reflexivity.
Qed.

Lemma includes_In (l : list Z) (k : Z) : includes l k = true <-> In k l.
Proof.
  unfold includes. rewrite existsb_exists. split.
  - intros (x & Hx & Heq). apply Z.eqb_eq in Heq. subst. exact Hx.
  - intros H. exists k. split; [exact H | apply Z.eqb_refl].
Qed.

(** [isOnLadder] answers [true] exactly for a ladder, for a vine, and, on
    a version with climbable trapdoors, for an open trapdoor above a ladder
    that faces the same way. *)
Theorem isOnLadder_true_iff (P : Closure) (world : World) (p : Vec3.t) :
  isOnLadder P world p = Ok true <->
  exists block,
    getBlock world p = Some block /\
    (type block = ladderId (catalogue P) \/
     type block = vineId (catalogue P) \/
     (supportFeature P "climableTrapdoor" = true /\
      In (type block) (trapdoorIds (catalogue P)) /\
      exists blockBelow,
        getBlock world (Vec3.offset p 0 (-1) 0) = Some blockBelow /\
        type blockBelow = ladderId (catalogue P) /\
        open (getProperties block) = true /\
        facing (getProperties block) = facing (getProperties blockBelow))).
Proof.
  unfold isOnLadder. split.
  - destruct (getBlock world p) as [block|]; [|discriminate].
    intros H. exists block. split; [reflexivity|].
    destruct (type block =? ladderId (catalogue P))%Z eqn:Hl.
    { left. apply Z.eqb_eq. exact Hl. }
    destruct (type block =? vineId (catalogue P))%Z eqn:Hv.
    { right. left. apply Z.eqb_eq. exact Hv. }
    cbn [orb] in H. right. right.
    destruct (supportFeature P "climableTrapdoor"); [|discriminate].
    destruct (includes (trapdoorIds (catalogue P)) (type block)) eqn:Ht;
      [|discriminate].
    cbn [andb] in H. split; [reflexivity|].
    split; [apply includes_In; exact Ht|].
    destruct (getBlock world (Vec3.offset p 0 (-1) 0)) as [blockBelow|];
      [|discriminate].
    exists blockBelow. split; [reflexivity|].
    destruct (type blockBelow =? ladderId (catalogue P))%Z eqn:Hb;
      [|discriminate].
    destruct (open (getProperties block)); [|discriminate].
    destruct (facing_neqb _ _) eqn:Hf; [discriminate|].
    cbn [negb] in H.
    split; [apply Z.eqb_eq; exact Hb|]. split; [reflexivity|].
    apply facing_neqb_false. exact Hf.
  - intros (block & Hb & H). rewrite Hb.
    destruct (type block =? ladderId (catalogue P))%Z eqn:Hl; [reflexivity|].
    destruct (type block =? vineId (catalogue P))%Z eqn:Hv; [reflexivity|].
    cbn [orb].
    destruct H as [H|[H|(Hs & Ht & blockBelow & Hbb & Hlad & Hopen & Hf)]].
    + apply Z.eqb_eq in H. congruence.
    + apply Z.eqb_eq in H. congruence.
    + rewrite Hs. apply includes_In in Ht. rewrite Ht. cbn [andb].
      rewrite Hbb. apply Z.eqb_eq in Hlad. rewrite Hlad, Hopen. cbn [negb].
      apply facing_neqb_false in Hf. rewrite Hf. reflexivity.
Qed.

(** The trapdoor of the examples, above a ladder that faces the same way
    and above one that does not. *)
Example isOnLadder_trapdoor :
  let ladder (f : string) (p : Vec3.t) :=
    mkBlock (Vec3.floored p) 10 0 [] (mkProperties false (Some f) false) "empty" in
  let world (f : string) :=
    mkWorld (fun p => if Vec3.y p <? 10 then Some (ladder f p)
                      else Some (Sample.trapdoor p)) in
  isOnLadder Sample.closure (world "north") (Vec3.mk 0.5 10 0.5) = Ok true /\
  isOnLadder Sample.closure (world "south") (Vec3.mk 0.5 10 0.5) = Ok false.
Proof. split; vm_compute; reflexivity. Qed.

(** ** Cobwebs *)

Lemma existsb_flat_map {A B : Type} (f : B -> bool) (g : A -> list B) (l : list A) :
  existsb f (flat_map g l) = existsb (fun a => existsb f (g a)) l.
Proof.
  induction l as [|a l IH]; simpl; [reflexivity|].
  rewrite existsb_app, IH. reflexivity.
Qed.

Lemma existsb_map {A B : Type} (f : B -> bool) (g : A -> B) (l : list A) :
  existsb f (map g l) = existsb (fun a => f (g a)) l.
Proof.
  induction l as [|a l IH]; simpl; [reflexivity|]. rewrite IH. reflexivity.
Qed.

Lemma existsb_ext_all {A : Type} (f g : A -> bool) (l : list A) :
  (forall a, f a = g a) -> existsb f l = existsb g l.
Proof.
  intros H. induction l as [|a l IH]; simpl; [reflexivity|].
  rewrite H, IH. reflexivity.
Qed.

Section Web.

Variable P : Closure.

(** "Update flags" assigns 0 to a horizontal component or leaves it. *)
Lemma zero_updateFlags (e : Entity) (world : World) (r : Resolved)
  (oldVelX oldVelY oldVelZ : float) :
  (zero_x e -> zero_x (updateFlags P e world r oldVelX oldVelY oldVelZ)) /\
  (zero_z e -> zero_z (updateFlags P e world r oldVelX oldVelY oldVelZ)).
Proof.
  destruct e as [p v g w l web ch cv ef jt jq frd attrs yw pt ctl jb sp sl dg sf lev ds eq].
  unfold updateFlags, zero_x, zero_z. cbv zeta.
  destruct (Js.neqb (r_dx r) oldVelX), (Js.neqb (r_dz r) oldVelZ),
    (Js.neqb (r_dy r) oldVelY);
    try match goal with
        | |- context [if ?b && ?c then _ else _] => destruct (b && c)
        end;
    split; intros H; try exact H; reflexivity.
Qed.

(** The web flag through the block effects: a web at a position of the
    sweep sets it, and nothing clears it. *)
Lemma isInWeb_velocityBlock (b : Block) (e : Entity) :
  isInWeb (velocityBlock P b e) = isInWeb e.
Proof.
  unfold velocityBlock.
  destruct (type b =? soulsandId (catalogue P))%Z;
    [|destruct (type b =? honeyblockId (catalogue P))%Z]; reflexivity.
Qed.

Lemma isInWeb_collideBlock (world : World) (cursor : Vec3.t) (b : Block) (e : Entity) :
  isInWeb (collideBlock P world cursor b e) =
  isInWeb e || (type b =? webId (catalogue P))%Z.
Proof.
  unfold collideBlock, webOrBubble.
  destruct (type b =? webId (catalogue P))%Z.
  - rewrite orb_true_r. reflexivity.
  - rewrite orb_false_r.
    destruct (type b =? bubblecolumnId (catalogue P))%Z;
      [cbv zeta; destruct (metadata b =? 0)%Z|];
      destruct (supportFeature P "velocityBlocksOnCollision");
      cbn [isInWeb set_vel_y set_vel]; try apply isInWeb_velocityBlock; reflexivity.
Qed.

Lemma for_range_flag (lo hi : option Z) (body : Z -> Entity -> Entity)
  (f : Z -> bool) :
  (forall c e, isInWeb (body c e) = isInWeb e || f c) ->
  forall e, isInWeb (for_range lo hi body e) = isInWeb e || existsb f (range lo hi).
Proof.
  intros Hbody. unfold for_range.
  induction (range lo hi) as [|c l IH]; intros e; simpl.
  - rewrite orb_false_r. reflexivity.
  - rewrite IH, Hbody, orb_assoc. reflexivity.
Qed.

Lemma isInWeb_blockCollisions (world : World) (bb : AABB.t) (e : Entity) :
  isInWeb (blockCollisions P world bb e) =
  isInWeb e ||
  existsb (fun c : Z * Z * Z =>
             let '(cx, cy, cz) := c in
             match getBlock world (Vec3.ofZ cx cy cz) with
             | Some b => (type b =? webId (catalogue P))%Z
             | None => false
             end)
          (boxPositions (AABB.contract bb 0.001 0.001 0.001)).
Proof.
  unfold blockCollisions. cbv zeta.
  set (cbb := AABB.contract bb 0.001 0.001 0.001).
  rewrite (for_range_flag _ _ _
    (fun cy => existsb (fun cz => existsb (fun cx =>
       match getBlock world (Vec3.ofZ cx cy cz) with
       | Some b => (type b =? webId (catalogue P))%Z
       | None => false
       end)
       (range (Js.floorZ (AABB.minX cbb)) (Js.floorZ (AABB.maxX cbb))))
       (range (Js.floorZ (AABB.minZ cbb)) (Js.floorZ (AABB.maxZ cbb))))).
  - unfold boxPositions. rewrite existsb_flat_map.
    f_equal. apply existsb_ext_all. intros cy.
    rewrite existsb_flat_map. apply existsb_ext_all. intros cz.
    rewrite existsb_map. reflexivity.
  - intros cy e1. apply for_range_flag. intros cz e2.
    apply for_range_flag. intros cx e3.
    destruct (getBlock world (Vec3.ofZ cx cy cz)) as [b|].
    + apply isInWeb_collideBlock.
    + rewrite orb_false_r. reflexivity.
Qed.

End Web.

(** A move from inside a web leaves no horizontal velocity: the web zeroes
    the velocity on entry, and nothing in the move adds to its horizontal
    components. *)
Lemma moveEntity_web_zero (P : Closure) (ms : string) (wg lg : float)
  (fuel : nat) (e : Entity) (world : World) (dx dy dz : float) (e' : Entity) :
  physics P = constants ms wg lg ->
  isInWeb e = true ->
  moveEntity P fuel e world dx dy dz = Ok e' ->
  Vec3.x (vel e') = 0 /\ Vec3.z (vel e') = 0.
Proof.
  intros HP Hweb.
  unfold moveEntity, enterWeb. rewrite Hweb. cbv iota beta. unfold bind.
  destruct (sneakGuard P fuel _ world _ _) as [[[[dx1 dz1] ox] oz]| |];
    try discriminate.
  intros H. injection H as <-.
  split.
  - apply (zero_blocksOnTop P ms wg lg HP).
    apply (zero_blockCollisions P ms wg lg HP).
    apply zero_updateFlags. reflexivity.
  - apply (zero_blocksOnTop P ms wg lg HP).
    apply (zero_blockCollisions P ms wg lg HP).
    apply zero_updateFlags. reflexivity.
Qed.

(** Zero times the inertia of a block, or of the air, is zero. *)
Lemma zero_inertia (s : float) :
  In s [0.6; 0.8; 0.98; 0.989] -> 0 * (s * 0.91) = 0.
Proof.
  simpl. intros [<-|[<-|[<-|[<-|[]]]]]; reflexivity.
Qed.

(** A tick that starts in a web ends, outside liquids, with no horizontal
    velocity: the move zeroes the velocity that the controls of the tick
    have added to, and the friction after the move scales zero. *)
Theorem simulatePlayer_from_web (Math_sin Math_cos : float -> float)
  (feats : list Feature) (mcData : McData.t) (P : Closure)
  (fuel : nat) (e : Entity) (world : World) (e' : Entity) :
  Physics feats mcData = Ok P ->
  isInWeb e = true ->
  simulatePlayer Math_sin Math_cos P fuel e world = Ok e' ->
  isInWater e' || isInLava e' = false ->
  Vec3.x (vel e') = 0 /\ Vec3.z (vel e') = 0.
Proof.
  intros HP Hweb Htick Hdry.
  pose proof (proj1 (Physics_slipperiness_values feats mcData P HP)) as Hslip.
  apply Physics_constants in HP. destruct HP as (ms & wg & lg & HP).
  destruct (simulatePlayer_inv Math_sin Math_cos P fuel e world e' Htick)
    as (e3 & strafe & forward & Hmove & He3).
  assert (Hweb3 : isInWeb e3 = true) by (rewrite He3; exact Hweb).
  assert (Hdry3 : isInWater e3 || isInLava e3 = false).
  { pose proof (frame_moveEntityWithHeading _ _ _ _ _ _ _ _ _ Hmove) as Hf.
    unfold frame in Hf. injection Hf. intros. congruence. }
  clear He3 Htick Hweb Hdry.
  unfold moveEntityWithHeading in Hmove. rewrite Hdry3 in Hmove.
  destruct (elytraFlying e3).
  - unfold moveWithElytra in Hmove. cbv zeta in Hmove.
    repeat match type of Hmove with
           | context [let '(_, _) := ?c in _] => destruct c
           end.
    unfold bind in Hmove.
    match type of Hmove with
    | context [moveEntity P fuel ?e0 world ?a ?b ?c] =>
        destruct (moveEntity P fuel e0 world a b c) as [em| |] eqn:Hm;
          try discriminate;
          apply (moveEntity_web_zero P ms wg lg) in Hm; [|exact HP|exact Hweb3]
    end.
    destruct (onGround em); injection Hmove as <-; exact Hm.
  - unfold moveNormally in Hmove.
    pose proof (applyHeading_shape Math_sin Math_cos e3 strafe forward) as Ha.
    cbv zeta in Ha.
    match type of Hmove with
    | context [let '(_, _) := ?c in _] =>
        assert (Hin : 0 * snd c = 0);
          [|destruct c as [acceleration inertia]; cbn [snd] in Hin]
    end.
    { destruct (onGround e3); [destruct (getBlock world _) as [b|]|];
        cbn [snd]; rewrite ?HP; cbn [airborneInertia constants];
        try reflexivity.
      apply zero_inertia. apply Hslip. }
    specialize (Ha acceleration).
    remember (applyHeading Math_sin Math_cos e3 strafe forward acceleration)
      as ea eqn:Hea.
    unfold bind in Hmove.
    destruct (isOnLadder P world (pos ea)) as [onLadder| |]; try discriminate.
    match type of Hmove with
    | context [moveEntity P fuel ?e0 world _ _ _] => remember e0 as eb eqn:Heb
    end.
    assert (Hwebb : isInWeb eb = true).
    { rewrite Heb. destruct onLadder; fields; rewrite Ha; exact Hweb3. }
    destruct (moveEntity P fuel eb world _ _ _) as [em| |] eqn:Hm;
      try discriminate.
    apply (moveEntity_web_zero P ms wg lg) in Hm; [|exact HP|exact Hwebb].
    destruct Hm as [Hx Hz].
    destruct (isOnLadder P world (pos em)) as [onLadder'| |]; try discriminate.
    injection Hmove as <-.
    destruct (onLadder' && _), (0 <? levitation _); fields;
      rewrite Hx, Hz, Hin; split; reflexivity.
Qed.

Lemma simulatePlayer_from_web_witness :
  exists e',
    simulatePlayer Sample.noTrig Sample.noTrig Sample.closure 0 Sample.caught
      Sample.webWorld = Ok e' /\
    Vec3.x (vel e') = 0 /\ Vec3.z (vel e') = 0.
Proof.
  destruct (simulatePlayer Sample.noTrig Sample.noTrig Sample.closure 0
              Sample.caught Sample.webWorld) as [e'| |] eqn:H.
  - exists e'. split; [reflexivity|].
    apply (simulatePlayer_from_web Sample.noTrig Sample.noTrig Sample.features
             (Sample.mcData "1.20.1" "1.20") Sample.closure 0 Sample.caught
             Sample.webWorld e' eq_refl eq_refl H).
    vm_compute in H. injection H as <-. reflexivity.
  - vm_compute in H. discriminate.
  - vm_compute in H. discriminate.
Defined.

(** After a move the web flag says whether the entity touches a web where
    it now is.  With [e0] and the deltas that the web slow-down leaves, the
    deltas that the sneak guard leaves and [playerBB] the box that the
    resolution of the collisions gives: the position is taken from
    [playerBB], and the flag is set exactly when a position of the sweep of
    [playerBB] contracted by 0.001 holds a web.  The flag the entity came
    with plays no part. *)
Theorem moveEntity_web_flag (P : Closure) (fuel : nat) (e : Entity)
  (world : World) (dx dy dz : float) (e' : Entity)
  (e0 : Entity) (dx0 dy0 dz0 dx1 dz1 oldVelX oldVelZ : float) :
  moveEntity P fuel e world dx dy dz = Ok e' ->
  enterWeb e dx dy dz = (e0, (dx0, dy0, dz0)) ->
  sneakGuard P fuel e0 world dx0 dz0 = Ok (dx1, dz1, oldVelX, oldVelZ) ->
  let playerBB := r_playerBB (resolve P e0 world dx1 dy0 dz1 oldVelX dy0 oldVelZ) in
  pos e' = setPositionToBB P playerBB /\
  (isInWeb e' = true <->
   exists cx cy cz block,
     In (cx, cy, cz) (boxPositions (AABB.contract playerBB 0.001 0.001 0.001)) /\
     getBlock world (Vec3.ofZ cx cy cz) = Some block /\
     type block = webId (catalogue P)).
Proof.
  unfold moveEntity. intros H Hweb0 Hguard.
  assert (Hweb : isInWeb e0 = false).
  { unfold enterWeb in Hweb0.
    destruct (isInWeb e) eqn:Hw; injection Hweb0 as <- _ _ _;
      [reflexivity | exact Hw]. }
  rewrite Hweb0 in H. rewrite Hguard in H. cbn [bind] in H.
  injection H as <-.
  set (r := resolve P e0 world dx1 dy0 dz1 oldVelX dy0 oldVelZ).
  set (flagged := updateFlags P e0 world r oldVelX dy0 oldVelZ).
  cbv zeta.
  pose proof (updateFlags_shape P e0 world r oldVelX dy0 oldVelZ) as Hu.
  cbv zeta in Hu. fold flagged in Hu.
  pose proof (blockCollisions_touched P world (r_playerBB r) flagged) as Hb.
  pose proof (blocksOnTop_touched P world
                (blockCollisions P world (r_playerBB r) flagged)) as Ht.
  unfold touched in Hb, Ht.
  split.
  - rewrite Ht, Hb, Hu. reflexivity.
  - assert (Hflag : isInWeb (blocksOnTop P world
                               (blockCollisions P world (r_playerBB r) flagged)) =
                    isInWeb (blockCollisions P world (r_playerBB r) flagged)).
    { unfold blocksOnTop.
      destruct (supportFeature P "velocityBlocksOnTop"); [|reflexivity].
      destruct (getBlock world _); [apply isInWeb_velocityBlock | reflexivity]. }
    rewrite Hflag, isInWeb_blockCollisions.
    assert (Hf : isInWeb flagged = false) by (rewrite Hu; exact Hweb).
    rewrite Hf. cbn [orb]. rewrite existsb_exists. split.
    + intros ([[cx cy] cz] & Hin & Hc).
      destruct (getBlock world (Vec3.ofZ cx cy cz)) as [block|] eqn:Hblock;
        [|discriminate].
      exists cx, cy, cz, block. split; [exact Hin|]. split; [exact Hblock|].
      apply Z.eqb_eq. exact Hc.
    + intros (cx & cy & cz & block & Hin & Hblock & Hty).
      exists (cx, cy, cz). split; [exact Hin|]. rewrite Hblock.
      apply Z.eqb_eq. exact Hty.
Qed.

Lemma moveEntity_web_flag_witness :
  exists e',
    moveEntity Sample.closure 0 Sample.caught Sample.webWorld 0.2 (-0.1) 0.1 = Ok e' /\
    pos e' = Vec3.mk 0.55 64.495 0.525 /\
    isInWeb e' = true /\
    exists cx cy cz block,
      In (cx, cy, cz)
        (boxPositions
           (AABB.contract
              (r_playerBB
                 (resolve Sample.closure
                    (set_isInWeb false (set_vel (Vec3.mk 0 0 0) Sample.caught))
                    Sample.webWorld (0.2 * 0.25) (-0.1 * 0.05) (0.1 * 0.25)
                    (0.2 * 0.25) (-0.1 * 0.05) (0.1 * 0.25)))
              0.001 0.001 0.001)) /\
      getBlock Sample.webWorld (Vec3.ofZ cx cy cz) = Some block /\
      type block = webId (catalogue Sample.closure).
Proof.
  destruct (moveEntity Sample.closure 0 Sample.caught Sample.webWorld 0.2 (-0.1) 0.1)
    as [e'| |] eqn:H.
  - exists e'.
    assert (Hflag : isInWeb e' = true)
      by (vm_compute in H; injection H as <-; reflexivity).
    assert (Hpos : pos e' = Vec3.mk 0.55 64.495 0.525)
      by (vm_compute in H; injection H as <-; vm_compute; reflexivity).
    split; [reflexivity|]. split; [exact Hpos|]. split; [exact Hflag|].
    assert (Hguard :
      sneakGuard Sample.closure 0
        (set_isInWeb false (set_vel (Vec3.mk 0 0 0) Sample.caught))
        Sample.webWorld (0.2 * 0.25) (0.1 * 0.25) =
      Ok (0.2 * 0.25, 0.1 * 0.25, 0.2 * 0.25, 0.1 * 0.25)) by reflexivity.
    destruct (moveEntity_web_flag Sample.closure 0 Sample.caught Sample.webWorld
                0.2 (-0.1) 0.1 e'
                (set_isInWeb false (set_vel (Vec3.mk 0 0 0) Sample.caught))
                (0.2 * 0.25) (-0.1 * 0.05) (0.1 * 0.25)
                (0.2 * 0.25) (0.1 * 0.25) (0.2 * 0.25) (0.1 * 0.25)
                H eq_refl Hguard) as [_ Hiff].
    apply Hiff. exact Hflag.
  - vm_compute in H. discriminate.
  - vm_compute in H. discriminate.
Defined.

(** ** The sneak edge-guard *)

(** NaN is absorbing. *)
Lemma add_nan_r (a : float) : a + nan = nan.
Proof. apply Prim2SF_inj. rewrite add_spec. destruct (Prim2SF a); reflexivity. Qed.

Lemma add_nan_l (a : float) : nan + a = nan.
Proof. apply Prim2SF_inj. rewrite add_spec. reflexivity. Qed.

Lemma sub_nan_l (a : float) : nan - a = nan.
Proof. apply Prim2SF_inj. rewrite sub_spec. reflexivity. Qed.

Lemma ltb_nan_l (a : float) : (nan <? a) = false.
Proof. rewrite ltb_spec. reflexivity. Qed.

Section Sneak.

Variable Math_sin Math_cos : float -> float.
Variable P : Closure.

(** A box with a NaN bound on X has an empty sweep: the innermost loop
    does not start. *)
Lemma getSurroundingBBs_nan (world : World) (bb : AABB.t) :
  AABB.minX bb = nan -> getSurroundingBBs world bb = [].
Proof.
  intros H. unfold getSurroundingBBs. rewrite H.
  apply for_range_unchanged. intros cy a.
  apply for_range_unchanged. intros cz a'. reflexivity.
Qed.

Lemma sneakX_nan (fuel : nat) (world : World) (p : Vec3.t) (oldVelX : float) :
  sneakX P fuel world p nan oldVelX = OutOfFuel.
Proof.
  revert oldVelX. induction fuel as [|fuel IH]; intros oldVelX; cbn [sneakX];
    rewrite getSurroundingBBs_nan by apply add_nan_r;
    change (Js.neqb nan 0) with true; cbn [andb isEmpty]; [reflexivity|].
  change (shrink nan) with nan. apply IH.
Qed.

(** With a NaN delta on X, the guard of a player who sneaks on the ground
    never finishes its first loop. *)
Lemma moveEntity_nan (fuel : nat) (e : Entity) (world : World) (dy dz : float) :
  Control.sneak (control e) = true -> onGround e = true ->
  moveEntity P fuel e world nan dy dz = OutOfFuel.
Proof.
  intros Hs Hg. unfold moveEntity, enterWeb, sneakGuard.
  destruct (isInWeb e); cbv iota beta;
    cbn [control onGround pos set_isInWeb set_vel]; rewrite Hs, Hg; cbn [andb];
    [change (nan * 0.25) with nan|]; rewrite sneakX_nan; reflexivity.
Qed.

(** A NaN [vel.x] stays NaN through the steps of a tick before the move. *)
Lemma nanx_isInWaterApplyCurrent (world : World) (bb : AABB.t) (v : Vec3.t) :
  Vec3.x v = nan -> Vec3.x (snd (isInWaterApplyCurrent P world bb v)) = nan.
Proof.
  intros H. unfold isInWaterApplyCurrent. cbv zeta.
  destruct (0 <? _); cbn [snd Vec3.x]; rewrite H; [apply add_nan_l | reflexivity].
Qed.

Lemma nanx_resetNegligible (e : Entity) :
  Vec3.x (vel e) = nan -> Vec3.x (vel (resetNegligible P e)) = nan.
Proof.
  intros H. unfold resetNegligible. cbv zeta. rewrite H.
  change (Js.Math_abs nan) with nan. rewrite ltb_nan_l.
  destruct (_ <? _); destruct (_ <? _); exact H.
Qed.

Lemma nanx_handleJump (e : Entity) (world : World) :
  Vec3.x (vel e) = nan ->
  Vec3.x (vel (handleJump Math_sin Math_cos P e world)) = nan.
Proof.
  intros H. unfold handleJump. cbv zeta.
  destruct e as [p v g w l web ch cv ef jt jq frd attrs yw pt ctl jb sp sl dg sf lev ds eq].
  cbn [vel] in H.
  repeat match goal with
         | |- context [if ?b then _ else _] => destruct b
         | |- context [match ?o with Some _ => _ | None => _ end] => destruct o
         end;
    cbn [vel Vec3.x set_jumpQueued set_jumpTicks set_vel_x set_vel_y set_vel_z
         set_vel];
    rewrite ?H; try apply sub_nan_l; reflexivity.
Qed.

Lemma nanx_fireworkRocket (e : Entity) :
  Vec3.x (vel e) = nan ->
  Vec3.x (vel (fireworkRocket Math_sin Math_cos e)) = nan.
Proof.
  intros H. unfold fireworkRocket. cbv zeta.
  destruct (0 <? fireworkRocketDuration e)%Z; [|exact H].
  destruct (negb (elytraFlying e)); [exact H|].
  cbn [vel Vec3.x set_fireworkRocketDuration set_vel]. rewrite H. apply add_nan_l.
Qed.

Lemma nanx_applyHeading (e : Entity) (strafe forward multiplier : float) :
  Vec3.x (vel e) = nan ->
  Vec3.x (vel (applyHeading Math_sin Math_cos e strafe forward multiplier)) = nan.
Proof.
  intros H. unfold applyHeading. cbv zeta.
  destruct (_ <? 0.01); [exact H|].
  cbn [vel Vec3.x set_vel_x set_vel_z set_vel]. rewrite H. apply sub_nan_l.
Qed.

Lemma mul_nan_l (a : float) : nan * a = nan.
Proof. apply Prim2SF_inj. rewrite mul_spec. reflexivity. Qed.

Lemma clamp_nan (lo hi : float) : clamp lo nan hi = nan.
Proof.
  unfold clamp, Js.Math_min, Js.Math_max.
  change (is_nan nan) with true. cbn [orb]. change (is_nan nan) with true.
  rewrite orb_true_r. reflexivity.
Qed.

Lemma isOnLadder_error (world : World) (p : Vec3.t) (err : JsError) :
  isOnLadder P world p = Throw err -> err = TypeError.
Proof.
  unfold isOnLadder.
  destruct (getBlock world p) as [b|]; [|discriminate].
  destruct (_ || _); [discriminate|].
  destruct (_ && _); [|discriminate].
  destruct (getBlock world _) as [b'|]; [|intros H; injection H as <-; reflexivity].
  destruct (negb _); [discriminate|].
  destruct (negb _); [discriminate|].
  destruct (facing_neqb _ _); discriminate.
Qed.

Lemma moveEntityWithHeading_nan (fuel : nat) (e : Entity) (world : World)
  (strafe forward : float) :
  Vec3.x (vel e) = nan ->
  Control.sneak (control e) = true -> onGround e = true ->
  moveEntityWithHeading Math_sin Math_cos P fuel e world strafe forward = OutOfFuel \/
  moveEntityWithHeading Math_sin Math_cos P fuel e world strafe forward =
  Throw TypeError.
Proof.
  intros Hx Hs Hg. unfold moveEntityWithHeading.
  destruct (isInWater e || isInLava e); [|destruct (elytraFlying e)].
  - unfold moveInLiquid. destruct (liquidHeading P e) as [hi acc].
    pose proof (applyHeading_shape Math_sin Math_cos e strafe forward acc) as Ha.
    cbv zeta in Ha.
    pose proof (nanx_applyHeading e strafe forward acc Hx) as Hn.
    remember (applyHeading Math_sin Math_cos e strafe forward acc) as ea eqn:Hea.
    rewrite Hn, moveEntity_nan; [left; reflexivity | |];
      rewrite Ha; assumption.
  - unfold moveWithElytra. cbv zeta. rewrite Hx.
    repeat match goal with
           | |- context [if ?b then _ else _] => destruct b
           end;
      cbv iota beta; cbn [vel Vec3.x set_vel];
      rewrite ?add_nan_l, mul_nan_l, moveEntity_nan; try assumption;
      left; reflexivity.
  - unfold moveNormally.
    match goal with
    | |- context [let '(_, _) := ?c in _] => destruct c as [acceleration inertia]
    end.
    pose proof (applyHeading_shape Math_sin Math_cos e strafe forward acceleration)
      as Ha. cbv zeta in Ha.
    pose proof (nanx_applyHeading e strafe forward acceleration Hx) as Hn.
    remember (applyHeading Math_sin Math_cos e strafe forward acceleration)
      as ea eqn:Hea.
    assert (Hsa : Control.sneak (control ea) = true) by (rewrite Ha; exact Hs).
    assert (Hga : onGround ea = true) by (rewrite Ha; exact Hg).
    destruct (isOnLadder P world (pos ea)) as [onLadder|err|] eqn:Hl; cbn [bind].
    + destruct onLadder.
      * cbn [vel Vec3.x set_vel_x set_vel_y set_vel_z set_vel]. rewrite Hn, clamp_nan.
        rewrite moveEntity_nan; [left; reflexivity | |]; assumption.
      * rewrite Hn, moveEntity_nan; [left; reflexivity | |]; assumption.
    + right. apply isOnLadder_error in Hl. rewrite Hl. reflexivity.
    + left. reflexivity.
Qed.

End Sneak.

(** A player who sneaks on the ground with a NaN [vel.x] hangs the
    simulator: the velocity stays NaN up to the move, the sweep of the
    guard along X is then empty whatever the world holds, and its loop
    leaves the delta NaN.  The tick does not return; at most the ladder
    test raises before the move. *)
Theorem simulatePlayer_NaN_sneak_hangs (Math_sin Math_cos : float -> float)
  (P : Closure) (fuel : nat) (e : Entity) (world : World) :
  Vec3.x (vel e) = nan ->
  Control.sneak (control e) = true ->
  onGround e = true ->
  simulatePlayer Math_sin Math_cos P fuel e world = OutOfFuel \/
  simulatePlayer Math_sin Math_cos P fuel e world = Throw TypeError.
Proof.
  intros Hx Hs Hg. unfold simulatePlayer. cbv zeta.
  pose proof (nanx_isInWaterApplyCurrent P world
                (AABB.contract (getPlayerBB P (pos e)) 0.001 0.401 0.001) (vel e) Hx)
    as Hw.
  destruct (isInWaterApplyCurrent P world _ (vel e)) as [inWater v].
  cbn [snd] in Hw.
  match goal with
  | |- context [handleJump Math_sin Math_cos P (resetNegligible P ?e0) world] =>
      assert (H0 : Vec3.x (vel e0) = nan) by exact Hw;
        assert (Hs0 : Control.sneak (control e0) = true) by exact Hs;
        assert (Hg0 : onGround e0 = true) by exact Hg;
        pose proof (resetNegligible_shape P e0) as Hr;
        pose proof (nanx_resetNegligible P e0 H0) as H1;
        remember (resetNegligible P e0) as e1 eqn:He1;
        pose proof (handleJump_shape Math_sin Math_cos P e1 world) as Hj;
        cbv zeta in Hj;
        pose proof (nanx_handleJump Math_sin Math_cos P e1 world H1) as H2;
        remember (handleJump Math_sin Math_cos P e1 world) as e2 eqn:He2
  end.
  assert (Hs2 : Control.sneak (control e2) = true).
  { rewrite Hj, Hr. exact Hs0. }
  assert (Hg2 : onGround e2 = true).
  { rewrite Hj, Hr. exact Hg0. }
  match goal with
  | |- context [let '(_, _) := ?c in _] => destruct c as [strafe forward]
  end.
  match goal with
  | |- context [fireworkRocket Math_sin Math_cos ?e0] =>
      pose proof (fireworkRocket_shape Math_sin Math_cos e0) as Hf; cbv zeta in Hf;
        assert (H3 : Vec3.x (vel (fireworkRocket Math_sin Math_cos e0)) = nan)
          by (apply nanx_fireworkRocket; exact H2);
        remember (fireworkRocket Math_sin Math_cos e0) as e3 eqn:He3
  end.
  apply (moveEntityWithHeading_nan Math_sin Math_cos P fuel e3 world strafe forward H3);
    rewrite Hf; assumption.
Qed.

Lemma simulatePlayer_NaN_sneak_hangs_witness :
  simulatePlayer Sample.noTrig Sample.noTrig Sample.closure 1000
    (Sample.player (Vec3.mk 0.5 64 0.5) (Vec3.mk nan 0 0) true
       (Control.mk false false false false false false true))
    Sample.flatWorld = OutOfFuel \/
  simulatePlayer Sample.noTrig Sample.noTrig Sample.closure 1000
    (Sample.player (Vec3.mk 0.5 64 0.5) (Vec3.mk nan 0 0) true
       (Control.mk false false false false false false true))
    Sample.flatWorld = Throw TypeError.
Proof.
  apply (simulatePlayer_NaN_sneak_hangs Sample.noTrig Sample.noTrig Sample.closure
           1000
           (Sample.player (Vec3.mk 0.5 64 0.5) (Vec3.mk nan 0 0) true
              (Control.mk false false false false false false true))
           Sample.flatWorld); reflexivity.
Defined.

(** ** Moves without a collision *)

Lemma sneakX_post (P : Closure) (fuel : nat) (world : World) (p : Vec3.t)
  (dx dx1 ox : float) :
  sneakX P fuel world p dx dx = Ok (dx1, ox) ->
  ox = dx1 /\
  Js.neqb dx1 0 &&
  isEmpty (getSurroundingBBs world (AABB.offset (getPlayerBB P p) dx1 0 0)) = false.
Proof.
  revert dx. induction fuel as [|fuel IH]; intros dx; cbn [sneakX];
    destruct (Js.neqb dx 0 &&
              isEmpty (getSurroundingBBs world (AABB.offset (getPlayerBB P p) dx 0 0)))
      eqn:Hc; try discriminate.
  - intros H. injection H as <- <-. split; [reflexivity | exact Hc].
  - apply IH.
  - intros H. injection H as <- <-. split; [reflexivity | exact Hc].
Qed.

Lemma sneakZ_post (P : Closure) (fuel : nat) (world : World) (p : Vec3.t)
  (dz dz1 oz : float) :
  sneakZ P fuel world p dz dz = Ok (dz1, oz) ->
  oz = dz1 /\
  Js.neqb dz1 0 &&
  isEmpty (getSurroundingBBs world (AABB.offset (getPlayerBB P p) 0 0 dz1)) = false.
Proof.
  revert dz. induction fuel as [|fuel IH]; intros dz; cbn [sneakZ];
    destruct (Js.neqb dz 0 &&
              isEmpty (getSurroundingBBs world (AABB.offset (getPlayerBB P p) 0 0 dz)))
      eqn:Hc; try discriminate.
  - intros H. injection H as <- <-. split; [reflexivity | exact Hc].
  - apply IH.
  - intros H. injection H as <- <-. split; [reflexivity | exact Hc].
Qed.

Lemma sneakXZ_post (P : Closure) (fuel : nat) (world : World) (p : Vec3.t)
  (dx dz dx1 dz1 ox oz : float) :
  sneakXZ P fuel world p dx dz dx dz = Ok (dx1, dz1, ox, oz) ->
  ox = dx1 /\ oz = dz1 /\
  Js.neqb dx1 0 && Js.neqb dz1 0 &&
  isEmpty (getSurroundingBBs world (AABB.offset (getPlayerBB P p) dx1 0 dz1)) = false.
Proof.
  revert dx dz. induction fuel as [|fuel IH]; intros dx dz; cbn [sneakXZ];
    destruct (Js.neqb dx 0 && Js.neqb dz 0 &&
              isEmpty (getSurroundingBBs world
                         (AABB.offset (getPlayerBB P p) dx 0 dz)))
      eqn:Hc; try discriminate.
  - intros H. injection H as <- <- <- <-. repeat split; exact Hc.
  - apply IH.
  - intros H. injection H as <- <- <- <-. repeat split; exact Hc.
Qed.

(** The deltas that leave the sneak guard.  The values kept as [oldVelX]
    and [oldVelZ] are those deltas, so what the guard takes off a move does
    not count as a collision.  For a player who sneaks on the ground they
    are such that one of them is zero or the box moved by both has a block
    box in its sweep; for any other player they are the deltas that
    entered. *)
Theorem sneakGuard_post (P : Closure) (fuel : nat) (e : Entity) (world : World)
  (dx dz dx1 dz1 oldVelX oldVelZ : float) :
  sneakGuard P fuel e world dx dz = Ok (dx1, dz1, oldVelX, oldVelZ) ->
  oldVelX = dx1 /\ oldVelZ = dz1 /\
  (if Control.sneak (control e) && onGround e
   then Js.neqb dx1 0 && Js.neqb dz1 0 = true ->
        getSurroundingBBs world (AABB.offset (getPlayerBB P (pos e)) dx1 0 dz1) <> []
   else dx1 = dx /\ dz1 = dz).
Proof.
  unfold sneakGuard.
  destruct (Control.sneak (control e) && onGround e).
  - unfold bind.
    destruct (sneakX P fuel world (pos e) dx dx) as [[dx' ox]| |] eqn:Hx;
      try discriminate.
    apply sneakX_post in Hx. destruct Hx as [-> _].
    destruct (sneakZ P fuel world (pos e) dz dz) as [[dz' oz]| |] eqn:Hz;
      try discriminate.
    apply sneakZ_post in Hz. destruct Hz as [-> _].
    intros H. apply sneakXZ_post in H. destruct H as (-> & -> & H).
    split; [reflexivity|]. split; [reflexivity|].
    intros Hnz. rewrite Hnz in H. cbn [andb] in H.
    intros Hnil. rewrite Hnil in H. discriminate.
  - intros H. injection H as <- <- <- <-. repeat split.
Qed.

Lemma sneakGuard_post_witness :
  sneakGuard Sample.closure 10 Sample.sneaker Sample.cornerWorld 0.5 0.5 =
  Ok (0.35000000000000003, 0.35000000000000003,
      0.35000000000000003, 0.35000000000000003) /\
  getSurroundingBBs Sample.cornerWorld
    (AABB.offset (getPlayerBB Sample.closure (pos Sample.sneaker))
       0.35000000000000003 0 0.35000000000000003) <> [] /\
  getSurroundingBBs Sample.cornerWorld
    (AABB.offset (getPlayerBB Sample.closure (pos Sample.sneaker)) 0.5 0 0.5) = [].
Proof.
  assert (H : sneakGuard Sample.closure 10 Sample.sneaker Sample.cornerWorld 0.5 0.5 =
              Ok (0.35000000000000003, 0.35000000000000003,
                  0.35000000000000003, 0.35000000000000003))
    by (vm_compute; reflexivity).
  split; [exact H|]. split; [|vm_compute; reflexivity].
  destruct (sneakGuard_post Sample.closure 10 Sample.sneaker Sample.cornerWorld
              0.5 0.5 0.35000000000000003 0.35000000000000003
              0.35000000000000003 0.35000000000000003 H) as (_ & _ & Hpost).
  change (Control.sneak (control Sample.sneaker) && onGround Sample.sneaker)
    with true in Hpost.
  cbv iota in Hpost. apply Hpost. vm_compute. reflexivity.
Defined.

(** The sneaking player at the corner asks for a move of 0.5 along both
    axes, which would leave it over the hole; the guard cuts both deltas to
    0.35, and the move that follows is not a collision. *)
Example sneaker_at_the_corner :
  exists e',
    moveEntity Sample.closure 10 Sample.sneaker Sample.cornerWorld 0.5 0 0.5 = Ok e' /\
    pos e' = Vec3.mk 1.2500000000000002 64 1.2500000000000002 /\
    isCollidedHorizontally e' = false.
Proof. eexists. split; [vm_compute; reflexivity|]. split; reflexivity. Qed.

Lemma moveEntity_air (P : Closure) (fuel : nat) (e : Entity)
  (world : World) (dx dy dz : float) :
  (forall p, getBlock world p = None) ->
  isInWeb e = false ->
  Control.sneak (control e) && onGround e = false ->
  (dx =? dx) = true -> (dy =? dy) = true -> (dz =? dz) = true ->
  moveEntity P fuel e world dx dy dz =
  Ok (set_onGround false
        (set_isCollidedVertically false
           (set_isCollidedHorizontally false
              (set_pos
                 (setPositionToBB P
                    (AABB.offset
                       (AABB.offset
                          (AABB.offset (getPlayerBB P (pos e)) 0 dy 0) dx 0 0)
                       0 0 dz))
                 e)))).
Proof.
  intros Hw Hweb Hs Hx Hy Hz.
  unfold moveEntity, enterWeb, sneakGuard. rewrite Hweb. cbv iota beta.
  rewrite Hs. cbn [bind].
  rewrite (blocksOnTop_empty P world Hw), (blockCollisions_empty P world Hw).
  unfold resolve. rewrite (getSurroundingBBs_empty world Hw).
  unfold sweepY, sweepX, sweepZ, AABB.clone. cbn [fold_left].
  unfold Js.neqb. rewrite Hx, Hy, Hz. cbn [negb orb andb].
  rewrite andb_false_r.
  unfold updateFlags. cbv zeta. cbn [r_dx r_dy r_dz r_playerBB].
  unfold Js.neqb. rewrite Hx, Hy, Hz. cbn [negb orb andb].
  destruct e; reflexivity.
Qed.

(** A move through a world without blocks, by a player the guard does not
    hold and who is not in a web, with deltas that are numbers and boxes
    with finite bounds: the box is translated by the deltas, along Y, then
    X, then Z, the position is taken from it, and the three collision flags
    are cleared.  The velocity is left as it was. *)
Theorem moveEntity_through_air (P : Closure) (fuel : nat) (e : Entity)
  (world : World) (dx dy dz : float) :
  (forall p, getBlock world p = None) ->
  sweepable (AABB.extend (getPlayerBB P (pos e)) dx dy dz) = true ->
  sweepable
    (AABB.contract
       (AABB.offset (AABB.offset (AABB.offset (getPlayerBB P (pos e)) 0 dy 0) dx 0 0)
          0 0 dz)
       0.001 0.001 0.001) = true ->
  isInWeb e = false ->
  Control.sneak (control e) && onGround e = false ->
  (dx =? dx) = true -> (dy =? dy) = true -> (dz =? dz) = true ->
  moveEntity P fuel e world dx dy dz =
  Ok (set_onGround false
        (set_isCollidedVertically false
           (set_isCollidedHorizontally false
              (set_pos
                 (setPositionToBB P
                    (AABB.offset
                       (AABB.offset
                          (AABB.offset (getPlayerBB P (pos e)) 0 dy 0) dx 0 0)
                       0 0 dz))
                 e)))).
Proof. intros Hw _ _. apply moveEntity_air. exact Hw. Qed.

Lemma moveEntity_through_air_witness :
  moveEntity Sample.closure 0
    (Sample.player (Vec3.mk 0 10 0) (Vec3.mk 0 (-0.5) 0.1) false Sample.noControl)
    Sample.emptyWorld 0 (-0.5) 0.1 =
  Ok (Sample.player (Vec3.mk 0 9.5 0.1) (Vec3.mk 0 (-0.5) 0.1) false Sample.noControl).
Proof.
  rewrite (moveEntity_through_air Sample.closure 0
             (Sample.player (Vec3.mk 0 10 0) (Vec3.mk 0 (-0.5) 0.1) false
                Sample.noControl)
             Sample.emptyWorld 0 (-0.5) 0.1); try reflexivity;
    vm_compute; reflexivity.
Defined.

(** The position is taken from the box, so a move by (0, 0, 0) can still
    change it: (0.05 - 0.3) + 0.3 is not 0.05. *)
Example moveEntity_rest_drifts :
  exists e',
    moveEntity Sample.closure 0
      (Sample.player (Vec3.mk 0.05 10 0) (Vec3.mk 0 0 0) false Sample.noControl)
      Sample.emptyWorld 0 0 0 = Ok e' /\
    (Vec3.x (pos e') =? 0.05) = false.
Proof. eexists. split; vm_compute; reflexivity. Qed.

(** ** Free flight *)

Lemma handleJump_idle (Math_sin Math_cos : float -> float) (P : Closure)
  (e : Entity) (world : World) :
  Control.jump (control e) = false ->
  jumpQueued e = false ->
  handleJump Math_sin Math_cos P e world =
  set_jumpQueued false (set_jumpTicks 0%Z e).
Proof. intros Hj Hq. unfold handleJump. rewrite Hj, Hq. reflexivity. Qed.

Lemma fireworkRocket_grounded (Math_sin Math_cos : float -> float) (e : Entity) :
  elytraFlying e = false ->
  fireworkRocket Math_sin Math_cos e =
  set_fireworkRocketDuration
    (if (0 <? fireworkRocketDuration e)%Z then 0%Z else fireworkRocketDuration e) e.
Proof.
  intros Hf. unfold fireworkRocket. rewrite Hf. cbn [negb].
  destruct (0 <? fireworkRocketDuration e)%Z; [reflexivity|].
  destruct e; reflexivity.
Qed.

Lemma resetNegligible_liquid (P : Closure) (e : Entity) (w l : bool) :
  resetNegligible P (set_isInLava l (set_isInWater w e)) =
  set_isInLava l (set_isInWater w (resetNegligible P e)).
Proof.
  unfold resetNegligible. cbv zeta.
  destruct e as [p v0 g0 w0 l0 web ch0 cv0 ef jt jq frd attrs yw pt ctl jb sp0
                 sl0 dg sf lev ds eq].
  innermost_cases.
Qed.

Lemma moveNormally_air (Math_sin Math_cos : float -> float) (P : Closure)
  (fuel : nat) (e : Entity) (world : World) (strafe forward gm : float) :
  (forall p, getBlock world p = None) ->
  (Js.Math_sqrt (strafe * strafe + forward * forward) <? 0.01) = true ->
  Control.sneak (control e) && onGround e = false ->
  isInWeb e = false ->
  (0 <? levitation e) = false ->
  (Vec3.x (vel e) =? Vec3.x (vel e)) = true ->
  (Vec3.y (vel e) =? Vec3.y (vel e)) = true ->
  (Vec3.z (vel e) =? Vec3.z (vel e)) = true ->
  moveNormally Math_sin Math_cos P fuel e world strafe forward gm =
  Ok (set_vel
        (Vec3.mk (Vec3.x (vel e) * airborneInertia (physics P))
                 ((Vec3.y (vel e) - gravity (physics P) * gm) * airdrag (physics P))
                 (Vec3.z (vel e) * airborneInertia (physics P)))
        (set_onGround false
           (set_isCollidedVertically false
              (set_isCollidedHorizontally false
                 (set_pos
                    (setPositionToBB P
                       (AABB.offset
                          (AABB.offset
                             (AABB.offset (getPlayerBB P (pos e)) 0 (Vec3.y (vel e)) 0)
                             (Vec3.x (vel e)) 0 0)
                          0 0 (Vec3.z (vel e))))
                    e))))).
Proof.
  intros Hw Hs Hg Hweb Hlev Hx Hy Hz.
  unfold moveNormally. rewrite Hw.
  replace (if onGround e then @None Block else None) with (@None Block)
    by (destruct (onGround e); reflexivity).
  cbv iota beta zeta.
  unfold applyHeading. cbv zeta. rewrite Hs.
  rewrite (isOnLadder_empty P world Hw). cbn [bind].
  rewrite (moveEntity_air P fuel e world _ _ _ Hw Hweb Hg Hx Hy Hz).
  cbn [bind]. fields.
  rewrite (isOnLadder_empty P world Hw). cbn [bind andb]. fields.
  rewrite Hlev.
  destruct e; reflexivity.
Qed.

(** The law of free flight.  In a world without blocks, a player who holds
    no control, has no jump queued, does not fly or levitate and is not in
    a web moves by the velocity [v] it has once the negligible components
    are reset, and leaves the tick with that velocity scaled by 0.91 on X
    and Z and, on Y, reduced by the gravity 0.08 (by an eighth of it when it
    falls slowly) and scaled by fround(0.98); it is off the ground and has
    collided with nothing.  The boxes the tick sweeps have finite bounds. *)
Theorem free_flight_tick (Math_sin Math_cos : float -> float)
  (feats : list Feature) (mcData : McData.t) (P : Closure)
  (fuel : nat) (e : Entity) (world : World) :
  Physics feats mcData = Ok P ->
  (forall p, getBlock world p = None) ->
  control e = Sample.noControl ->
  jumpQueued e = false ->
  elytraFlying e = false ->
  isInWeb e = false ->
  (0 <? levitation e) = false ->
  let v := vel (resetNegligible P e) in
  let g := if (Vec3.y v <=? 0) && (0 <? slowFalling e) then 0.125 else 1 in
  (Vec3.x v =? Vec3.x v) = true ->
  (Vec3.y v =? Vec3.y v) = true ->
  (Vec3.z v =? Vec3.z v) = true ->
  sweepable (waterBB P e) = true ->
  sweepable (lavaBB P e) = true ->
  let bb :=
    AABB.offset
      (AABB.offset (AABB.offset (getPlayerBB P (pos e)) 0 (Vec3.y v) 0) (Vec3.x v) 0 0)
      0 0 (Vec3.z v) in
  sweepable (AABB.extend (getPlayerBB P (pos e)) (Vec3.x v) (Vec3.y v) (Vec3.z v))
  = true ->
  sweepable (AABB.contract bb 0.001 0.001 0.001) = true ->
  exists e',
    simulatePlayer Math_sin Math_cos P fuel e world = Ok e' /\
    pos e' = setPositionToBB P bb /\
    vel e' =
      Vec3.mk (Vec3.x v * 0.91)
              ((Vec3.y v - 0.08 * g) * Js.Math_fround (1 - 0.02))
              (Vec3.z v * 0.91) /\
    onGround e' = false /\
    isCollidedHorizontally e' = false /\
    isCollidedVertically e' = false.
Proof.
  intros HP Hw Hc Hq Hf Hweb Hlev v g Hx Hy Hz _ _ bb _ _. subst bb.
  apply Physics_constants in HP. destruct HP as (ms & wg & lg & HP).
  assert (Hr : resetNegligible P e = set_vel v e)
    by exact (resetNegligible_shape P e).
  assert (Hg : g = if (Vec3.y v <=? 0) && (0 <? slowFalling e)
                   then slowFalling_ (physics P) else 1)
    by (rewrite HP; reflexivity).
  clearbody g. clearbody v.
  unfold simulatePlayer. cbv zeta.
  rewrite (isInWaterApplyCurrent_empty P world Hw).
  rewrite (isMaterialInBB_empty world Hw).
  rewrite resetNegligible_liquid.
  replace (set_vel (vel e) e) with e by (destruct e; reflexivity).
  rewrite Hr.
  rewrite handleJump_idle; fields; [|rewrite Hc; reflexivity|exact Hq].
  rewrite Hf, Hc. cbn [andb Control.sneak Sample.noControl].
  rewrite fireworkRocket_grounded; [|reflexivity]. fields.
  unfold moveEntityWithHeading, gravityMultiplier. fields. cbn [orb].
  rewrite moveNormally_air; fields;
    [|exact Hw|vm_compute; reflexivity|rewrite Hc; reflexivity|exact Hweb
     |exact Hlev|exact Hx|exact Hy|exact Hz].
  rewrite <- Hg, HP.
  eexists. split; [reflexivity|].
  fields. repeat split.
Qed.

Lemma free_flight_tick_witness :
  exists e',
    simulatePlayer Sample.noTrig Sample.noTrig Sample.closure 0
      (Sample.player (Vec3.mk 0.5 100 0.5) (Vec3.mk 0.2 0.3 0) false Sample.noControl)
      Sample.emptyWorld = Ok e' /\
    pos e' = Vec3.mk 0.7 100.3 0.5 /\
    vel e' = Vec3.mk (0.2 * 0.91) ((0.3 - 0.08 * 1) * Js.Math_fround (1 - 0.02)) 0 /\
    onGround e' = false.
Proof.
  destruct (free_flight_tick Sample.noTrig Sample.noTrig Sample.features
              (Sample.mcData "1.20.1" "1.20") Sample.closure 0
              (Sample.player (Vec3.mk 0.5 100 0.5) (Vec3.mk 0.2 0.3 0) false
                 Sample.noControl)
              Sample.emptyWorld)
    as (e' & He & Hp & Hv & Hg & _);
    try (vm_compute; reflexivity); try reflexivity.
  exists e'. split; [exact He|].
  split; [rewrite Hp; vm_compute; reflexivity|].
  split; [rewrite Hv; vm_compute; reflexivity | exact Hg].
Defined.
